(** * Rug checker: the risk-scoring core of [silentScan] / [rugCheck]

    A shallow embedding of the token scanner's scoring code and of the
    decision tails of its six fetchers (the multi-chain scanner and its
    single-chain twin carry the same scoring block, statement for statement,
    in [rugCheck] and in [silentScan]).

    Numbers that the fetchers hand to the scoring block are JavaScript
    numbers; they are modelled by [JS.number]: an exact rational or [NaN].
    The running [riskScore] only ever receives integer constants and
    [length * constant], so it is a [Z]. *)

From Stdlib Require Import ZArith QArith Qround Bool List String Ascii DecimalString Lia Lqa.
Import ListNotations.

Local Open Scope Z_scope.

(* ================================================================== *)
(** ** JavaScript numbers, as far as the scanner uses them *)
(* ================================================================== *)

Module JS.

Inductive number : Type :=
| NaN
| Num (q : Q).

(** An integer literal of the source ([7], [1000], ...). *)
Definition int (z : Z) : number := Num (inject_Z z).

(** [x < y]: false as soon as one side is [NaN]. *)
Definition lt (x y : number) : bool :=
  match x, y with
  | Num a, Num b => negb (Qle_bool b a)
  | _, _ => false
  end.

(** [x > y]. *)
Definition gt (x y : number) : bool := lt y x.

(** [Math.max(x, y)]: [NaN] as soon as one side is. *)
Definition max (x y : number) : number :=
  match x, y with
  | Num a, Num b => if Qle_bool a b then Num b else Num a
  | _, _ => NaN
  end.

(** [x === 0] on numbers. *)
Definition isZero (x : number) : bool :=
  match x with
  | Num a => Qeq_bool a 0
  | NaN => false
  end.

(** [v || 0] where [v] is [null] ([None]) or a number: [null], [NaN]
    and [0] are falsy. *)
Definition orZero (v : option number) : number :=
  match v with
  | None => int 0
  | Some NaN => int 0
  | Some (Num a) => if Qeq_bool a 0 then int 0 else Num a
  end.

(** [x <= y] and [x >= y]. *)
Definition le (x y : number) : bool :=
  match x, y with
  | Num a, Num b => Qle_bool a b
  | _, _ => false
  end.

Definition ge (x y : number) : bool := le y x.

(** [Math.round(x)]: the integer nearest to [x], halves going up. *)
Definition round (x : number) : number :=
  match x with
  | Num a => int (Qfloor (a + (1 # 2)))
  | NaN => NaN
  end.


End JS.

(* ================================================================== *)
(** ** Data model: what the fetchers return *)
(* ================================================================== *)

(** The five labels the scanner writes into [risk], [overallRisk] and
    [riskLevel]. *)
Inductive RiskLabel : Type := LOW | MEDIUM | HIGH | CRITICAL | UNKNOWN.

(** A fetcher returns one of two object shapes:
    [{ success: true, ...fields, risk }] or
    [{ success: false, error, risk }].
    [risk] is [None] when the object has no [risk] property, [error] is
    [None] when it has no [error] property. *)
Inductive SignalResult (D : Type) : Type :=
| Success (risk : option RiskLabel) (fields : D)
| Failure (risk : option RiskLabel) (error : option string).

Arguments Success {D} risk fields.
Arguments Failure {D} risk error.

Definition success {D} (r : SignalResult D) : bool :=
  match r with
  | Success _ _ => true
  | Failure _ _ => false
  end.

Definition risk {D} (r : SignalResult D) : option RiskLabel :=
  match r with
  | Success k _ => k
  | Failure k _ => k
  end.

(** [checkTokenInfo]: the fields the scoring block reads.
    [contractAge] is [None] for [null]. *)
Record TokenInfo : Type := {
  ownerStatus : string;
  contractAge : option JS.number
}.

(** One entry of [findings.critical] / [.high] / [.medium]:
    [{ name: func, risk: '...' }]. *)
Record Finding : Type := {
  name : string;
  why : string
}.

(** The object [{ critical: [], high: [], medium: [], info: [] }] that
    [checkContractFunctions] fills with findings and [checkHoneypot] with
    issues. *)
Record Buckets (A : Type) : Type := {
  critical : list A;
  high : list A;
  medium : list A;
  info : list A
}.

Arguments critical {A} _.
Arguments high {A} _.
Arguments medium {A} _.
Arguments info {A} _.

Definition Findings : Type := Buckets Finding.

Record ContractScan : Type := {
  functionCount : nat;
  findings : Findings
}.

Record Liquidity : Type := {
  liquidityUSD : JS.number;
  safePercent : JS.number
}.

Record Holders : Type := {
  top1Percent : JS.number;
  top10Percent : JS.number
}.

(** [checkHoneypot]: [buyTax] / [sellTax] are [None] for [null]. *)
Record Honeypot : Type := {
  isHoneypot : bool;
  buyTax : option JS.number;
  sellTax : option JS.number;
  isProxy : bool;
  isMintable : bool;
  canTakeBackOwnership : bool;
  ownerCanChangeBalance : bool;
  hiddenOwner : bool;
  cannotBuy : bool;
  cannotSellAll : bool;
  transferPausable : bool;
  isBlacklisted : bool;
  tradingCooldown : bool;
  isAntiWhale : bool;
  isOpenSource : bool;
  isAirdropScam : bool
}.

Record Sentiment : Type := {
  sentimentScore : JS.number;
  sentimentLevel : string
}.

(** The [results] object of [rugCheck] and [silentScan]. *)
Record Results : Type := {
  tokenInfo : SignalResult TokenInfo;
  contractScan : SignalResult ContractScan;
  liquidity : SignalResult Liquidity;
  holders : SignalResult Holders;
  honeypot : SignalResult Honeypot;
  sentiment : SignalResult Sentiment
}.

(* ================================================================== *)
(** ** The scoring block *)
(* ================================================================== *)

(** Each block of the source takes the running [riskScore] and returns
    it updated. *)

Definition scoreTokenInfo (results : Results) (riskScore : Z) : Z :=
  match tokenInfo results with
  | Success _ t =>
      let riskScore :=
        if String.eqb (ownerStatus t) "active" then riskScore + 15 else riskScore in
      match contractAge t with
      | Some age =>
          if JS.lt age (JS.int 7) then riskScore + 10
          else if JS.lt age (JS.int 30) then riskScore + 5
          else riskScore
      | None => riskScore
      end
  | Failure _ _ => riskScore
  end.

Definition scoreContractScan (results : Results) (riskScore : Z) : Z :=
  match contractScan results with
  | Success _ c =>
      let riskScore := riskScore + Z.of_nat (List.length (critical (findings c))) * 10 in
      let riskScore := riskScore + Z.of_nat (List.length (high (findings c))) * 5 in
      let riskScore := riskScore + Z.of_nat (List.length (medium (findings c))) * 2 in
      riskScore
  | Failure _ _ => riskScore + 15
  end.

Definition scoreLiquidity (results : Results) (riskScore : Z) : Z :=
  match liquidity results with
  | Success _ l =>
      let riskScore :=
        if JS.lt (liquidityUSD l) (JS.int 1000) then riskScore + 15
        else if JS.lt (liquidityUSD l) (JS.int 10000) then riskScore + 10
        else if JS.lt (liquidityUSD l) (JS.int 50000) then riskScore + 5
        else riskScore in
      if JS.lt (safePercent l) (JS.int 20) then riskScore + 10
      else if JS.lt (safePercent l) (JS.int 50) then riskScore + 7
      else if JS.lt (safePercent l) (JS.int 80) then riskScore + 3
      else riskScore
  | Failure _ _ => riskScore + 20
  end.

Definition scoreHolders (results : Results) (riskScore : Z) : Z :=
  match holders results with
  | Success _ h =>
      let riskScore :=
        if JS.gt (top1Percent h) (JS.int 30) then riskScore + 15
        else if JS.gt (top1Percent h) (JS.int 20) then riskScore + 10
        else if JS.gt (top1Percent h) (JS.int 10) then riskScore + 5
        else riskScore in
      if JS.gt (top10Percent h) (JS.int 70) then riskScore + 10
      else if JS.gt (top10Percent h) (JS.int 50) then riskScore + 5
      else riskScore
  | Failure _ _ => riskScore
  end.

Definition scoreHoneypot (results : Results) (riskScore : Z) : Z :=
  match honeypot results with
  | Success _ h =>
      let riskScore := if isHoneypot h then riskScore + 50 else riskScore in
      let riskScore := if cannotBuy h then riskScore + 20 else riskScore in
      let riskScore := if cannotSellAll h then riskScore + 20 else riskScore in
      let riskScore := if ownerCanChangeBalance h then riskScore + 15 else riskScore in
      let riskScore := if hiddenOwner h then riskScore + 10 else riskScore in
      let riskScore := if canTakeBackOwnership h then riskScore + 10 else riskScore in
      let sellTax := JS.orZero (sellTax h) in
      if JS.gt sellTax (JS.int 50) then riskScore + 25
      else if JS.gt sellTax (JS.int 20) then riskScore + 10
      else if JS.gt sellTax (JS.int 10) then riskScore + 5
      else riskScore
  | Failure _ _ => riskScore
  end.

(** The value of [riskScore] just before [Math.min(riskScore, 100)]. *)
Definition rawScore (results : Results) : Z :=
  let riskScore := 0 in
  let riskScore := scoreTokenInfo results riskScore in
  let riskScore := scoreContractScan results riskScore in
  let riskScore := scoreLiquidity results riskScore in
  let riskScore := scoreHolders results riskScore in
  let riskScore := scoreHoneypot results riskScore in
  riskScore.

(** The final [riskScore]. *)
Definition riskScore (results : Results) : Z :=
  Z.min (rawScore results) 100.

(** [overallRisk] / [riskLevel] from the final [riskScore]. *)
Definition riskLevelOf (riskScore : Z) : RiskLabel :=
  if 75 <=? riskScore then CRITICAL
  else if 50 <=? riskScore then HIGH
  else if 25 <=? riskScore then MEDIUM
  else LOW.

Definition riskLevel (results : Results) : RiskLabel :=
  riskLevelOf (riskScore results).

(** What [silentScan] returns about the score. *)
Record ScanReport : Type := {
  report_results : Results;
  report_riskScore : Z;
  report_riskLevel : RiskLabel
}.

Definition silentScan (results : Results) : ScanReport :=
  {| report_results := results;
     report_riskScore := riskScore results;
     report_riskLevel := riskLevel results |}.

(* ================================================================== *)
(** ** The fetchers: from what the network answered to the result *)
(* ================================================================== *)

(** The fetchers wrap their body in [try { ... } catch (error) { ... }].
    [Threw message] stands for a run that reached the [catch] with
    [error.message = message], [Returned a] for a run that reached the
    decisions below with the locals [a]. *)
Inductive Attempt (A : Type) : Type :=
| Returned (a : A)
| Threw (message : string).

Arguments Returned {A} a.
Arguments Threw {A} message.

(** [rugCheck] runs the same score block as [silentScan] in the middle of
    the report it prints.  Its print statements are not inside a [try]:
    one that throws (a date or a number it cannot format) leaves
    [rugCheck] with that exception and without a report.  The print
    statements are not modelled; [printing] is their outcome.  When none
    throws, [riskScore] and [overallRisk] are the score and the level of
    [silentScan]. *)
Definition rugCheck (printing : Attempt unit) (results : Results) : Attempt ScanReport :=
  match printing with
  | Returned _ =>
      Returned {| report_results := results;
                  report_riskScore := riskScore results;
                  report_riskLevel := riskLevel results |}
  | Threw message => Threw message
  end.

(** *** Module 1: [checkTokenInfo] *)

Record TokenReads : Type := {
  (** [await token.owner()]: [None] when the call throws. *)
  read_owner : option string;
  (** The local [contractAge] when the result is built. *)
  read_contractAge : option JS.number
}.

Definition zeroAddress : string := "0x0000000000000000000000000000000000000000".

Definition checkTokenInfo (reads : Attempt TokenReads) : SignalResult TokenInfo :=
  match reads with
  | Returned r =>
      let ownerStatus :=
        match read_owner r with
        | Some owner => if String.eqb owner zeroAddress then "renounced" else "active"
        | None => "no-owner-function"
        end%string in
      Success (Some (if String.eqb ownerStatus "active" then MEDIUM else LOW))
              {| ownerStatus := ownerStatus; contractAge := read_contractAge r |}
  | Threw message => Failure (Some UNKNOWN) (Some message)
  end.

(** *** Module 2: [checkContractFunctions] *)

(** [DANGEROUS_KEYWORDS], the four families the scan uses. *)
Definition minting : list string := ["mint"; "issue"; "create"; "inflate"]%string.
Definition pausing : list string := ["pause"; "freeze"; "halt"; "suspend"]%string.
Definition blacklisting : list string := ["blacklist"; "blocklist"; "ban"; "exclude"]%string.
Definition fees : list string := ["setfee"; "settax"; "updatefee"; "updatetax"]%string.

(** [s.includes(k)]. *)
Definition includes (s k : string) : bool :=
  match String.index 0 k s with
  | Some _ => true
  | None => false
  end.

(** [c.toLowerCase()] on an ASCII character.  The strings of the model
    are ASCII strings (addresses, chain keys, Solidity identifiers); on a
    string with other characters [toLowerCase] also maps those, the
    Kelvin sign U+212A to [k] among them, which is not modelled. *)
Definition lowerAscii (c : ascii) : ascii :=
  let n := nat_of_ascii c in
  if ((65 <=? n) && (n <=? 90))%nat then ascii_of_nat (n + 32) else c.

Fixpoint toLowerCase (s : string) : string :=
  match s with
  | EmptyString => EmptyString
  | String c rest => String (lowerAscii c) (toLowerCase rest)
  end.

(** One entry of the parsed ABI. *)
Record AbiItem : Type := {
  item_type : string;
  item_name : string
}.

(** The explorer's reply: its [status] and what [JSON.parse(result.result)]
    gave. *)
Record AbiReply : Type := {
  reply_status : string;
  reply_abi : Attempt (list AbiItem)
}.

Definition push {A} (l : list A) (x : A) : list A := l ++ [x].

(** The body of [for (const func of functions)]. *)
Definition scanFunction (findings : Findings) (func : string) : Findings :=
  let findings :=
    if existsb (includes func) minting
    then {| critical := push (critical findings) {| name := func; why := "Can create new tokens" |};
            high := high findings; medium := medium findings; info := info findings |}
    else findings in
  let findings :=
    if existsb (includes func) pausing
    then {| critical := critical findings;
            high := push (high findings) {| name := func; why := "Can freeze trading" |};
            medium := medium findings; info := info findings |}
    else findings in
  let findings :=
    if existsb (includes func) blacklisting
    then {| critical := critical findings;
            high := push (high findings) {| name := func; why := "Can block wallets" |};
            medium := medium findings; info := info findings |}
    else findings in
  if existsb (includes func) fees
  then {| critical := critical findings; high := high findings;
          medium := push (medium findings) {| name := func; why := "Can change fees" |};
          info := info findings |}
  else findings.

(** The label ladder at the end of [checkContractFunctions]. *)
Definition findingsRisk (findings : Findings) : RiskLabel :=
  if (0 <? List.length (critical findings))%nat then CRITICAL
  else if (2 <=? List.length (high findings))%nat then HIGH
  else if (0 <? List.length (high findings))%nat
          || (2 <=? List.length (medium findings))%nat then MEDIUM
  else LOW.

(** [apiKey] is [chain.explorer.apiKey] seen as a condition; [result] is
    what [fetchJSON] resolved to ([None] for [null]). *)
Definition checkContractFunctions (apiKey : bool) (result : option AbiReply)
  : SignalResult ContractScan :=
  if negb apiKey then Failure (Some UNKNOWN) None
  else
    match result with
    | None => Failure (Some UNKNOWN) None
    | Some reply =>
        if negb (String.eqb (reply_status reply) "1") then Failure (Some UNKNOWN) None
        else
          match reply_abi reply with
          | Threw message => Failure (Some UNKNOWN) (Some message)
          | Returned abi =>
              let functions :=
                map (fun f => toLowerCase (item_name f))
                    (filter (fun item => String.eqb (item_type item) "function") abi) in
              let findings :=
                fold_left scanFunction functions
                          {| critical := []; high := []; medium := []; info := [] |} in
              Success (Some (findingsRisk findings))
                      {| functionCount := List.length functions; findings := findings |}
          end
    end.

(** *** Module 3: [checkLiquidity] *)

(** The locals of [checkLiquidity] once the price and pool lookups are
    done. *)
Record PoolReads : Type := {
  priceInUSD : JS.number;
  dexScreenerLiquidity : JS.number;
  dexLiquidity : JS.number;
  (** [safePercent] after the LP-lock check. *)
  lockedShare : JS.number
}.

(** The label ladder at the end of [checkLiquidity]. *)
Definition liquidityRisk (liquidityUSD safePercent : JS.number) : RiskLabel :=
  if JS.lt liquidityUSD (JS.int 10000) && JS.lt safePercent (JS.int 50) then CRITICAL
  else if JS.lt liquidityUSD (JS.int 50000) || JS.lt safePercent (JS.int 80) then MEDIUM
  else if JS.lt safePercent (JS.int 50) then HIGH
  else LOW.

Definition checkLiquidity (reads : Attempt PoolReads) : SignalResult Liquidity :=
  match reads with
  | Returned p =>
      if JS.isZero (priceInUSD p)
      then Failure (Some CRITICAL) (Some "No liquidity pool found"%string)
      else
        let liquidityUSD := JS.max (dexScreenerLiquidity p) (dexLiquidity p) in
        let safePercent := lockedShare p in
        Success (Some (liquidityRisk liquidityUSD safePercent))
                {| liquidityUSD := liquidityUSD; safePercent := safePercent |}
  | Threw message => Failure (Some UNKNOWN) (Some message)
  end.

(** *** Module 4: [checkHolders] *)

(** The ladder both the Moralis and the GoPlus branch end with. *)
Definition holdersRisk (top1Percent top10Percent : JS.number) : RiskLabel :=
  if JS.gt top1Percent (JS.int 30) then CRITICAL
  else if JS.gt top1Percent (JS.int 20) || JS.gt top10Percent (JS.int 70) then HIGH
  else if JS.gt top1Percent (JS.int 10) || JS.gt top10Percent (JS.int 50) then MEDIUM
  else LOW.

(** [moralis] / [goplus]: the locals [top1Percent], [top10Percent] after
    the holder loop of that branch, [None] when the branch found no
    holder list or threw. *)
Definition checkHolders (moralis goplus : option Holders) : SignalResult Holders :=
  match moralis with
  | Some h => Success (Some (holdersRisk (top1Percent h) (top10Percent h))) h
  | None =>
      match goplus with
      | Some h => Success (Some (holdersRisk (top1Percent h) (top10Percent h))) h
      | None => Failure (Some UNKNOWN) (Some "No holder data available"%string)
      end
  end.

(** *** Module 5: [checkHoneypot] *)

(** The messages pushed into [result.issues]; a constructor stands for
    the message text, with the number the text prints. *)
Inductive Issue : Type :=
| HoneypotCannotSell
| CannotBuy
| CannotSellAllTokens
| FlaggedAirdropScam
| ExtremeSellTax (tax : JS.number)
| OwnerCanChangeBalances
| CanReclaimOwnership
| HiddenOwner
| MintableSupply
| HighSellTax (tax : JS.number)
| ProxyContract
| TransfersCanBePaused
| BlacklistFunction
| TradingCooldown
| ModerateSellTax (tax : JS.number)
| ContractVerified
| AntiWhaleMechanism
| LpBarelySecured (share : JS.number)
| LpPartlySecured (share : JS.number)
| LpLockedOrBurned (share : JS.number).

(** [if (c) bucket.push(x)]. *)
Definition pushIf {A} (c : bool) (x : A) (bucket : list A) : list A :=
  if c then push bucket x else bucket.

(** [tax !== null && test(tax)], then the push of [mk tax]. *)
Definition pushTax (tax : option JS.number) (test : JS.number -> bool)
           (mk : JS.number -> Issue) (bucket : list Issue) : list Issue :=
  match tax with
  | Some t => pushIf (test t) (mk t) bucket
  | None => bucket
  end.

(** What GoPlus said about the token, after [toBool] / [toPercent]. *)
Record SecurityReads : Type := {
  flags : Honeypot;
  (** [result.lpHolders.length]. *)
  lpHolderCount : nat;
  (** [result.lpSafePercent]. *)
  lpSafePercent : JS.number
}.

Inductive SecurityReply : Type :=
| ApiFailed                      (* [!response || response.code !== 1] *)
| NotListed                      (* [!tokenData] *)
| Listed (d : SecurityReads).

(** [result.issues] once all pushes are done. *)
Definition issuesOf (d : SecurityReads) : Buckets Issue :=
  let r := flags d in
  let lp := (0 <? lpHolderCount d)%nat in
  let share := lpSafePercent d in
  {| critical :=
       pushIf (lp && JS.lt share (JS.int 20)) (LpBarelySecured share)
         (pushTax (sellTax r) (fun t => JS.gt t (JS.int 50)) ExtremeSellTax
           (pushIf (isAirdropScam r) FlaggedAirdropScam
             (pushIf (cannotSellAll r) CannotSellAllTokens
               (pushIf (cannotBuy r) CannotBuy
                 (pushIf (isHoneypot r) HoneypotCannotSell [])))));
     high :=
       pushIf (lp && negb (JS.lt share (JS.int 20)) && JS.lt share (JS.int 50))
              (LpPartlySecured share)
         (pushTax (sellTax r) (fun t => JS.gt t (JS.int 20) && JS.le t (JS.int 50)) HighSellTax
           (pushIf (isMintable r) MintableSupply
             (pushIf (hiddenOwner r) HiddenOwner
               (pushIf (canTakeBackOwnership r) CanReclaimOwnership
                 (pushIf (ownerCanChangeBalance r) OwnerCanChangeBalances [])))));
     medium :=
       pushTax (sellTax r) (fun t => JS.gt t (JS.int 10) && JS.le t (JS.int 20)) ModerateSellTax
         (pushIf (tradingCooldown r) TradingCooldown
           (pushIf (isBlacklisted r) BlacklistFunction
             (pushIf (transferPausable r) TransfersCanBePaused
               (pushIf (isProxy r) ProxyContract []))));
     info :=
       pushIf (lp && negb (JS.lt share (JS.int 20)) && negb (JS.lt share (JS.int 50))
                  && JS.ge share (JS.int 80))
              (LpLockedOrBurned share)
         (pushIf (isAntiWhale r) AntiWhaleMechanism
           (pushIf (isOpenSource r) ContractVerified [])) |}.

(** The label ladder at the end of [checkHoneypot]. *)
Definition honeypotRisk (isHoneypot : bool) (issues : Buckets Issue) : RiskLabel :=
  if isHoneypot || (0 <? List.length (critical issues))%nat then CRITICAL
  else if (2 <=? List.length (high issues))%nat then HIGH
  else if (0 <? List.length (high issues))%nat
          || (2 <=? List.length (medium issues))%nat then MEDIUM
  else LOW.

Definition checkHoneypot (reply : Attempt SecurityReply) : SignalResult Honeypot :=
  match reply with
  | Returned ApiFailed => Failure (Some UNKNOWN) (Some "Security API failed"%string)
  | Returned NotListed =>
      Failure (Some UNKNOWN) (Some "Token not in security database"%string)
  | Returned (Listed d) =>
      Success (Some (honeypotRisk (isHoneypot (flags d)) (issuesOf d))) (flags d)
  | Threw message => Failure (Some UNKNOWN) (Some message)
  end.

(** *** Module 6: [checkSocialSentiment] *)

Inductive DexReply : Type :=
| NoPairs                               (* no [response.pairs] *)
| NoChainPairs (chainName : string)     (* [chainPairs.length === 0] *)
| MainPair (score : JS.number).         (* the clamped local [sentimentScore] *)

Definition sentimentLevelOf (sentimentScore : JS.number) : string :=
  if JS.ge sentimentScore (JS.int 70) then "VERY BULLISH"
  else if JS.ge sentimentScore (JS.int 55) then "BULLISH"
  else if JS.ge sentimentScore (JS.int 45) then "NEUTRAL"
  else if JS.ge sentimentScore (JS.int 30) then "BEARISH"
  else "VERY BEARISH".

(** The successful result is built without a [risk] property. *)
Definition checkSocialSentiment (reply : Attempt DexReply) : SignalResult Sentiment :=
  match reply with
  | Returned NoPairs =>
      Failure (Some UNKNOWN) (Some "Token not found on DexScreener"%string)
  | Returned (NoChainPairs chainName) =>
      Failure (Some UNKNOWN) (Some ("Token not found on " ++ chainName)%string)
  | Returned (MainPair score) =>
      Success None {| sentimentScore := JS.round score;
                      sentimentLevel := sentimentLevelOf score |}
  | Threw message => Failure (Some UNKNOWN) (Some message)
  end.

(** *** Everything a fetcher can return *)





(* ================================================================== *)
(** ** Vocabulary of the properties *)
(* ================================================================== *)

(** The six signals of a scan. *)
Inductive Signal : Type :=
| TokenInfoSignal | ContractScanSignal | LiquiditySignal
| HoldersSignal | HoneypotSignal | SentimentSignal.

(** The [success] flag of a signal of [results]. *)
Definition succeeded (s : Signal) (results : Results) : bool :=
  match s with
  | TokenInfoSignal => success (tokenInfo results)
  | ContractScanSignal => success (contractScan results)
  | LiquiditySignal => success (liquidity results)
  | HoldersSignal => success (holders results)
  | HoneypotSignal => success (honeypot results)
  | SentimentSignal => success (sentiment results)
  end.

(** What the block of a signal adds to the running score.  The scoring
    code has no block for [results.sentiment]. *)
Definition added (s : Signal) (results : Results) (riskScore : Z) : Z :=
  match s with
  | TokenInfoSignal => scoreTokenInfo results riskScore - riskScore
  | ContractScanSignal => scoreContractScan results riskScore - riskScore
  | LiquiditySignal => scoreLiquidity results riskScore - riskScore
  | HoldersSignal => scoreHolders results riskScore - riskScore
  | HoneypotSignal => scoreHoneypot results riskScore - riskScore
  | SentimentSignal => 0
  end.

(** [results] with another sentiment result. *)
Definition withSentiment (results : Results) (s : SignalResult Sentiment) : Results :=
  {| tokenInfo := tokenInfo results;
     contractScan := contractScan results;
     liquidity := liquidity results;
     holders := holders results;
     honeypot := honeypot results;
     sentiment := s |}.

(** *** "At least as adverse" *)










(** *** The honeypot block as a sum *)

(** [if (b) riskScore += p]. *)
Definition flagPoints (b : bool) (p : Z) : Z := if b then p else 0.

(** The sell-tax ladder of the honeypot block. *)
Definition sellTaxPoints (tax : option JS.number) : Z :=
  let sellTax := JS.orZero tax in
  if JS.gt sellTax (JS.int 50) then 25
  else if JS.gt sellTax (JS.int 20) then 10
  else if JS.gt sellTax (JS.int 10) then 5
  else 0.

Definition honeypotPoints (h : Honeypot) : Z :=
  flagPoints (isHoneypot h) 50
  + flagPoints (cannotBuy h) 20
  + flagPoints (cannotSellAll h) 20
  + flagPoints (ownerCanChangeBalance h) 15
  + flagPoints (hiddenOwner h) 10
  + flagPoints (canTakeBackOwnership h) 10
  + sellTaxPoints (sellTax h).

(** *** Sample scans *)

Definition noFlags (honey : bool) (tax : option JS.number) : Honeypot :=
  {| isHoneypot := honey; buyTax := tax; sellTax := tax;
     isProxy := false; isMintable := false; canTakeBackOwnership := false;
     ownerCanChangeBalance := false; hiddenOwner := false;
     cannotBuy := false; cannotSellAll := false; transferPausable := false;
     isBlacklisted := false; tradingCooldown := false; isAntiWhale := false;
     isOpenSource := true; isAirdropScam := false |}.

Definition pool (price usd share : Z) : Attempt PoolReads :=
  Returned {| priceInUSD := JS.int price;
              dexScreenerLiquidity := JS.int usd;
              dexLiquidity := JS.int 0;
              lockedShare := JS.int share |}.

Definition share (top1 top10 : Z) : option Holders :=
  Some {| top1Percent := JS.int top1; top10Percent := JS.int top10 |}.

Definition abiOf (names : list string) : option AbiReply :=
  Some {| reply_status := "1";
          reply_abi := Returned (map (fun n => {| item_type := "function";
                                                  item_name := n |}) names) |}.

Definition calmMarket : SignalResult Sentiment :=
  checkSocialSentiment (Returned (MainPair (JS.int 50))).

(** Active owner, 3 days old, one minting function, $500 of liquidity with
    10% secured, top holder 40%, top ten 80%, no honeypot, 5% sell tax. *)
Definition riskyToken : Results :=
  {| tokenInfo :=
       checkTokenInfo (Returned {| read_owner := Some "0x00000000000000000000000000000000000000a1"%string;
                                   read_contractAge := Some (JS.int 3) |});
     contractScan := checkContractFunctions true (abiOf ["transfer"; "Mint"]%string);
     liquidity := checkLiquidity (pool 1 500 10);
     holders := checkHolders (share 40 80) None;
     honeypot := checkHoneypot (Returned (Listed
       {| flags := noFlags false (Some (JS.int 5));
          lpHolderCount := 0; lpSafePercent := JS.int 0 |}));
     sentiment := calmMarket |}.

(** Renounced owner, 400 days old, nothing found, $200k of liquidity with
    95% secured, top holder 5%, top ten 20%, no honeypot, 2% tax. *)
Definition cleanToken : Results :=
  {| tokenInfo :=
       checkTokenInfo (Returned {| read_owner := Some zeroAddress;
                                   read_contractAge := Some (JS.int 400) |});
     contractScan := checkContractFunctions true (abiOf ["transfer"; "approve"]%string);
     liquidity := checkLiquidity (pool 1 200000 95);
     holders := checkHolders (share 5 20) None;
     honeypot := checkHoneypot (Returned (Listed
       {| flags := noFlags false (Some (JS.int 2));
          lpHolderCount := 0; lpSafePercent := JS.int 0 |}));
     sentiment := calmMarket |}.

(** [cleanToken] flagged as a honeypot and nothing else. *)
Definition honeypotOnly : Results :=
  {| tokenInfo := tokenInfo cleanToken;
     contractScan := contractScan cleanToken;
     liquidity := liquidity cleanToken;
     holders := holders cleanToken;
     honeypot := checkHoneypot (Returned (Listed
       {| flags := noFlags true (Some (JS.int 2));
          lpHolderCount := 0; lpSafePercent := JS.int 0 |}));
     sentiment := calmMarket |}.

(** Every fetcher reached its [catch]. *)
Definition allDown : Results :=
  {| tokenInfo := checkTokenInfo (Threw "timeout");
     contractScan := checkContractFunctions true None;
     liquidity := checkLiquidity (Threw "timeout");
     holders := checkHolders None None;
     honeypot := checkHoneypot (Threw "timeout");
     sentiment := checkSocialSentiment (Threw "timeout") |}.

(** [cleanToken] with one signal replaced by its failed result. *)
Definition cleanBut (s : Signal) : Results :=
  {| tokenInfo := if match s with TokenInfoSignal => true | _ => false end
                  then tokenInfo allDown else tokenInfo cleanToken;
     contractScan := if match s with ContractScanSignal => true | _ => false end
                     then contractScan allDown else contractScan cleanToken;
     liquidity := if match s with LiquiditySignal => true | _ => false end
                  then liquidity allDown else liquidity cleanToken;
     holders := if match s with HoldersSignal => true | _ => false end
                then holders allDown else holders cleanToken;
     honeypot := if match s with HoneypotSignal => true | _ => false end
                 then honeypot allDown else honeypot cleanToken;
     sentiment := if match s with SentimentSignal => true | _ => false end
                  then sentiment allDown else sentiment cleanToken |}.




(* ================================================================== *)
(** ** Strings and objects of the scripts *)
(* ================================================================== *)

(** [s.startsWith(p)]. *)
Definition startsWith (s p : string) : bool := String.prefix p s.

(** [`${n}`] for an integer [n]. *)
Definition showZ (z : Z) : string := NilZero.string_of_int (Z.to_int z).

(** [parts.join(sep)]. *)
Fixpoint join (sep : string) (parts : list string) : string :=
  match parts with
  | [] => EmptyString
  | [p] => p
  | p :: rest => (p ++ sep ++ join sep rest)%string
  end.

(** The names every object literal inherits from [Object.prototype]; all
    of them hold a function or an object, so [obj[key]] is truthy for
    them. *)
Definition objectPrototype : list string :=
  ["constructor"; "__defineGetter__"; "__defineSetter__"; "hasOwnProperty";
   "__lookupGetter__"; "__lookupSetter__"; "isPrototypeOf";
   "propertyIsEnumerable"; "toString"; "valueOf"; "__proto__";
   "toLocaleString"]%string.

(** What [obj[key]] finds in an object literal [obj]. *)
Inductive Property (A : Type) : Type :=
| Own (a : A)
| Inherited (key : string)
| Undefined.

Arguments Own {A} a.
Arguments Inherited {A} key.
Arguments Undefined {A}.

Fixpoint ownProperty {A} (obj : list (string * A)) (key : string) : option A :=
  match obj with
  | [] => None
  | (k, a) :: rest => if String.eqb k key then Some a else ownProperty rest key
  end.

Definition getProperty {A} (obj : list (string * A)) (key : string) : Property A :=
  match ownProperty obj key with
  | Some a => Own a
  | None => if existsb (String.eqb key) objectPrototype then Inherited key else Undefined
  end.

(* ================================================================== *)
(** ** chains.js: the chain table and its lookups *)
(* ================================================================== *)

Module Chains.

(** The fields of a chain profile that the lookups and the provider
    selection read.  A profile without [rpcBackup] has [rpcBackup := []]:
    every reader tests [chain.rpcBackup && chain.rpcBackup.length > 0]. *)
Record Chain : Type := {
  name : string;
  shortName : string;
  chainId : Z;
  rpc : string;
  rpcBackup : list string;
  explorerApiKey : string;
  coingeckoId : string
}.

Definition CHAINS : list (string * Chain) := [
  ("eth", {| name := "Ethereum"; shortName := "ETH"; chainId := 1;
      rpc := "https://ethereum-rpc.publicnode.com";
      rpcBackup := [];
      explorerApiKey := "K6K49AIR8VNA9WWMWZ1M9CZTV6BNRYETZ5"; coingeckoId := "ethereum" |});
  ("bsc", {| name := "BNB Smart Chain"; shortName := "BSC"; chainId := 56;
      rpc := "https://bsc-rpc.publicnode.com";
      rpcBackup := [];
      explorerApiKey := ""; coingeckoId := "binancecoin" |});
  ("base", {| name := "Base"; shortName := "BASE"; chainId := 8453;
      rpc := "https://base-rpc.publicnode.com";
      rpcBackup := [];
      explorerApiKey := ""; coingeckoId := "ethereum" |});
  ("polygon", {| name := "Polygon"; shortName := "MATIC"; chainId := 137;
      rpc := "https://polygon-bor-rpc.publicnode.com";
      rpcBackup := [];
      explorerApiKey := ""; coingeckoId := "matic-network" |});
  ("arbitrum", {| name := "Arbitrum One"; shortName := "ARB"; chainId := 42161;
      rpc := "https://arbitrum-one-rpc.publicnode.com";
      rpcBackup := [];
      explorerApiKey := ""; coingeckoId := "ethereum" |});
  ("avalanche", {| name := "Avalanche C-Chain"; shortName := "AVAX"; chainId := 43114;
      rpc := "https://avalanche-c-chain-rpc.publicnode.com";
      rpcBackup := [];
      explorerApiKey := ""; coingeckoId := "avalanche-2" |});
  ("optimism", {| name := "Optimism"; shortName := "OP"; chainId := 10;
      rpc := "https://optimism-rpc.publicnode.com";
      rpcBackup := [];
      explorerApiKey := ""; coingeckoId := "ethereum" |});
  ("fantom", {| name := "Fantom"; shortName := "FTM"; chainId := 250;
      rpc := "https://fantom-rpc.publicnode.com";
      rpcBackup := [];
      explorerApiKey := ""; coingeckoId := "fantom" |});
  ("cronos", {| name := "Cronos"; shortName := "CRO"; chainId := 25;
      rpc := "https://cronos-evm-rpc.publicnode.com";
      rpcBackup := [];
      explorerApiKey := ""; coingeckoId := "crypto-com-chain" |});
  ("linea", {| name := "Linea"; shortName := "LINEA"; chainId := 59144;
      rpc := "https://linea-rpc.publicnode.com";
      rpcBackup := [];
      explorerApiKey := ""; coingeckoId := "ethereum" |});
  ("monad", {| name := "Monad"; shortName := "MONAD"; chainId := 143;
      rpc := "https://monad-mainnet.drpc.org";
      rpcBackup := ["https://rpc2.monad.xyz"];
      explorerApiKey := ""; coingeckoId := "monad" |});
  ("abstract", {| name := "Abstract"; shortName := "ABS"; chainId := 2741;
      rpc := "https://api.mainnet.abs.xyz";
      rpcBackup := [];
      explorerApiKey := ""; coingeckoId := "ethereum" |})
]%string.

Definition aliases : list (string * string) :=
  [("ethereum", "eth"); ("binance", "bsc"); ("bnb", "bsc"); ("poly", "polygon");
   ("matic", "polygon"); ("arb", "arbitrum"); ("avax", "avalanche");
   ("op", "optimism"); ("ftm", "fantom"); ("cro", "cronos"); ("mon", "monad");
   ("abs", "abstract")]%string.

(** What [getChain] returns: a profile, something inherited from
    [Object.prototype] (truthy, but no profile), or [null] / [undefined]. *)
Inductive Lookup : Type :=
| FoundChain (chain : Chain)
| FoundInherited (key : string)
| NotFound.

Definition found (p : Property Chain) : Lookup :=
  match p with
  | Own chain => FoundChain chain
  | Inherited key => FoundInherited key
  | Undefined => NotFound
  end.

Definition getChain (chainKey : string) : Lookup :=
  let key := toLowerCase chainKey in
  match getProperty CHAINS key with
  | Own chain => FoundChain chain
  | Inherited k => FoundInherited k
  | Undefined =>
      match getProperty aliases key with
      | Own target => found (getProperty CHAINS target)
      | Inherited _ => NotFound
      | Undefined => NotFound
      end
  end.

Record Supported : Type := {
  key : string;
  supported_name : string;
  supported_shortName : string
}.

Definition getSupportedChains : list Supported :=
  map (fun entry => {| key := fst entry;
                       supported_name := name (snd entry);
                       supported_shortName := shortName (snd entry) |}) CHAINS.

Definition DEFAULT_CHAIN : string := "eth".

End Chains.

(* ================================================================== *)
(** ** The scanner's chain context: [getChainConfig], [getProvider],
       [switchToBackupRpc] *)
(* ================================================================== *)

Module Rpc.

(** [getChainConfig]: the profile, or the thrown error's message. *)
Definition getChainConfig (chainKey : string) : Attempt Chains.Lookup :=
  match Chains.getChain chainKey with
  | Chains.NotFound =>
      Threw ("Unsupported chain: " ++ chainKey ++ ". Supported: "
             ++ join ", " (map Chains.key Chains.getSupportedChains))%string
  | chain => Returned chain
  end.

(** [chain.rpc] and [chain.rpcBackup] of what [getChain] returned; an
    inherited value has neither ([undefined]). *)
Definition rpcOf (chain : Chains.Lookup) : option string :=
  match chain with
  | Chains.FoundChain c => Some (Chains.rpc c)
  | _ => None
  end.

Definition backupsOf (chain : Chains.Lookup) : list string :=
  match chain with
  | Chains.FoundChain c => Chains.rpcBackup c
  | _ => []
  end.

(** [new ethers.JsonRpcProvider(url)], known by its URL ([None] for
    [undefined]). *)
Inductive Provider : Type := JsonRpcProvider (url : option string).

(** The module-level [providerCache] (a [Map], in insertion order) and
    [failedRpcs] (a [Set]). *)
Record State : Type := {
  providerCache : list (string * Provider);
  failedRpcs : list (option string)
}.

Definition sameUrl (a b : option string) : bool :=
  match a, b with
  | Some x, Some y => String.eqb x y
  | None, None => true
  | _, _ => false
  end.

(** [set.has(x)] and [set.add(x)]. *)
Definition setHas (set : list (option string)) (x : option string) : bool :=
  existsb (sameUrl x) set.

Definition setAdd (set : list (option string)) (x : option string)
  : list (option string) :=
  if setHas set x then set else (set ++ [x])%list.

(** [map.has(k)], [map.get(k)] and [map.set(k, v)]. *)
Definition mapHas {V} (m : list (string * V)) (k : string) : bool :=
  match ownProperty m k with
  | Some _ => true
  | None => false
  end.

Definition mapGet {V} (m : list (string * V)) (k : string) : option V :=
  ownProperty m k.

Fixpoint mapSet {V} (m : list (string * V)) (k : string) (v : V) : list (string * V) :=
  match m with
  | [] => [(k, v)]
  | (k', v') :: rest =>
      if String.eqb k' k then (k', v) :: rest else (k', v') :: mapSet rest k v
  end.

(** [getProvider]: the provider returned ([None] for [undefined]) or the
    thrown message, and the state afterwards. *)
Definition getProvider (s : State) (chainKey : string)
  : Attempt (option Provider) * State :=
  match Chains.getChain chainKey with
  | Chains.NotFound => (Threw ("Unsupported chain: " ++ chainKey)%string, s)
  | chain =>
      let cacheKey := (chainKey ++ "_provider")%string in
      let s :=
        if negb (mapHas (providerCache s) cacheKey) then
          let rpcsToTry := (rpcOf chain :: map Some (backupsOf chain))%list in
          let rpcUrl :=
            match find (fun rpc => negb (setHas (failedRpcs s) rpc)) rpcsToTry with
            | Some rpc => rpc
            | None => rpcOf chain
            end in
          {| providerCache := mapSet (providerCache s) cacheKey (JsonRpcProvider rpcUrl);
             failedRpcs := failedRpcs s |}
        else s in
      (Returned (mapGet (providerCache s) cacheKey), s)
  end.

(** [switchToBackupRpc]: [Some true], [Some false], or [None] for the
    bare [return], and the state afterwards. *)
Definition switchToBackupRpc (s : State) (chainKey : string) : option bool * State :=
  match Chains.getChain chainKey with
  | Chains.NotFound => (None, s)
  | chain =>
      let cacheKey := (chainKey ++ "_provider")%string in
      let failed := setAdd (failedRpcs s) (rpcOf chain) in
      match find (fun backupRpc => negb (setHas failed (Some backupRpc))) (backupsOf chain) with
      | Some backupRpc =>
          (Some true,
           {| providerCache :=
                mapSet (providerCache s) cacheKey (JsonRpcProvider (Some backupRpc));
              failedRpcs := failed |})
      | None => (Some false, {| providerCache := providerCache s; failedRpcs := failed |})
      end
  end.

(** [checkContractFunctions(tokenAddress, chainKey)] up to its first
    test: [getChainConfig] runs outside the [try], then
    [!chain.explorer.apiKey] decides whether anything is fetched.  An
    inherited value has no [explorer], so reading [explorer.apiKey] throws
    a TypeError. *)
Definition checkContractFunctionsOn (chainKey : string) (result : option AbiReply)
  : Attempt (SignalResult ContractScan) :=
  match getChainConfig chainKey with
  | Threw message => Threw message
  | Returned (Chains.FoundChain chain) =>
      Returned (checkContractFunctions
                  (negb (String.eqb (Chains.explorerApiKey chain) "")) result)
  | Returned _ =>
      Threw "Cannot read properties of undefined (reading 'apiKey')"
  end.

End Rpc.

(* ================================================================== *)
(** ** The scanner's burn-address test and holder loop *)
(* ================================================================== *)

(** [BURN_ADDRESSES] of chains.js. *)
Definition BURN_ADDRESSES : list string :=
  ["0x0000000000000000000000000000000000000000";
   "0x000000000000000000000000000000000000dead";
   "0xdead000000000000000042069420694206942069";
   "0x0000000000000000000000000000000000000001"]%string.

Definition isBurnAddress (address : string) : bool :=
  let addr := toLowerCase address in
  if existsb (fun ex => String.eqb (toLowerCase ex) addr) BURN_ADDRESSES then true
  else if startsWith addr "0xdead" then true
  else if String.eqb addr "0x0000000000000000000000000000000000000000" then true
  else false.

(** One entry of Moralis' [data.result]; [percentage] is what
    [parseFloat(holder.percentage_relative_to_total_supply)] gave. *)
Record MoralisOwner : Type := {
  owner_address : string;
  percentage : JS.number
}.

(** One entry of the local [holders]. *)
Record HolderRow : Type := {
  row_address : string;
  row_percent : JS.number
}.

(** The locals of the holder loop. *)
Record Tally : Type := {
  tally_burned : JS.number;
  tally_top1 : JS.number;
  tally_top10 : JS.number;
  tally_holders : list HolderRow
}.

(** The body of the loop over [data.result].  [plus] stands for the
    addition of JavaScript doubles behind [+=], which is not modelled. *)
Definition tallyOwner (plus : JS.number -> JS.number -> JS.number)
           (t : Tally) (holder : MoralisOwner) : Tally :=
  let percent := JS.orZero (Some (percentage holder)) in
  let addr := toLowerCase (owner_address holder) in
  if isBurnAddress addr
  then {| tally_burned := plus (tally_burned t) percent;
          tally_top1 := tally_top1 t;
          tally_top10 := tally_top10 t;
          tally_holders := tally_holders t |}
  else
    let holders := push (tally_holders t) {| row_address := addr; row_percent := percent |} in
    {| tally_burned := tally_burned t;
       tally_top1 := if (List.length holders =? 1)%nat then percent else tally_top1 t;
       tally_top10 := if (List.length holders <=? 10)%nat
                      then plus (tally_top10 t) percent else tally_top10 t;
       tally_holders := holders |}.

Definition tallyOwners (plus : JS.number -> JS.number -> JS.number)
           (result : list MoralisOwner) : Tally :=
  fold_left (tallyOwner plus) result
            {| tally_burned := JS.int 0; tally_top1 := JS.int 0;
               tally_top10 := JS.int 0; tally_holders := [] |}.

(** [topHolders: holders.slice(0, 10)]. *)
Definition topHolders (t : Tally) : list HolderRow := firstn 10 (tally_holders t).

(** The Moralis branch of [checkHolders]: what it hands to the label
    ladder, [None] when [data.result] is missing or empty. *)
Definition moralisHolders (plus : JS.number -> JS.number -> JS.number)
           (result : option (list MoralisOwner)) : option Holders :=
  match result with
  | Some (holder :: rest) =>
      let t := tallyOwners plus (holder :: rest) in
      Some {| top1Percent := tally_top1 t; top10Percent := tally_top10 t |}
  | _ => None
  end.

(** The row the loop pushes for an owner that is not a burn address, and
    the owners it pushes a row for. *)
Definition rowOf (holder : MoralisOwner) : HolderRow :=
  {| row_address := toLowerCase (owner_address holder);
     row_percent := JS.orZero (Some (percentage holder)) |}.

Definition countedOwners (result : list MoralisOwner) : list MoralisOwner :=
  filter (fun holder => negb (isBurnAddress (owner_address holder))) result.

(** Two tallies that agree on everything but the burned share. *)
Definition sameCount (t u : Tally) : Prop :=
  tally_top1 t = tally_top1 u
  /\ tally_top10 t = tally_top10 u
  /\ tally_holders t = tally_holders u.

(* ================================================================== *)
(** ** telegram-bot.js *)
(* ================================================================== *)

Module Bot.

(** *** Helpers *)

Definition isHexDigit (c : ascii) : bool :=
  let n := nat_of_ascii c in
  ((48 <=? n) && (n <=? 57) || (97 <=? n) && (n <=? 102)
   || (65 <=? n) && (n <=? 70))%nat.

(** [/^0x[a-fA-F0-9]{40}$/.test(address)]. *)
Definition isValidAddress (address : string) : bool :=
  match address with
  | String "0" (String "x" digits) =>
      (String.length digits =? 40)%nat && forallb isHexDigit (list_ascii_of_string digits)
  | _ => false
  end.

Definition backslash : ascii := ascii_of_nat 92.

(** The class [[_*[\]()~`>#+\-=|{}.!]]. *)
Definition isSpecial (c : ascii) : bool :=
  existsb (Ascii.eqb c) (list_ascii_of_string "_*[]()~`>#+-=|{}.!").

(** [text.replace(/[...]/g, '\\$&')]. *)
Fixpoint esc (text : string) : string :=
  match text with
  | EmptyString => EmptyString
  | String c rest =>
      if isSpecial c then String backslash (String c (esc rest))
      else String c (esc rest)
  end.

(** The levels as the scanner writes them. *)
Definition labelText (level : RiskLabel) : string :=
  match level with
  | LOW => "LOW"
  | MEDIUM => "MEDIUM"
  | HIGH => "HIGH"
  | CRITICAL => "CRITICAL"
  | UNKNOWN => "UNKNOWN"
  end.

Inductive Emoji : Type := RedCircle | OrangeCircle | YellowCircle | GreenCircle | WhiteCircle.

Definition getRiskEmoji (level : string) : Emoji :=
  if String.eqb level "CRITICAL" then RedCircle
  else if String.eqb level "HIGH" then OrangeCircle
  else if String.eqb level "MEDIUM" then YellowCircle
  else if String.eqb level "LOW" then GreenCircle
  else WhiteCircle.

(** [addr.slice(0, 6) + '...' + addr.slice(-4)]; [None] is [null] or
    [undefined]. *)
Definition shortAddr (addr : option string) : string :=
  match addr with
  | None => "Unknown"
  | Some EmptyString => "Unknown"
  | Some a =>
      (substring 0 6 a ++ "..." ++ substring (String.length a - 4) 4 a)%string
  end.

(** The values [formatAge] gets: [contractAge] is [null], or the
    [Math.floor] of a day count, which is an integer or [NaN]. *)
Inductive Days : Type :=
| NoDays
| NaNDays
| IntDays (days : Z).

Definition formatAge (days : Days) : string :=
  match days with
  | NoDays => "Unknown"
  | NaNDays => "NaNy NaNmo"
  | IntDays days =>
      if days <? 1 then (showZ (days * 24) ++ "h")%string
      else if days <? 30 then (showZ days ++ "d")%string
      else if days <? 365 then (showZ (days / 30) ++ "mo")%string
      else (showZ (days / 365) ++ "y " ++ showZ ((days mod 365) / 30) ++ "mo")%string
  end.

(** *** The risk bars *)

Inductive Cell : Type := Full | Blank.

(** [glyph.repeat(count)] for an integer [count]: a RangeError when the
    count is negative. *)
Definition repeatGlyph (glyph : Cell) (count : Z) : Attempt (list Cell) :=
  if count <? 0 then Threw ("Invalid count value: " ++ showZ count)%string
  else Returned (List.repeat glyph (Z.to_nat count)).

(** The bar of [formatSummary] and [formatFullReport]. *)
Definition summaryBar (riskScore : Z) : Attempt (list Cell) :=
  match repeatGlyph Full (riskScore / 10) with
  | Threw message => Threw message
  | Returned filled =>
      match repeatGlyph Blank (10 - riskScore / 10) with
      | Threw message => Threw message
      | Returned blank => Returned (filled ++ blank)%list
      end
  end.

(** [''.repeat(count)]: the empty string, with the same RangeError for a
    negative count. *)
Definition repeatEmpty (count : Z) : Attempt (list Cell) :=
  if count <? 0 then Threw ("Invalid count value: " ++ showZ count)%string
  else Returned [].

(** The bar of the console report of the multi-chain [rugCheck], between
    its two parentheses.  Both strings it repeats are the empty string
    there. *)
Definition consoleBar (riskScore : Z) : Attempt (list Cell) :=
  match repeatEmpty (riskScore / 5) with
  | Threw message => Threw message
  | Returned filled =>
      match repeatEmpty (20 - riskScore / 5) with
      | Threw message => Threw message
      | Returned blank => Returned (filled ++ blank)%list
      end
  end.

(** The same bar in the single-chain [rugCheck], which repeats the two
    glyphs. *)
Definition consoleBarSingleChain (riskScore : Z) : Attempt (list Cell) :=
  match repeatGlyph Full (riskScore / 5) with
  | Threw message => Threw message
  | Returned filled =>
      match repeatGlyph Blank (20 - riskScore / 5) with
      | Threw message => Threw message
      | Returned blank => Returned (filled ++ blank)%list
      end
  end.

(** *** [handleScan]: the scan cache and the social buttons *)

(** [map.delete(k)]. *)
Fixpoint mapDelete {V} (m : list (string * V)) (k : string) : list (string * V) :=
  match m with
  | [] => []
  | (k', v) :: rest => if String.eqb k' k then rest else (k', v) :: mapDelete rest k
  end.

(** [scanCache.set(cacheKey, scanData)] and the eviction that follows. *)
Definition cacheScan {V} (scanCache : list (string * V)) (chatId : Z)
           (tokenAddress : string) (scanData : V) : list (string * V) :=
  let cacheKey := (showZ chatId ++ "_" ++ tokenAddress)%string in
  let scanCache := Rpc.mapSet scanCache cacheKey scanData in
  if (100 <? List.length scanCache)%nat then
    match scanCache with
    | (firstKey, _) :: _ => mapDelete scanCache firstKey
    | [] => scanCache
    end
  else scanCache.

Record Social : Type := {
  social_type : string;
  social_url : string
}.

Inductive Button : Type :=
| WebsiteButton (url : string)
| TwitterButton (url : string)
| TelegramButton (url : string).

(** The body of [socials.forEach]. *)
Definition addSocial (socialButtons : list Button) (s : Social) : list Button :=
  let socialButtons :=
    if String.eqb (social_type s) "twitter" && (List.length socialButtons <? 3)%nat
    then push socialButtons (TwitterButton (social_url s)) else socialButtons in
  if String.eqb (social_type s) "telegram" && (List.length socialButtons <? 3)%nat
  then push socialButtons (TelegramButton (social_url s)) else socialButtons.

(** [socialButtons] of [handleScan]; [websites] holds the [url]s. *)
Definition socialButtons (websites : list string) (socials : list Social) : list Button :=
  let buttons :=
    match websites with
    | url :: _ => [WebsiteButton url]
    | [] => []
    end in
  fold_left addSocial socials buttons.

(** *** The long-report splitter of the [full_] callback *)

(** A JavaScript string as its UTF-16 code units; [.length] is the
    length of the list. *)
Definition Text : Type := list N.

Definition NL : N := 10%N.

(** [text.split('\n')]. *)
Fixpoint splitLines (text : Text) : list Text :=
  match text with
  | [] => [[]]
  | c :: rest =>
      if (c =? NL)%N then [] :: splitLines rest
      else
        match splitLines rest with
        | line :: lines => (c :: line) :: lines
        | [] => [[c]]
        end
  end.

(** The body of [for (const line of lines)], on the pair
    [(chunks, current)]. *)
Definition chunkStep (state : list Text * Text) (line : Text) : list Text * Text :=
  let (chunks, current) := state in
  if (3900 <? List.length (current ++ line ++ [NL]))%nat
  then (push chunks current, (line ++ [NL])%list)
  else (chunks, (current ++ line ++ [NL])%list).

Definition splitReport (fullReport : Text) : list Text :=
  let (chunks, current) := fold_left chunkStep (splitLines fullReport) ([], []) in
  match current with
  | [] => chunks
  | _ :: _ => push chunks current
  end.

(** The messages the callback sends: one when the report has at most
    4000 units, the chunks otherwise. *)
Definition reportMessages (fullReport : Text) : list Text :=
  if (4000 <? List.length fullReport)%nat then splitReport fullReport
  else [fullReport].

End Bot.

(** A line with the line feed the splitter appends to it. *)
Definition withNewline (line : Bot.Text) : Bot.Text := (line ++ [Bot.NL])%list.

(** A chunk that is neither empty nor above the splitter's limit. *)
Definition chunkSized (chunk : Bot.Text) : Prop :=
  (1 <= List.length chunk <= 3900)%nat.

(* ================================================================== *)
(** ** 7-holder-analysis.js: [calculateHolderRisk] *)
(* ================================================================== *)

Module HolderScript.

(** One entry of [analysis.whales]; [type] is ['contract'] or
    ['wallet']. *)
Record HolderInfo : Type := {
  rank : Z;
  address : string;
  type : string
}.

Record Analysis : Type := {
  totalHolders : Z;
  burnedPercent : JS.number;
  top10Percent : JS.number;
  top1Percent : JS.number;
  whales : list HolderInfo
}.

(** The messages of the risks; a constructor stands for the text, with
    the number the text prints. *)
Inductive Message : Type :=
| ExtremeConcentration (top1 : JS.number)
| HighConcentration (top1 : JS.number)
| ModerateConcentration (top1 : JS.number)
| VeryConcentrated (top10 : JS.number)
| Concentrated (top10 : JS.number)
| WalletWhales (count : nat)
| SupplyBurned (burned : JS.number).

Record Risk : Type := {
  level : string;
  message : Message
}.

Record RiskResult : Type := {
  risks : list Risk;
  overallRisk : RiskLabel
}.

Definition calculateHolderRisk (analysis : Analysis) : RiskResult :=
  let risks := [] in
  let risks :=
    if JS.gt (top1Percent analysis) (JS.int 30)
    then push risks {| level := "CRITICAL";
                       message := ExtremeConcentration (top1Percent analysis) |}
    else if JS.gt (top1Percent analysis) (JS.int 20)
    then push risks {| level := "HIGH";
                       message := HighConcentration (top1Percent analysis) |}
    else if JS.gt (top1Percent analysis) (JS.int 10)
    then push risks {| level := "MEDIUM";
                       message := ModerateConcentration (top1Percent analysis) |}
    else risks in
  let risks :=
    if JS.gt (top10Percent analysis) (JS.int 70)
    then push risks {| level := "CRITICAL";
                       message := VeryConcentrated (top10Percent analysis) |}
    else if JS.gt (top10Percent analysis) (JS.int 50)
    then push risks {| level := "HIGH";
                       message := Concentrated (top10Percent analysis) |}
    else risks in
  let walletWhales := filter (fun w => String.eqb (type w) "wallet") (whales analysis) in
  let risks :=
    if (3 <? List.length walletWhales)%nat
    then push risks {| level := "MEDIUM";
                       message := WalletWhales (List.length walletWhales) |}
    else risks in
  let risks :=
    if JS.gt (burnedPercent analysis) (JS.int 50)
    then push risks {| level := "POSITIVE";
                       message := SupplyBurned (burnedPercent analysis) |}
    else risks in
  let criticalCount :=
    List.length (filter (fun r => String.eqb (level r) "CRITICAL") risks) in
  let highCount := List.length (filter (fun r => String.eqb (level r) "HIGH") risks) in
  let positiveCount :=
    List.length (filter (fun r => String.eqb (level r) "POSITIVE") risks) in
  {| risks := risks;
     overallRisk :=
       if (0 <? criticalCount)%nat then CRITICAL
       else if (0 <? highCount)%nat then HIGH
       else if (0 <? List.length risks - positiveCount)%nat then MEDIUM
       else LOW |}.

End HolderScript.

(** How grave a label is, to compare two of them. *)
Definition severity (label : RiskLabel) : nat :=
  match label with
  | LOW => 0
  | MEDIUM => 1
  | HIGH => 2
  | CRITICAL => 3
  | UNKNOWN => 0
  end.

(* ================================================================== *)
(** ** The standalone ABI scanner: [extractFunctions], [scanForDangers],
       [calculateRisk] *)
(* ================================================================== *)

Module AbiScript.

(** [DANGEROUS_PATTERNS]. *)
Definition minting : list string :=
  ["mint"; "issue"; "create"; "generate"; "inflate"]%string.
Definition pausing : list string :=
  ["pause"; "freeze"; "stop"; "halt"; "suspend"]%string.
Definition blacklisting : list string :=
  ["blacklist"; "blocklist"; "ban"; "exclude"; "block"; "restrict"]%string.
Definition fees : list string :=
  ["fee"; "tax"; "setfee"; "settax"; "updatefee"; "updatetax"; "slippage"]%string.
Definition ownership : list string :=
  ["owner"; "admin"; "governance"; "controller"; "authority"; "manager"]%string.
Definition upgrades : list string :=
  ["upgrade"; "migrate"; "setimplementation"; "proxy"]%string.
Definition liquidity : list string :=
  ["removeliquidity"; "withdrawliquidity"; "drainliquidity"; "skim"]%string.

(** One entry of the ABI; [inputs] holds the [type] of each input. *)
Record Item : Type := {
  item_type : string;
  item_name : string;
  stateMutability : option string;
  item_inputs : option (list string)
}.

Record FunctionInfo : Type := {
  name : string;
  mutability : option string;
  inputs : string
}.

(** [abi] is [None] when it is missing or not an array. *)
Definition extractFunctions (abi : option (list Item)) : list FunctionInfo :=
  match abi with
  | None => []
  | Some items =>
      map (fun item =>
             {| name := item_name item;
                mutability := stateMutability item;
                inputs := match item_inputs item with
                          | Some types => join ", " types
                          | None => ""
                          end |})
          (filter (fun item => String.eqb (item_type item) "function") items)
  end.

Record Finding : Type := {
  function : string;
  risk : string;
  reason : string;
  finding_mutability : option string
}.

Definition found (func : FunctionInfo) (risk reason : string) : Finding :=
  {| function := name func; risk := risk; reason := reason;
     finding_mutability := mutability func |}.

(** The body of [for (const func of functions)]. *)
Definition scanFunction (findings : Buckets Finding) (func : FunctionInfo)
  : Buckets Finding :=
  let nameLower := toLowerCase (name func) in
  let hit (patterns : list string) := existsb (includes nameLower) patterns in
  let critical :=
    pushIf (hit minting)
           (found func "MINTING" "Can create new tokens, diluting holders")
           (critical findings) in
  let high :=
    pushIf (hit pausing) (found func "PAUSING" "Can freeze all trading")
           (high findings) in
  let high :=
    pushIf (hit blacklisting)
           (found func "BLACKLISTING" "Can block wallets from selling (honeypot)") high in
  let medium :=
    pushIf (hit fees) (found func "FEE CONTROL" "Can change transaction fees")
           (medium findings) in
  let info :=
    pushIf (hit ownership) (found func "OWNERSHIP" "Ownership/admin related function")
           (info findings) in
  let medium :=
    pushIf (hit upgrades)
           (found func "UPGRADEABLE" "Contract can be modified after deployment") medium in
  let high :=
    pushIf (hit liquidity) (found func "LIQUIDITY DRAIN" "Can remove liquidity") high in
  {| critical := critical; high := high; medium := medium; info := info |}.

Definition scanForDangers (functions : list FunctionInfo) : Buckets Finding :=
  fold_left scanFunction functions
            {| critical := []; high := []; medium := []; info := [] |}.

Definition calculateRisk (findings : Buckets Finding) : RiskLabel :=
  let criticalCount := List.length (critical findings) in
  let highCount := List.length (high findings) in
  let mediumCount := List.length (medium findings) in
  if (0 <? criticalCount)%nat then CRITICAL
  else if (2 <=? highCount)%nat then HIGH
  else if (highCount =? 1)%nat || (2 <=? mediumCount)%nat then MEDIUM
  else LOW.

End AbiScript.

(** The findings of the unified scanner for a list of function names as
    the ABI gives them. *)
Definition unifiedFindings (names : list string) : Findings :=
  fold_left scanFunction (map toLowerCase names)
            {| critical := []; high := []; medium := []; info := [] |}.

(** Two scans of the same functions so far: the second has at least as
    many findings of each severity. *)
Definition noFewerFindings {A B} (f : Buckets A) (g : Buckets B) : Prop :=
  (List.length (critical f) <= List.length (critical g))%nat
  /\ (List.length (high f) <= List.length (high g))%nat
  /\ (List.length (medium f) <= List.length (medium g))%nat.

(* ================================================================== *)
(** ** The scanner's native-token price *)
(* ================================================================== *)

Module NativePrice.

(** One entry of [priceCache]. *)
Record Cached : Type := {
  price : JS.number;
  time : Z
}.

Definition PRICE_CACHE_DURATION : Z := 60000.

(** The hard-coded defaults, as fractions. *)
Definition fallbacks : list (string * Q) :=
  [("ethereum", 3500 # 1); ("binancecoin", 600 # 1); ("matic-network", 4 # 5);
   ("avalanche-2", 35 # 1); ("fantom", 1 # 2)]%string.

(** A number in a condition. *)
Definition truthy (x : JS.number) : bool :=
  match x with
  | JS.Num q => negb (Qeq_bool q 0)
  | JS.NaN => false
  end.

(** What the function returns: a number, or for an identifier that
    happens to be an inherited name, whatever the [fallbacks] object
    inherits under it. *)
Inductive Price : Type :=
| Number (x : JS.number)
| InheritedValue (key : string).

(** [fallbacks[id] || 1]. *)
Definition fallbackPrice (coingeckoId : string) : Price :=
  match getProperty fallbacks coingeckoId with
  | Own q => if Qeq_bool q 0 then Number (JS.int 1) else Number (JS.Num q)
  | Inherited key => InheritedValue key
  | Undefined => Number (JS.int 1)
  end.

(** The body of [getNativeTokenPrice] once [chain.native.coingeckoId] is
    read.  [now] is [Date.now()] at the cache test and [later] at the
    cache write; [gecko] is what [response?.[id]?.usd] gave ([None] for
    [undefined]), or the throw of the request; [dex] is what
    [parseFloat(dexResponse.pairs[0].priceUsd)] gave when that field is
    truthy, read only after a throw. *)
Definition getNativeTokenPrice (priceCache : list (string * Cached))
           (coingeckoId : string) (now later : Z)
           (gecko : Attempt (option JS.number))
           (dex : Attempt (option JS.number))
  : Price * list (string * Cached) :=
  let cacheKey := coingeckoId in
  let fresh :=
    match Rpc.mapGet priceCache cacheKey with
    | Some cached =>
        if now - time cached <? PRICE_CACHE_DURATION then Some (price cached) else None
    | None => None
    end in
  match fresh with
  | Some p => (Number p, priceCache)
  | None =>
      let fallback := (fallbackPrice coingeckoId, priceCache) in
      match gecko with
      | Returned (Some usd) =>
          if truthy usd
          then (Number usd,
                Rpc.mapSet priceCache cacheKey {| price := usd; time := later |})
          else fallback
      | Returned None => fallback
      | Threw _ =>
          match dex with
          | Returned (Some p) =>
              (Number p, Rpc.mapSet priceCache cacheKey {| price := p; time := later |})
          | Returned None => fallback
          | Threw _ => fallback
          end
      end
  end.

End NativePrice.

(* ================================================================== *)
(** ** The standalone liquidity script: [getPoolLiquidity],
       [checkLPHolders], [analyzeLiquidity] *)
(* ================================================================== *)

Module LiquidityScript.

(** The labels of [liquidityRisk] and [lpRisk]; each is the first word
    of the text, as in ['SAFE - Good liquidity']. *)
Inductive PoolLabel : Type :=
| PoolCritical
| PoolHigh
| PoolMedium
| PoolLow
| PoolSafe.

(** The risk ladder at the end of [getPoolLiquidity]. *)
Definition liquidityRiskOf (estimatedValueUSD : JS.number) : PoolLabel :=
  if JS.lt estimatedValueUSD (JS.int 1000) then PoolCritical
  else if JS.lt estimatedValueUSD (JS.int 10000) then PoolHigh
  else if JS.lt estimatedValueUSD (JS.int 50000) then PoolMedium
  else if JS.lt estimatedValueUSD (JS.int 100000) then PoolLow
  else PoolSafe.

(** The risk ladder at the end of [checkLPHolders]. *)
Definition lpRiskOf (safePercent : JS.number) : PoolLabel :=
  if JS.ge safePercent (JS.int 95) then PoolSafe
  else if JS.ge safePercent (JS.int 80) then PoolLow
  else if JS.ge safePercent (JS.int 50) then PoolMedium
  else if JS.ge safePercent (JS.int 20) then PoolHigh
  else PoolCritical.

(** What the two functions measured on the chain for one pool, before
    their own arithmetic on it. *)
Record Measured : Type := {
  measured_baseToken : string;
  measured_valueUSD : JS.number;
  measured_burnedPercent : JS.number;
  measured_lockedPercent : JS.number
}.

(** One entry of [poolAnalysis]: [{ ...liquidity, ...lpHolders }], the
    fields that are read again. *)
Record Pool : Type := {
  baseToken : string;
  estimatedValueUSD : JS.number;
  liquidityRisk : PoolLabel;
  burnedPercent : JS.number;
  lockedPercent : JS.number;
  safePercent : JS.number;
  atRiskPercent : JS.number;
  lpRisk : PoolLabel
}.

(** [plus] and [minus] are the [+] and [-] of JavaScript numbers. *)
Definition poolOf (plus minus : JS.number -> JS.number -> JS.number) (m : Measured)
  : Pool :=
  let safePercent := plus (measured_burnedPercent m) (measured_lockedPercent m) in
  let atRiskPercent := minus (JS.int 100) safePercent in
  {| baseToken := measured_baseToken m;
     estimatedValueUSD := measured_valueUSD m;
     liquidityRisk := liquidityRiskOf (measured_valueUSD m);
     burnedPercent := measured_burnedPercent m;
     lockedPercent := measured_lockedPercent m;
     safePercent := safePercent;
     atRiskPercent := atRiskPercent;
     lpRisk := lpRiskOf safePercent |}.

(** The two lines under [Warnings:]. *)
Inductive Warning : Type :=
| LowLiquidity
| LpCanBeRemoved.

(** The three objects [analyzeLiquidity] returns:
    [{ success: false, error: 'No pools found', overallRisk: 'CRITICAL - No liquidity' }],
    [{ success: true, pools, mainPool, overallRisk }] (with the warnings
    it printed), and [{ success: false, error, overallRisk: 'UNKNOWN' }]. *)
Inductive Report : Type :=
| NoPools
| Analysed (pools : list Pool) (mainPool : Pool) (overallRisk : RiskLabel)
           (warnings : list Warning)
| Errored (error : string).

(** The loop [for (const pool of pools)]: the first throw of
    [getPoolLiquidity] or [checkLPHolders] leaves it. *)
Fixpoint analysePools (plus minus : JS.number -> JS.number -> JS.number)
         (pools : list (Attempt Measured)) (poolAnalysis : list Pool)
  : Attempt (list Pool) :=
  match pools with
  | [] => Returned poolAnalysis
  | Returned m :: rest =>
      analysePools plus minus rest (push poolAnalysis (poolOf plus minus m))
  | Threw message :: _ => Threw message
  end.

(** [(a, b) => a.estimatedValueUSD > b.estimatedValueUSD ? a : b]. *)
Definition richer (a b : Pool) : Pool :=
  if JS.gt (estimatedValueUSD a) (estimatedValueUSD b) then a else b.

Definition overallRiskOf (mainPool : Pool) : RiskLabel :=
  let liquidityOK := JS.ge (estimatedValueUSD mainPool) (JS.int 10000) in
  let lpSecure := JS.ge (safePercent mainPool) (JS.int 80) in
  if liquidityOK && lpSecure then LOW
  else if liquidityOK || lpSecure then MEDIUM
  else if JS.ge (estimatedValueUSD mainPool) (JS.int 1000)
          || JS.ge (safePercent mainPool) (JS.int 20) then HIGH
  else CRITICAL.

Definition warningsOf (mainPool : Pool) (overallRisk : RiskLabel) : list Warning :=
  match overallRisk with
  | CRITICAL | HIGH =>
      let warnings := [] in
      let warnings :=
        if JS.lt (estimatedValueUSD mainPool) (JS.int 10000)
        then push warnings LowLiquidity else warnings in
      if JS.lt (safePercent mainPool) (JS.int 80)
      then push warnings LpCanBeRemoved else warnings
  | _ => []
  end.

(** [pools] is what [findPool] found, each pool with what the two
    readers then measured on it or with their throw. *)
Definition analyzeLiquidity (plus minus : JS.number -> JS.number -> JS.number)
           (pools : list (Attempt Measured)) : Report :=
  match pools with
  | [] => NoPools
  | _ :: _ =>
      match analysePools plus minus pools [] with
      | Threw message => Errored message
      | Returned [] => Errored "Reduce of empty array with no initial value"
      | Returned (first :: others) =>
          let mainPool := fold_left richer others first in
          let overallRisk := overallRiskOf mainPool in
          Analysed (first :: others) mainPool overallRisk
                   (warningsOf mainPool overallRisk)
      end
  end.

(** How grave a pool label is on the scale of [severity]; the overall
    risk has no SAFE, which counts as LOW. *)
Definition poolSeverity (label : PoolLabel) : nat :=
  match label with
  | PoolSafe => 0
  | PoolLow => 0
  | PoolMedium => 1
  | PoolHigh => 2
  | PoolCritical => 3
  end.

End LiquidityScript.

(** Two pools of the same value, the first with its LP burned; numbers
    that need no rounding, so that [+] and [-] are exact. *)
Definition twoEqualPools : list LiquidityScript.Measured :=
  [{| LiquidityScript.measured_baseToken := "WETH";
      LiquidityScript.measured_valueUSD := JS.int 20000;
      LiquidityScript.measured_burnedPercent := JS.int 90;
      LiquidityScript.measured_lockedPercent := JS.int 0 |};
   {| LiquidityScript.measured_baseToken := "USDC";
      LiquidityScript.measured_valueUSD := JS.int 20000;
      LiquidityScript.measured_burnedPercent := JS.int 0;
      LiquidityScript.measured_lockedPercent := JS.int 0 |}].

(** [x + y] and [x - y] on proper numbers. *)
Definition exactPlus (x y : JS.number) : JS.number :=
  match x, y with
  | JS.Num a, JS.Num b => JS.Num (a + b)
  | _, _ => JS.NaN
  end.

Definition exactMinus (x y : JS.number) : JS.number :=
  match x, y with
  | JS.Num a, JS.Num b => JS.Num (a - b)
  | _, _ => JS.NaN
  end.

(* ================================================================== *)
(** ** The standalone honeypot script: the score of [checkHoneypot] *)
(* ================================================================== *)

Module HoneypotScript.

(** [result] as the scoring reads it: the flags after [toBool], the two
    taxes after [parseFloat(...) || 0], [result.lpSafePercent] and
    [result.lpHolders.length]. *)
Record Reads : Type := {
  isHoneypot : bool;
  cannotBuy : bool;
  cannotSellAll : bool;
  sellTaxNum : JS.number;
  buyTaxNum : JS.number;
  canTakeBackOwnership : bool;
  ownerCanChangeBalance : bool;
  hiddenOwner : bool;
  isMintable : bool;
  isProxy : bool;
  transferPausable : bool;
  isBlacklisted : bool;
  tradingCooldown : bool;
  slippageModifiable : bool;
  isAntiWhale : bool;
  isOpenSource : bool;
  isAirdropScam : bool;
  isInDex : bool;
  lpSafePercent : JS.number;
  lpHolders : nat
}.

(** The lines pushed to [issues]; a constructor stands for the text. *)
Inductive Issue : Type :=
| HoneypotDetected
| CannotBuy
| CannotSellAll
| ExtremeSellTax
| HighSellTax
| ModerateSellTax
| HighBuyTax
| ModerateBuyTax
| CanReclaimOwnership
| CanModifyBalances
| HiddenOwner
| Mintable
| ProxyContract
| TransfersPausable
| BlacklistExists
| CooldownEnabled
| SlippageModifiable
| AntiWhaleActive
| NotOpenSource
| OpenSource
| AirdropScam
| ListedOnDex
| LpBarelySecured
| LpPartlySecured
| LpSecured.

(** [riskScore] and [issues] while the block runs. *)
Record State : Type := {
  riskScore : Z;
  issues : Buckets Issue
}.

Inductive Bucket : Type := InCritical | InHigh | InMedium | InInfo.

(** [issues.<bucket>.push(issue)]. *)
Definition pushTo (bucket : Bucket) (issue : Issue) (issues : Buckets Issue)
  : Buckets Issue :=
  match bucket with
  | InCritical => {| critical := push (critical issues) issue; high := high issues;
                     medium := medium issues; info := info issues |}
  | InHigh => {| critical := critical issues; high := push (high issues) issue;
                 medium := medium issues; info := info issues |}
  | InMedium => {| critical := critical issues; high := high issues;
                   medium := push (medium issues) issue; info := info issues |}
  | InInfo => {| critical := critical issues; high := high issues;
                 medium := medium issues; info := push (info issues) issue |}
  end.

(** [riskScore += points; issues.<bucket>.push(issue)]. *)
Definition hit (points : Z) (bucket : Bucket) (issue : Issue) (s : State) : State :=
  {| riskScore := riskScore s + points; issues := pushTo bucket issue (issues s) |}.

(** A push with no points. *)
Definition note (issue : Issue) (s : State) : State :=
  {| riskScore := riskScore s; issues := pushTo InInfo issue (issues s) |}.

(** [if (flag) { ... }]. *)
Definition when (flag : bool) (body : State -> State) (s : State) : State :=
  if flag then body s else s.

Definition sellTaxStep (r : Reads) (s : State) : State :=
  if JS.gt (sellTaxNum r) (JS.int 50) then hit 30 InCritical ExtremeSellTax s
  else if JS.gt (sellTaxNum r) (JS.int 20) then hit 15 InHigh HighSellTax s
  else if JS.gt (sellTaxNum r) (JS.int 10) then hit 5 InMedium ModerateSellTax s
  else s.

Definition buyTaxStep (r : Reads) (s : State) : State :=
  if JS.gt (buyTaxNum r) (JS.int 20) then hit 10 InHigh HighBuyTax s
  else if JS.gt (buyTaxNum r) (JS.int 10) then hit 3 InMedium ModerateBuyTax s
  else s.

Definition openSourceStep (r : Reads) (s : State) : State :=
  if negb (isOpenSource r) then hit 10 InMedium NotOpenSource s
  else note OpenSource s.

Definition lpStep (r : Reads) (s : State) : State :=
  if JS.lt (lpSafePercent r) (JS.int 20) && (0 <? lpHolders r)%nat
  then hit 20 InCritical LpBarelySecured s
  else if JS.lt (lpSafePercent r) (JS.int 50) && (0 <? lpHolders r)%nat
  then hit 10 InHigh LpPartlySecured s
  else if JS.ge (lpSafePercent r) (JS.int 80) && (0 <? lpHolders r)%nat
  then note LpSecured s
  else s.

(** From [let riskScore = 0] to the LP assessment. *)
Definition scoreIssues (r : Reads) : State :=
  let s := {| riskScore := 0;
              issues := {| critical := []; high := []; medium := []; info := [] |} |} in
  let s := when (isHoneypot r) (hit 50 InCritical HoneypotDetected) s in
  let s := when (cannotBuy r) (hit 30 InCritical CannotBuy) s in
  let s := when (cannotSellAll r) (hit 25 InCritical CannotSellAll) s in
  let s := sellTaxStep r s in
  let s := buyTaxStep r s in
  let s := when (canTakeBackOwnership r) (hit 15 InHigh CanReclaimOwnership) s in
  let s := when (ownerCanChangeBalance r) (hit 20 InHigh CanModifyBalances) s in
  let s := when (hiddenOwner r) (hit 15 InHigh HiddenOwner) s in
  let s := when (isMintable r) (hit 10 InHigh Mintable) s in
  let s := when (isProxy r) (hit 10 InMedium ProxyContract) s in
  let s := when (transferPausable r) (hit 8 InMedium TransfersPausable) s in
  let s := when (isBlacklisted r) (hit 8 InMedium BlacklistExists) s in
  let s := when (tradingCooldown r) (hit 5 InMedium CooldownEnabled) s in
  let s := when (slippageModifiable r) (hit 5 InMedium SlippageModifiable) s in
  let s := when (isAntiWhale r) (hit 3 InMedium AntiWhaleActive) s in
  let s := openSourceStep r s in
  let s := when (isAirdropScam r) (hit 25 InCritical AirdropScam) s in
  let s := when (isInDex r) (note ListedOnDex) s in
  lpStep r s.

(** [riskScore = Math.min(riskScore, 100)]. *)
Definition cappedScore (r : Reads) : Z := Z.min (riskScore (scoreIssues r)) 100.

Definition riskLevel (r : Reads) : RiskLabel :=
  let riskScore := cappedScore r in
  if (60 <=? riskScore) || isHoneypot r then CRITICAL
  else if 40 <=? riskScore then HIGH
  else if 20 <=? riskScore then MEDIUM
  else LOW.

(** The points of the issues found are between these two sums. *)
Definition leastPoints (issues : Buckets Issue) : Z :=
  20 * Z.of_nat (List.length (critical issues))
  + 10 * Z.of_nat (List.length (high issues))
  + 3 * Z.of_nat (List.length (medium issues)).

Definition mostPoints (issues : Buckets Issue) : Z :=
  50 * Z.of_nat (List.length (critical issues))
  + 20 * Z.of_nat (List.length (high issues))
  + 10 * Z.of_nat (List.length (medium issues)).

Definition pointsWithinIssues (s : State) : Prop :=
  leastPoints (issues s) <= riskScore s <= mostPoints (issues s).

End HoneypotScript.

(** A token that GoPlus flags as a honeypot and as nothing else. *)
Definition flaggedHoneypot : HoneypotScript.Reads :=
  {| HoneypotScript.isHoneypot := true;
     HoneypotScript.cannotBuy := false;
     HoneypotScript.cannotSellAll := false;
     HoneypotScript.sellTaxNum := JS.int 0;
     HoneypotScript.buyTaxNum := JS.int 0;
     HoneypotScript.canTakeBackOwnership := false;
     HoneypotScript.ownerCanChangeBalance := false;
     HoneypotScript.hiddenOwner := false;
     HoneypotScript.isMintable := false;
     HoneypotScript.isProxy := false;
     HoneypotScript.transferPausable := false;
     HoneypotScript.isBlacklisted := false;
     HoneypotScript.tradingCooldown := false;
     HoneypotScript.slippageModifiable := false;
     HoneypotScript.isAntiWhale := false;
     HoneypotScript.isOpenSource := true;
     HoneypotScript.isAirdropScam := false;
     HoneypotScript.isInDex := true;
     HoneypotScript.lpSafePercent := JS.int 0;
     HoneypotScript.lpHolders := 0 |}.

(* ================================================================== *)
(** ** The ownership script: [analyzeOwnership] *)
(* ================================================================== *)

Module OwnershipScript.

Definition ZERO_ADDRESS : string := "0x0000000000000000000000000000000000000000".

(** The [analysis] object; [owner] is [None] for [null]. *)
Record Analysis : Type := {
  owner : option string;
  isRenounced : bool;
  canMint : bool;
  canPause : bool;
  canBlacklist : bool;
  canChangeFees : bool;
  riskLevel : RiskLabel;
  warnings : list string
}.

(** [[...].filter(Boolean).length]. *)
Definition dangerCount (canMint canPause canBlacklist canChangeFees : bool) : nat :=
  List.length (filter (fun b : bool => b) [canMint; canPause; canBlacklist; canChangeFees]).

(** [ownerCall] is what [contract.owner()] gave; the five booleans are
    what [hasFunction] returned for [mint], [pause], [blacklist],
    [setFee] and [setTax] (it never throws); [pausedCall] is what
    [contract.paused()] gave, asked only when [pause] is there. *)
Definition analyzeOwnership (ownerCall : Attempt string) (mint pause : bool)
           (pausedCall : Attempt bool) (blacklist setFee setTax : bool) : Analysis :=
  let warnings := [] in
  let '(owner, isRenounced, warnings) :=
    match ownerCall with
    | Returned owner =>
        if String.eqb owner ZERO_ADDRESS
        then (Some owner, true, warnings)
        else (Some owner, false, push warnings "Contract has an active owner"%string)
    | Threw _ => (None, false, warnings)
    end in
  let warnings :=
    if mint then push warnings "Owner can mint new tokens"%string else warnings in
  let warnings :=
    if pause
    then let warnings := push warnings "Owner can pause trading"%string in
         match pausedCall with
         | Returned true => push warnings "Contract is currently paused!"%string
         | Returned false => warnings
         | Threw _ => warnings
         end
    else warnings in
  let warnings :=
    if blacklist then push warnings "Owner can blacklist wallets"%string else warnings in
  let canChangeFees := setFee || setTax in
  let warnings :=
    if setFee || setTax
    then push warnings "Owner can modify fees/taxes"%string else warnings in
  let dangerCount := dangerCount mint pause blacklist canChangeFees in
  let riskLevel :=
    if isRenounced && (dangerCount =? 0)%nat then LOW
    else if isRenounced && (0 <? dangerCount)%nat then MEDIUM
    else if negb isRenounced && (dangerCount =? 0)%nat then MEDIUM
    else if (3 <=? dangerCount)%nat then CRITICAL
    else if (1 <=? dangerCount)%nat then HIGH
    else UNKNOWN in
  {| owner := owner; isRenounced := isRenounced;
     canMint := mint; canPause := pause; canBlacklist := blacklist;
     canChangeFees := canChangeFees;
     riskLevel := riskLevel; warnings := warnings |}.

End OwnershipScript.

(* ================================================================== *)
(** ** The single-chain scanner's [getEthPrice] *)
(* ================================================================== *)

Module EthPrice.

(** [cachedEthPrice] ([None] for [null]) and [ethPriceLastFetch]. *)
Record State : Type := {
  cachedEthPrice : option JS.number;
  ethPriceLastFetch : Z
}.

Definition ETH_PRICE_CACHE_DURATION : Z := 60000.

(** A cached price in a condition. *)
Definition truthy (price : option JS.number) : bool :=
  match price with
  | Some p => NativePrice.truthy p
  | None => false
  end.

(** [gecko] is what [response?.ethereum?.usd] gave, [dex] what
    [parseFloat(dexResponse.pair.priceUsd)] gave when that field is
    truthy, as for [getNativeTokenPrice].  The result is [None] for
    [null]. *)
Definition getEthPrice (s : State) (now : Z)
           (gecko : Attempt (option JS.number)) (dex : Attempt (option JS.number))
  : option JS.number * State :=
  if truthy (cachedEthPrice s) && (now - ethPriceLastFetch s <? ETH_PRICE_CACHE_DURATION)
  then (cachedEthPrice s, s)
  else
    let fallback :=
      (if truthy (cachedEthPrice s) then cachedEthPrice s else Some (JS.int 3500), s) in
    match gecko with
    | Returned (Some usd) =>
        if NativePrice.truthy usd
        then (Some usd, {| cachedEthPrice := Some usd; ethPriceLastFetch := now |})
        else fallback
    | Returned None => fallback
    | Threw _ =>
        match dex with
        | Returned (Some p) =>
            (Some p, {| cachedEthPrice := Some p; ethPriceLastFetch := now |})
        | Returned None => fallback
        | Threw _ => fallback
        end
    end.

End EthPrice.

(* ================================================================== *)
(** ** The sample scans, field by field *)
(* ================================================================== *)

Example riskyToken_fields :
  riskyToken =
  {| tokenInfo := Success (Some MEDIUM)
       {| ownerStatus := "active"; contractAge := Some (JS.int 3) |};
     contractScan := Success (Some CRITICAL)
       {| functionCount := 2;
          findings := {| critical := [{| name := "mint"; why := "Can create new tokens" |}];
                         high := []; medium := []; info := [] |} |};
     liquidity := Success (Some CRITICAL)
       {| liquidityUSD := JS.int 500; safePercent := JS.int 10 |};
     holders := Success (Some CRITICAL)
       {| top1Percent := JS.int 40; top10Percent := JS.int 80 |};
     honeypot := Success (Some LOW) (noFlags false (Some (JS.int 5)));
     sentiment := Success None
       {| sentimentScore := JS.int 50; sentimentLevel := "NEUTRAL" |} |}.
Proof. reflexivity. Qed.

Example allDown_fields :
  allDown =
  {| tokenInfo := Failure (Some UNKNOWN) (Some "timeout"%string);
     contractScan := Failure (Some UNKNOWN) None;
     liquidity := Failure (Some UNKNOWN) (Some "timeout"%string);
     holders := Failure (Some UNKNOWN) (Some "No holder data available"%string);
     honeypot := Failure (Some UNKNOWN) (Some "timeout"%string);
     sentiment := Failure (Some UNKNOWN) (Some "timeout"%string) |}.
Proof. reflexivity. Qed.

Example cleanToken_scores_zero :
  riskScore cleanToken = 0 /\ riskLevel cleanToken = LOW.
Proof. split; reflexivity. Qed.

Example includes_samples :
  includes "safemint" "mint" = true
  /\ includes "transfer" "mint" = false
  /\ includes "min" "mint" = false
  /\ toLowerCase "setTaxFee" = "settaxfee"%string.
Proof. repeat split. Qed.

(** A token whose price is [0] after both lookups: the early return of
    [checkLiquidity]. *)
Example checkLiquidity_no_pool (p : PoolReads) :
  JS.isZero (priceInUSD p) = true ->
  checkLiquidity (Returned p) =
  Failure (Some CRITICAL) (Some "No liquidity pool found"%string).
Proof. intro H. simpl. rewrite H. reflexivity. Qed.

(** Between a failed and a fetched contract scan the score is not
    ordered: the flat 15 of the failed scan is more than the 10 of one
    critical finding. *)
Example fetched_scan_can_score_lower :
  added ContractScanSignal allDown 0 = 15
  /\ added ContractScanSignal riskyToken 0 = 10.
Proof. split; reflexivity. Qed.

(** [rugCheck] reports what [silentScan] reports exactly when none of
    its print statements throws. *)
Example rugCheck_is_silentScan (printing : Attempt unit) (results : Results) :
  rugCheck printing results = Returned (silentScan results)
  <-> exists done, printing = Returned done.
Proof.
  destruct printing as [done|message]; simpl.
  - split; [intros _; exists done; reflexivity|reflexivity].
  - split; [discriminate|intros [done H]; discriminate H].
Qed.

(* ================================================================== *)
(** ** Facts about JavaScript comparisons *)
(* ================================================================== *)

Lemma JS_lt_spec (a b : Q) : JS.lt (JS.Num a) (JS.Num b) = true <-> (a < b)%Q.
Proof.
  unfold JS.lt. rewrite negb_true_iff.
  split; intro H.
  - apply Qnot_le_lt. intro Hle. apply Qle_bool_iff in Hle. congruence.
  - destruct (Qle_bool b a) eqn:E; [|reflexivity].
    apply Qle_bool_iff in E. exfalso. apply (Qlt_not_le _ _ H E).
Qed.

Lemma JS_lt_false (a b : Q) : JS.lt (JS.Num a) (JS.Num b) = false <-> (b <= a)%Q.
Proof.
  unfold JS.lt. rewrite negb_false_iff. apply Qle_bool_iff.
Qed.




(* ================================================================== *)
(** ** The blocks of the scoring code, one by one *)
(* ================================================================== *)

(** Splits every [if] of the goal. *)
Ltac split_ifs :=
  repeat match goal with
         | |- context [if ?c then _ else _] => destruct c
         end.

Lemma scoreTokenInfo_shift results s :
  scoreTokenInfo results s = s + added TokenInfoSignal results 0.
Proof.
  unfold added, scoreTokenInfo.
  destruct (tokenInfo results) as [k t|k e]; [|lia].
  destruct (contractAge t); split_ifs; lia.
Qed.

Lemma scoreContractScan_shift results s :
  scoreContractScan results s = s + added ContractScanSignal results 0.
Proof.
  unfold added, scoreContractScan.
  destruct (contractScan results) as [k c|k e]; lia.
Qed.

Lemma scoreLiquidity_shift results s :
  scoreLiquidity results s = s + added LiquiditySignal results 0.
Proof.
  unfold added, scoreLiquidity.
  destruct (liquidity results) as [k l|k e]; [|lia].
  split_ifs; lia.
Qed.

Lemma scoreHolders_shift results s :
  scoreHolders results s = s + added HoldersSignal results 0.
Proof.
  unfold added, scoreHolders.
  destruct (holders results) as [k h|k e]; [|lia].
  split_ifs; lia.
Qed.

(** The honeypot block adds the sum of its separate penalties. *)
Lemma scoreHoneypot_sum results s :
  scoreHoneypot results s =
  s + match honeypot results with
      | Success _ h => honeypotPoints h
      | Failure _ _ => 0
      end.
Proof.
  unfold scoreHoneypot, honeypotPoints, sellTaxPoints, flagPoints.
  destruct (honeypot results) as [k h|k e]; [|lia].
  cbv zeta.
  destruct (isHoneypot h), (cannotBuy h), (cannotSellAll h),
    (ownerCanChangeBalance h), (hiddenOwner h), (canTakeBackOwnership h);
    split_ifs; lia.
Qed.

Lemma scoreHoneypot_shift results s :
  scoreHoneypot results s = s + added HoneypotSignal results 0.
Proof.
  unfold added. rewrite (scoreHoneypot_sum results s), (scoreHoneypot_sum results 0). lia.
Qed.

(** The score before the cap is the sum of what the five blocks add. *)
Lemma rawScore_sum results :
  rawScore results =
  added TokenInfoSignal results 0 + added ContractScanSignal results 0
  + added LiquiditySignal results 0 + added HoldersSignal results 0
  + added HoneypotSignal results 0.
Proof.
  unfold rawScore. cbv zeta.
  rewrite scoreHoneypot_shift, scoreHolders_shift, scoreLiquidity_shift,
    scoreContractScan_shift, scoreTokenInfo_shift.
  lia.
Qed.

Lemma sellTaxPoints_nonneg tax : 0 <= sellTaxPoints tax.
Proof. unfold sellTaxPoints. cbv zeta. split_ifs; lia. Qed.

Lemma flagPoints_nonneg b p : 0 <= p -> 0 <= flagPoints b p.
Proof. unfold flagPoints. destruct b; lia. Qed.

Lemma honeypotPoints_nonneg h : 0 <= honeypotPoints h.
Proof.
  unfold honeypotPoints.
  pose proof (sellTaxPoints_nonneg (sellTax h)).
  pose proof (flagPoints_nonneg (isHoneypot h) 50).
  pose proof (flagPoints_nonneg (cannotBuy h) 20).
  pose proof (flagPoints_nonneg (cannotSellAll h) 20).
  pose proof (flagPoints_nonneg (ownerCanChangeBalance h) 15).
  pose proof (flagPoints_nonneg (hiddenOwner h) 10).
  pose proof (flagPoints_nonneg (canTakeBackOwnership h) 10).
  lia.
Qed.

(** No block ever takes points away. *)
Lemma added_nonneg (s : Signal) results score : 0 <= added s results score.
Proof.
  destruct s; unfold added.
  - unfold scoreTokenInfo.
    destruct (tokenInfo results) as [k t|k e]; [|lia].
    destruct (contractAge t); split_ifs; lia.
  - unfold scoreContractScan.
    destruct (contractScan results) as [k c|k e]; lia.
  - unfold scoreLiquidity.
    destruct (liquidity results) as [k l|k e]; [|lia].
    split_ifs; lia.
  - unfold scoreHolders.
    destruct (holders results) as [k h|k e]; [|lia].
    split_ifs; lia.
  - rewrite scoreHoneypot_sum.
    destruct (honeypot results) as [k h|k e]; [|lia].
    pose proof (honeypotPoints_nonneg h). lia.
  - lia.
Qed.

Lemma rawScore_nonneg results : 0 <= rawScore results.
Proof.
  rewrite rawScore_sum.
  pose proof (added_nonneg TokenInfoSignal results 0).
  pose proof (added_nonneg ContractScanSignal results 0).
  pose proof (added_nonneg LiquiditySignal results 0).
  pose proof (added_nonneg HoldersSignal results 0).
  pose proof (added_nonneg HoneypotSignal results 0).
  lia.
Qed.

(** The sentiment result is never read. *)
Lemma rawScore_ignores_sentiment (r1 r2 : Results) :
  tokenInfo r1 = tokenInfo r2 ->
  contractScan r1 = contractScan r2 ->
  liquidity r1 = liquidity r2 ->
  holders r1 = holders r2 ->
  honeypot r1 = honeypot r2 ->
  rawScore r1 = rawScore r2.
Proof.
  intros Ht Hc Hl Hh Hp.
  rewrite !rawScore_sum.
  unfold added, scoreHoneypot, scoreHolders, scoreLiquidity,
    scoreContractScan, scoreTokenInfo.
  rewrite Ht, Hc, Hl, Hh, Hp. reflexivity.
Qed.

Lemma riskLevelOf_cases (p : Z) :
  (75 <= p /\ riskLevelOf p = CRITICAL)
  \/ (50 <= p < 75 /\ riskLevelOf p = HIGH)
  \/ (25 <= p < 50 /\ riskLevelOf p = MEDIUM)
  \/ (p < 25 /\ riskLevelOf p = LOW).
Proof.
  unfold riskLevelOf.
  destruct (Z.leb_spec 75 p); [left; split; [lia|reflexivity]|].
  destruct (Z.leb_spec 50 p); [right; left; split; [lia|reflexivity]|].
  destruct (Z.leb_spec 25 p); [right; right; left; split; [lia|reflexivity]|].
  right; right; right; split; [lia|reflexivity].
Qed.

(* ================================================================== *)
(** ** More adverse findings never lower what a block adds *)
(* ================================================================== *)










(** A test against a smaller constant implies the test against a larger
    one. *)
Lemma JS_lt_int_weaken (x : JS.number) (c d : Z) :
  c <= d -> JS.lt x (JS.int c) = true -> JS.lt x (JS.int d) = true.
Proof.
  intros Hcd. destruct x as [|a]; [discriminate|].
  unfold JS.int. rewrite !JS_lt_spec. intro H.
  eapply Qlt_le_trans; [exact H|]. rewrite <- Zle_Qle. exact Hcd.
Qed.

(** The ladder of [checkLiquidity] has no way into its [HIGH] branch. *)
Lemma liquidityRisk_not_high (usd safe : JS.number) :
  liquidityRisk usd safe <> HIGH.
Proof.
  unfold liquidityRisk.
  destruct (JS.lt usd (JS.int 10000) && JS.lt safe (JS.int 50)); [discriminate|].
  destruct (JS.lt usd (JS.int 50000)); simpl; [discriminate|].
  destruct (JS.lt safe (JS.int 80)) eqn:E80; [discriminate|].
  destruct (JS.lt safe (JS.int 50)) eqn:E50; [|discriminate].
  apply (JS_lt_int_weaken safe 50 80) in E50; [congruence|lia].
Qed.

(* ================================================================== *)
(** ** Properties of the aggregated score *)
(* ================================================================== *)

(** C1 (honeypot dominance).  Whenever the honeypot check succeeded and
    reports [isHoneypot = true], the final score is at least 50 and the
    overall level is HIGH or CRITICAL, so neither LOW nor MEDIUM,
    whatever the other five results are. *)
Theorem honeypot_dominates (results : Results) (k : option RiskLabel) (h : Honeypot) :
  honeypot results = Success k h ->
  isHoneypot h = true ->
  50 <= riskScore results
  /\ (riskLevel results = HIGH \/ riskLevel results = CRITICAL)
  /\ riskLevel results <> LOW /\ riskLevel results <> MEDIUM.
Proof.
  intros Hres Hflag.
  assert (Hraw : 50 <= rawScore results).
  { rewrite rawScore_sum.
    pose proof (added_nonneg TokenInfoSignal results 0).
    pose proof (added_nonneg ContractScanSignal results 0).
    pose proof (added_nonneg LiquiditySignal results 0).
    pose proof (added_nonneg HoldersSignal results 0).
    assert (50 <= added HoneypotSignal results 0); [|lia].
    unfold added. rewrite scoreHoneypot_sum, Hres.
    unfold honeypotPoints. rewrite Hflag.
    pose proof (sellTaxPoints_nonneg (sellTax h)).
    pose proof (flagPoints_nonneg (cannotBuy h) 20).
    pose proof (flagPoints_nonneg (cannotSellAll h) 20).
    pose proof (flagPoints_nonneg (ownerCanChangeBalance h) 15).
    pose proof (flagPoints_nonneg (hiddenOwner h) 10).
    pose proof (flagPoints_nonneg (canTakeBackOwnership h) 10).
    unfold flagPoints at 1. lia. }
  assert (Hscore : 50 <= riskScore results) by (unfold riskScore; lia).
  unfold riskLevel.
  destruct (riskLevelOf_cases (riskScore results))
    as [[? E]|[[? E]|[[? E]|[? E]]]]; rewrite E;
    repeat split; try lia; try discriminate; auto.
Qed.

Lemma honeypot_dominates_witness :
  50 <= riskScore honeypotOnly
  /\ (riskLevel honeypotOnly = HIGH \/ riskLevel honeypotOnly = CRITICAL)
  /\ riskLevel honeypotOnly <> LOW /\ riskLevel honeypotOnly <> MEDIUM.
Proof.
  apply (honeypot_dominates honeypotOnly (Some CRITICAL)
           (noFlags true (Some (JS.int 2)))); reflexivity.
Defined.

(** C2 as stated fails: a failed holder result adds nothing, and so do a
    failed token-info result, a failed honeypot result and a failed
    sentiment result; a scan with all six fetchers down scores exactly
    the two penalties 15 + 20. *)
Lemma failed_signals_without_penalty :
  succeeded HoldersSignal allDown = false
  /\ ~ 0 < added HoldersSignal allDown 0
  /\ succeeded TokenInfoSignal allDown = false
  /\ ~ 0 < added TokenInfoSignal allDown 0
  /\ succeeded HoneypotSignal allDown = false
  /\ ~ 0 < added HoneypotSignal allDown 0
  /\ succeeded SentimentSignal allDown = false
  /\ ~ 0 < added SentimentSignal allDown 0
  /\ riskScore (cleanBut HoldersSignal) = riskScore cleanToken
  /\ riskScore allDown = 15 + 20.
Proof.
  repeat split; try reflexivity; vm_compute; discriminate.
Qed.

(** C2, amended.  A failed contract-function scan adds exactly 15 and a
    failed liquidity check adds exactly 20, whatever the running score;
    a failed token-info, holder or honeypot result adds 0; and the score
    is the same whatever the sentiment result is. *)
Theorem unknown_penalty_by_signal (results : Results) (score : Z) :
  (succeeded ContractScanSignal results = false ->
   added ContractScanSignal results score = 15)
  /\ (succeeded LiquiditySignal results = false ->
      added LiquiditySignal results score = 20)
  /\ (succeeded TokenInfoSignal results = false ->
      added TokenInfoSignal results score = 0)
  /\ (succeeded HoldersSignal results = false ->
      added HoldersSignal results score = 0)
  /\ (succeeded HoneypotSignal results = false ->
      added HoneypotSignal results score = 0)
  /\ (forall s : SignalResult Sentiment,
        riskScore (withSentiment results s) = riskScore results).
Proof.
  unfold succeeded, added, scoreContractScan, scoreLiquidity, scoreTokenInfo,
    scoreHolders, scoreHoneypot.
  repeat apply conj.
  - destruct (contractScan results); simpl; [discriminate|lia].
  - destruct (liquidity results); simpl; [discriminate|lia].
  - destruct (tokenInfo results); simpl; [discriminate|lia].
  - destruct (holders results); simpl; [discriminate|lia].
  - destruct (honeypot results); simpl; [discriminate|lia].
  - intro s. unfold riskScore.
    rewrite (rawScore_ignores_sentiment (withSentiment results s) results)
      by reflexivity.
    reflexivity.
Qed.

Lemma unknown_penalty_by_signal_witness :
  added ContractScanSignal allDown 0 = 15
  /\ added LiquiditySignal allDown 0 = 20
  /\ added TokenInfoSignal allDown 0 = 0
  /\ added HoldersSignal allDown 0 = 0
  /\ added HoneypotSignal allDown 0 = 0.
Proof.
  destruct (unknown_penalty_by_signal allDown 0) as (Hc & Hl & Ht & Hh & Hp & _).
  repeat apply conj.
  - apply Hc. reflexivity.
  - apply Hl. reflexivity.
  - apply Ht. reflexivity.
  - apply Hh. reflexivity.
  - apply Hp. reflexivity.
Defined.

(** C3 (missing data is not zero).  When all six results have
    [success = false], the scan still yields a score and a level: the
    score is 35, strictly positive, and the level is MEDIUM. *)
Theorem all_failed_still_scored (results : Results) :
  (forall s : Signal, succeeded s results = false) ->
  riskScore results = 35
  /\ 0 < riskScore results
  /\ riskLevel results = MEDIUM
  /\ silentScan results =
     {| report_results := results; report_riskScore := 35;
        report_riskLevel := MEDIUM |}.
Proof.
  intro Hall.
  assert (E : riskScore results = 35).
  { pose proof (Hall TokenInfoSignal) as Ht.
    pose proof (Hall ContractScanSignal) as Hc.
    pose proof (Hall LiquiditySignal) as Hl.
    pose proof (Hall HoldersSignal) as Hh.
    pose proof (Hall HoneypotSignal) as Hp.
    unfold succeeded in *.
    unfold riskScore. rewrite rawScore_sum.
    unfold added, scoreHoneypot, scoreHolders, scoreLiquidity,
      scoreContractScan, scoreTokenInfo.
    destruct (tokenInfo results); [discriminate|].
    destruct (contractScan results); [discriminate|].
    destruct (liquidity results); [discriminate|].
    destruct (holders results); [discriminate|].
    destruct (honeypot results); [discriminate|].
    reflexivity. }
  unfold silentScan, riskLevel. rewrite E.
  repeat apply conj; reflexivity.
Qed.

Lemma all_failed_still_scored_witness :
  riskScore allDown = 35
  /\ 0 < riskScore allDown
  /\ riskLevel allDown = MEDIUM
  /\ silentScan allDown =
     {| report_results := allDown; report_riskScore := 35;
        report_riskLevel := MEDIUM |}.
Proof.
  apply (all_failed_still_scored allDown).
  intros []; reflexivity.
Defined.

(** C4 (clamping).  For every combination of results the final score
    lies between 0 and 100: no block ever adds a negative amount, and the
    final score is the sum of what the blocks add, cut at 100. *)
Theorem riskScore_clamped (results : Results) :
  0 <= riskScore results <= 100
  /\ (forall (s : Signal) (score : Z), 0 <= added s results score)
  /\ riskScore results =
     Z.min (added TokenInfoSignal results 0 + added ContractScanSignal results 0
            + added LiquiditySignal results 0 + added HoldersSignal results 0
            + added HoneypotSignal results 0) 100.
Proof.
  pose proof (rawScore_nonneg results) as Hraw.
  repeat split.
  - unfold riskScore. lia.
  - unfold riskScore. lia.
  - intros s score. apply added_nonneg.
  - unfold riskScore. rewrite rawScore_sum. reflexivity.
Qed.

(** C5 (thresholds).  The level is read off the final score at fixed cut
    points: 75 and more is CRITICAL, 50 to 74 HIGH, 25 to 49 MEDIUM, less
    than 25 LOW; in particular 75 gives CRITICAL, 74 HIGH, 50 HIGH, 49
    MEDIUM, 25 MEDIUM and 24 LOW. *)
Theorem riskLevel_thresholds (p : Z) :
  (75 <= p -> riskLevelOf p = CRITICAL)
  /\ (50 <= p < 75 -> riskLevelOf p = HIGH)
  /\ (25 <= p < 50 -> riskLevelOf p = MEDIUM)
  /\ (p < 25 -> riskLevelOf p = LOW)
  /\ riskLevelOf 75 = CRITICAL /\ riskLevelOf 74 = HIGH
  /\ riskLevelOf 50 = HIGH /\ riskLevelOf 49 = MEDIUM
  /\ riskLevelOf 25 = MEDIUM /\ riskLevelOf 24 = LOW.
Proof.
  destruct (riskLevelOf_cases p) as [[? E]|[[? E]|[[? E]|[? E]]]];
    repeat split; try reflexivity; intros; solve [exact E | lia].
Qed.

Lemma riskLevel_thresholds_witness :
  riskLevelOf 100 = CRITICAL /\ riskLevelOf 60 = HIGH
  /\ riskLevelOf 35 = MEDIUM /\ riskLevelOf 0 = LOW.
Proof.
  pose proof (riskLevel_thresholds 100) as (H1 & _).
  pose proof (riskLevel_thresholds 60) as (_ & H2 & _).
  pose proof (riskLevel_thresholds 35) as (_ & _ & H3 & _).
  pose proof (riskLevel_thresholds 0) as (_ & _ & _ & H4 & _).
  repeat apply conj; [apply H1 | apply H2 | apply H3 | apply H4]; lia.
Defined.




(** C8 (scenario 1).  For the scan with an active owner, a contract of 3
    days, one critical function finding, $500 of liquidity with 10%
    secured, a top holder at 40%, the top ten at 80%, no honeypot and a
    5% sell tax, the blocks add 15+10, 10, 15+10, 15+10 and 0; the final
    score is 85 and the level CRITICAL. *)
Theorem scenario_risky_token :
  added TokenInfoSignal riskyToken 0 = 15 + 10
  /\ added ContractScanSignal riskyToken 0 = 10
  /\ added LiquiditySignal riskyToken 0 = 15 + 10
  /\ added HoldersSignal riskyToken 0 = 15 + 10
  /\ added HoneypotSignal riskyToken 0 = 0
  /\ rawScore riskyToken = 15 + 10 + 10 + (15 + 10) + (15 + 10) + 0
  /\ riskScore riskyToken = 85
  /\ riskLevel riskyToken = CRITICAL.
Proof.
  repeat split; vm_compute; reflexivity.
Qed.

(** C9 (sentiment does not count).  Two scans that agree on the token
    info, contract scan, liquidity, holder and honeypot results get the
    same final score and the same level, whatever their sentiment results
    are. *)
Theorem score_ignores_sentiment (r1 r2 : Results) :
  tokenInfo r1 = tokenInfo r2 ->
  contractScan r1 = contractScan r2 ->
  liquidity r1 = liquidity r2 ->
  holders r1 = holders r2 ->
  honeypot r1 = honeypot r2 ->
  riskScore r1 = riskScore r2 /\ riskLevel r1 = riskLevel r2.
Proof.
  intros Ht Hc Hl Hh Hp.
  assert (E : riskScore r1 = riskScore r2).
  { unfold riskScore. f_equal. apply rawScore_ignores_sentiment; assumption. }
  split; [exact E|]. unfold riskLevel. rewrite E. reflexivity.
Qed.

Lemma score_ignores_sentiment_witness :
  sentiment riskyToken <> sentiment (withSentiment riskyToken (sentiment allDown))
  /\ riskScore riskyToken = riskScore (withSentiment riskyToken (sentiment allDown))
  /\ riskLevel riskyToken = riskLevel (withSentiment riskyToken (sentiment allDown)).
Proof.
  split; [discriminate|].
  apply (score_ignores_sentiment riskyToken
           (withSentiment riskyToken (sentiment allDown))); reflexivity.
Defined.

(* ================================================================== *)
(** ** Properties of the labels the fetchers give *)
(* ================================================================== *)




(** C10 (the HIGH branch of the liquidity label is dead).  Every
    successful liquidity check is labelled LOW, MEDIUM or CRITICAL and
    never HIGH: a secured share below 50 already meets the CRITICAL test
    or the MEDIUM test, so the last test of the ladder is never reached
    with a true outcome. *)
Theorem liquidity_label_never_high (reads : Attempt PoolReads) :
  success (checkLiquidity reads) = true ->
  (risk (checkLiquidity reads) = Some LOW
   \/ risk (checkLiquidity reads) = Some MEDIUM
   \/ risk (checkLiquidity reads) = Some CRITICAL)
  /\ risk (checkLiquidity reads) <> Some HIGH
  /\ (forall usd safe : JS.number,
        JS.lt safe (JS.int 50) = true ->
        JS.lt usd (JS.int 10000) && JS.lt safe (JS.int 50) = true
        \/ JS.lt usd (JS.int 50000) || JS.lt safe (JS.int 80) = true).
Proof.
  intro Hok.
  assert (Hnot : risk (checkLiquidity reads) <> Some HIGH).
  { destruct reads as [p|m]; simpl; [|discriminate].
    destruct (JS.isZero (priceInUSD p)); simpl; [discriminate|].
    intro E. injection E. apply liquidityRisk_not_high. }
  repeat split.
  - destruct reads as [p|m]; simpl in *; [|discriminate].
    destruct (JS.isZero (priceInUSD p)); simpl in *; [discriminate|].
    pose proof (liquidityRisk_not_high
                  (JS.max (dexScreenerLiquidity p) (dexLiquidity p)) (lockedShare p)) as Hl.
    revert Hl. unfold liquidityRisk. split_ifs; intro Hl; auto. congruence.
  - exact Hnot.
  - intros usd safe H50.
    right. rewrite (JS_lt_int_weaken safe 50 80); [apply orb_true_r|lia|exact H50].
Qed.

Lemma liquidity_label_never_high_witness :
  risk (checkLiquidity (pool 1 200000 40)) = Some MEDIUM
  /\ risk (checkLiquidity (pool 1 200000 40)) <> Some HIGH.
Proof.
  destruct (liquidity_label_never_high (pool 1 200000 40) eq_refl) as (_ & Hnot & _).
  split; [reflexivity | exact Hnot].
Defined.

(* ================================================================== *)
(** ** Strings and object lookups *)
(* ================================================================== *)

Lemma lowerAscii_idempotent (c : ascii) : lowerAscii (lowerAscii c) = lowerAscii c.
Proof.
  destruct c as [[] [] [] [] [] [] [] []]; reflexivity.
Qed.

Lemma toLowerCase_idempotent (s : string) : toLowerCase (toLowerCase s) = toLowerCase s.
Proof.
  induction s as [|c s IH]; simpl; [reflexivity|].
  rewrite lowerAscii_idempotent, IH. reflexivity.
Qed.

Lemma toLowerCase_length (s : string) : String.length (toLowerCase s) = String.length s.
Proof.
  induction s as [|c s IH]; simpl; [reflexivity|]. rewrite IH. reflexivity.
Qed.

(** A lowercased string is none of the mixed-case names. *)
Lemma toLowerCase_not_mixed (s n : string) :
  toLowerCase n <> n -> toLowerCase s <> n.
Proof.
  intros Hn E. apply Hn. rewrite <- E. apply toLowerCase_idempotent.
Qed.

Lemma ownProperty_In {A} (obj : list (string * A)) (k : string) (a : A) :
  ownProperty obj k = Some a -> In (k, a) obj.
Proof.
  induction obj as [|[k' a'] rest IH]; simpl; [discriminate|].
  destruct (String.eqb k' k) eqn:E.
  - intro H. injection H as ->. apply String.eqb_eq in E. subst. left. reflexivity.
  - intro H. right. apply IH. exact H.
Qed.

Lemma ownProperty_None {A} (obj : list (string * A)) (k : string) :
  ownProperty obj k = None <-> ~ In k (map fst obj).
Proof.
  induction obj as [|[k' a'] rest IH]; simpl.
  - split; [intros _ []|reflexivity].
  - destruct (String.eqb k' k) eqn:E.
    + apply String.eqb_eq in E. split; [discriminate|]. intro H. exfalso. apply H. left. exact E.
    + apply String.eqb_neq in E. rewrite IH. split.
      * intros H [H'|H']; [exact (E H')|exact (H H')].
      * intros H H'. apply H. right. exact H'.
Qed.

(** After lowercasing, only two inherited names can still be hit. *)
Lemma inherited_lowercase (s : string) :
  existsb (String.eqb (toLowerCase s)) objectPrototype = true
  <-> toLowerCase s = "constructor"%string \/ toLowerCase s = "__proto__"%string.
Proof.
  unfold objectPrototype. simpl. rewrite !orb_true_iff, !String.eqb_eq.
  split.
  - intros [H|[H|[H|[H|[H|[H|[H|[H|[H|[H|[H|[H|H]]]]]]]]]]]];
      try discriminate H; auto;
      exfalso; revert H; apply toLowerCase_not_mixed; discriminate.
  - intros [H|H]; rewrite H; tauto.
Qed.

(* ================================================================== *)
(** ** chains.js *)
(* ================================================================== *)

(** Splits on whether the key is an inherited name. *)
Ltac case_inherited P :=
  match goal with
  | |- context [existsb ?f objectPrototype] =>
      destruct (existsb f objectPrototype) eqn:P
  end.

Lemma getChain_found_in_table (chainKey : string) (chain : Chains.Chain) :
  Chains.getChain chainKey = Chains.FoundChain chain ->
  In chain (map snd Chains.CHAINS).
Proof.
  unfold Chains.getChain, getProperty.
  destruct (ownProperty Chains.CHAINS (toLowerCase chainKey)) as [c|] eqn:E.
  - intro H. injection H as <-. apply ownProperty_In in E.
    apply (in_map snd) in E. exact E.
  - case_inherited P; [discriminate|].
    destruct (ownProperty Chains.aliases (toLowerCase chainKey)) as [t|];
      [|try case_inherited P'; discriminate].
    destruct (ownProperty Chains.CHAINS t) as [c|] eqn:Et.
    + intro H. injection H as <-. apply ownProperty_In in Et.
      apply (in_map snd) in Et. exact Et.
    + try case_inherited P'; discriminate.
Qed.

Lemma alias_targets_exist (a t : string) :
  ownProperty Chains.aliases a = Some t ->
  exists chain, ownProperty Chains.CHAINS t = Some chain.
Proof.
  intro H. apply ownProperty_In in H. simpl in H.
  repeat (destruct H as [H|H]; [injection H as <- <-; eexists; reflexivity|]).
  destruct H.
Qed.

(** X1.  [getChain] answers [null] exactly for the keys that, once
    lowercased, are neither a key of the chain table, nor an alias, nor
    one of the two lowercase names an object literal inherits
    ([constructor], [__proto__]); for those two it returns the inherited
    value, so [getChainConfig] does not throw its "Unsupported chain"
    error for them although they name no chain. *)
Theorem getChain_null_iff (chainKey : string) :
  (Chains.getChain chainKey = Chains.NotFound
   <-> ~ In (toLowerCase chainKey)
           (map fst Chains.CHAINS ++ map fst Chains.aliases
            ++ ["constructor"; "__proto__"]%string))
  /\ (forall message, Rpc.getChainConfig chainKey = Threw message
      <-> Chains.getChain chainKey = Chains.NotFound
          /\ message = ("Unsupported chain: " ++ chainKey
                        ++ ". Supported: eth, bsc, base, polygon, arbitrum, avalanche, optimism, fantom, cronos, linea, monad, abstract")%string)
  /\ Rpc.getChainConfig "constructor" = Returned (Chains.FoundInherited "constructor").
Proof.
  split; [|split; [|reflexivity]].
  - rewrite !in_app_iff.
    unfold Chains.getChain, getProperty.
    destruct (ownProperty Chains.CHAINS (toLowerCase chainKey)) as [c|] eqn:E.
    + split; [discriminate|]. intro H. exfalso. apply H. left.
      apply ownProperty_In in E. apply (in_map fst) in E. exact E.
    + apply ownProperty_None in E.
      case_inherited P.
      * apply inherited_lowercase in P.
        split; [discriminate|]. intro H. exfalso. apply H. right. right.
        simpl. destruct P as [P|P]; rewrite P; tauto.
      * assert (Hp : ~ In (toLowerCase chainKey) ["constructor"; "__proto__"]%string).
        { intro H. assert (existsb (String.eqb (toLowerCase chainKey)) objectPrototype = true);
            [|congruence].
          apply inherited_lowercase. simpl in H. destruct H as [H|[H|[]]]; auto. }
        destruct (ownProperty Chains.aliases (toLowerCase chainKey)) as [t|] eqn:A.
        -- destruct (alias_targets_exist _ _ A) as [c Hc]. rewrite Hc. simpl.
           split; [discriminate|]. intro H. exfalso. apply H. right. left.
           apply ownProperty_In in A. apply (in_map fst) in A. exact A.
        -- apply ownProperty_None in A. split; [|reflexivity]. intros _. tauto.
  - intro message. unfold Rpc.getChainConfig.
    destruct (Chains.getChain chainKey) eqn:E.
    + split; [discriminate|]. intros [H _]. discriminate H.
    + split; [discriminate|]. intros [H _]. discriminate H.
    + split.
      * intro H. injection H as <-. split; reflexivity.
      * intros [_ ->]. reflexivity.
Qed.

(** X2.  Every key that [getSupportedChains] lists resolves, in any
    letter case, to the profile with the listed name and short name, and
    every alias resolves, in any letter case, to the profile of the key
    it stands for. *)
Theorem supported_chains_resolve (chainKey : string) :
  (forall e, In e Chains.getSupportedChains ->
             toLowerCase chainKey = Chains.key e ->
             exists chain,
               Chains.getChain chainKey = Chains.FoundChain chain
               /\ Chains.name chain = Chains.supported_name e
               /\ Chains.shortName chain = Chains.supported_shortName e)
  /\ (forall a target, In (a, target) Chains.aliases ->
                       toLowerCase chainKey = a ->
                       In target (map Chains.key Chains.getSupportedChains)
                       /\ exists chain,
                            Chains.getChain chainKey = Chains.FoundChain chain
                            /\ Chains.getChain target = Chains.FoundChain chain).
Proof.
  split.
  - intros e He Hk. unfold Chains.getChain. rewrite Hk.
    simpl in He.
    repeat (destruct He as [He|He]; [subst e; eexists; repeat split; reflexivity|]).
    destruct He.
  - intros a target Ha Hk. unfold Chains.getChain at 1. rewrite Hk.
    simpl in Ha.
    repeat (destruct Ha as [Ha|Ha];
            [injection Ha as <- <-; split; [simpl; tauto|eexists; split; reflexivity]|]).
    destruct Ha.
Qed.

Lemma supported_chains_resolve_witness :
  exists chain,
    Chains.getChain "MATIC" = Chains.FoundChain chain
    /\ Chains.getChain "polygon" = Chains.FoundChain chain.
Proof.
  destruct (supported_chains_resolve "MATIC") as [_ H].
  apply (H "matic" "polygon")%string.
  - simpl. tauto.
  - reflexivity.
Defined.

(* ================================================================== *)
(** ** The provider cache and the failed-RPC set *)
(* ================================================================== *)

Lemma mapGet_mapSet {V} (m : list (string * V)) (k : string) (v : V) :
  Rpc.mapGet (Rpc.mapSet m k v) k = Some v.
Proof.
  unfold Rpc.mapGet.
  induction m as [|[k' v'] rest IH]; simpl.
  - rewrite String.eqb_refl. reflexivity.
  - destruct (String.eqb k' k) eqn:E; simpl; rewrite E; [reflexivity|exact IH].
Qed.

Lemma mapHas_mapSet {V} (m : list (string * V)) (k : string) (v : V) :
  Rpc.mapHas (Rpc.mapSet m k v) k = true.
Proof.
  unfold Rpc.mapHas. fold (Rpc.mapGet (Rpc.mapSet m k v) k).
  rewrite mapGet_mapSet. reflexivity.
Qed.

Lemma mapSet_twice {V} (m : list (string * V)) (k : string) (v w : V) :
  Rpc.mapSet (Rpc.mapSet m k v) k w = Rpc.mapSet m k w.
Proof.
  induction m as [|[k' v'] rest IH]; simpl.
  - rewrite String.eqb_refl. reflexivity.
  - destruct (String.eqb k' k) eqn:E; simpl; rewrite E; [reflexivity|].
    rewrite IH. reflexivity.
Qed.

Lemma sameUrl_refl (x : option string) : Rpc.sameUrl x x = true.
Proof. destruct x; simpl; [apply String.eqb_refl|reflexivity]. Qed.

Lemma setHas_setAdd (set : list (option string)) (x : option string) :
  Rpc.setHas (Rpc.setAdd set x) x = true.
Proof.
  unfold Rpc.setAdd. destruct (Rpc.setHas set x) eqn:E; [exact E|].
  unfold Rpc.setHas. rewrite existsb_app. simpl.
  rewrite sameUrl_refl. rewrite orb_true_r. reflexivity.
Qed.

Lemma setAdd_twice (set : list (option string)) (x : option string) :
  Rpc.setAdd (Rpc.setAdd set x) x = Rpc.setAdd set x.
Proof.
  unfold Rpc.setAdd at 1. rewrite setHas_setAdd. reflexivity.
Qed.

(** X3.  For a key [getChain] knows, [getProvider] always returns a
    provider, never [undefined].  With no cache entry for the key it
    builds the provider on the first URL among the primary RPC and its
    backups that is not marked failed, and on the primary when all are
    marked.  Once an entry exists, [getProvider] returns it and changes
    nothing, whatever the failed set has become: only
    [switchToBackupRpc] replaces a cached provider. *)
Theorem getProvider_cached_is_sticky (s : Rpc.State) (chainKey : string)
        (chain : Chains.Chain) :
  Chains.getChain chainKey = Chains.FoundChain chain ->
  exists provider,
    fst (Rpc.getProvider s chainKey) = Returned (Some provider)
    /\ (Rpc.mapHas (Rpc.providerCache s) (chainKey ++ "_provider") = false ->
        provider =
        Rpc.JsonRpcProvider
          (match find (fun rpc => negb (Rpc.setHas (Rpc.failedRpcs s) rpc))
                      (Some (Chains.rpc chain) :: map Some (Chains.rpcBackup chain)) with
           | Some rpc => rpc
           | None => Some (Chains.rpc chain)
           end))
    /\ (forall failed : list (option string),
          let s' := {| Rpc.providerCache := Rpc.providerCache (snd (Rpc.getProvider s chainKey));
                       Rpc.failedRpcs := failed |} in
          Rpc.getProvider s' chainKey = (Returned (Some provider), s')).
Proof.
  intro Hchain.
  unfold Rpc.getProvider. rewrite Hchain. cbv zeta.
  destruct (Rpc.mapHas (Rpc.providerCache s) (chainKey ++ "_provider")) eqn:Has; simpl.
  - unfold Rpc.mapHas in Has. unfold Rpc.mapGet.
    destruct (ownProperty (Rpc.providerCache s) (chainKey ++ "_provider")) as [p|] eqn:G;
      [|discriminate].
    exists p. repeat apply conj; [reflexivity|discriminate|].
    intro failed. unfold Rpc.mapHas. rewrite G. simpl.
    unfold Rpc.mapGet. rewrite G. reflexivity.
  - rewrite mapGet_mapSet. eexists. repeat apply conj; [reflexivity|reflexivity|].
    intro failed. rewrite mapHas_mapSet. simpl. rewrite mapGet_mapSet. reflexivity.
Qed.

Lemma getProvider_cached_is_sticky_witness :
  exists provider,
    fst (Rpc.getProvider {| Rpc.providerCache := [];
                            Rpc.failedRpcs := [Some "https://monad-mainnet.drpc.org"%string] |}
                         "monad") = Returned (Some provider)
    /\ provider = Rpc.JsonRpcProvider (Some "https://rpc2.monad.xyz"%string).
Proof.
  destruct (getProvider_cached_is_sticky
              {| Rpc.providerCache := [];
                 Rpc.failedRpcs := [Some "https://monad-mainnet.drpc.org"%string] |}
              "monad" _ eq_refl) as (p & H1 & H2 & _).
  exists p. split; [exact H1|]. exact (H2 eq_refl).
Defined.

(** X4.  For a chain of the table, [switchToBackupRpc] marks the primary
    RPC as failed and nothing else.  When it answers [true], the cached
    provider is on a backup URL that is not marked failed; when it
    answers [false], every backup is marked failed and the provider cache
    is as before.  Since a backup is never marked, a second call finds
    the same answer and leaves the state as the first call left it. *)
Theorem switchToBackupRpc_effect (s : Rpc.State) (chainKey : string)
        (chain : Chains.Chain) :
  Chains.getChain chainKey = Chains.FoundChain chain ->
  let r := fst (Rpc.switchToBackupRpc s chainKey) in
  let s' := snd (Rpc.switchToBackupRpc s chainKey) in
  Rpc.failedRpcs s' = Rpc.setAdd (Rpc.failedRpcs s) (Some (Chains.rpc chain))
  /\ Rpc.setHas (Rpc.failedRpcs s') (Some (Chains.rpc chain)) = true
  /\ (r = Some true \/ r = Some false)
  /\ (r = Some true ->
      exists backupRpc,
        In backupRpc (Chains.rpcBackup chain)
        /\ Rpc.setHas (Rpc.failedRpcs s') (Some backupRpc) = false
        /\ Rpc.mapGet (Rpc.providerCache s') (chainKey ++ "_provider")
           = Some (Rpc.JsonRpcProvider (Some backupRpc)))
  /\ (r = Some false ->
      Rpc.providerCache s' = Rpc.providerCache s
      /\ forall backupRpc, In backupRpc (Chains.rpcBackup chain) ->
                           Rpc.setHas (Rpc.failedRpcs s') (Some backupRpc) = true)
  /\ Rpc.switchToBackupRpc s' chainKey = (r, s').
Proof.
  intro Hchain. cbv zeta.
  unfold Rpc.switchToBackupRpc. rewrite Hchain. cbv zeta. simpl Rpc.rpcOf. simpl Rpc.backupsOf.
  set (failed := Rpc.setAdd (Rpc.failedRpcs s) (Some (Chains.rpc chain))).
  assert (Hadd : Rpc.setAdd failed (Some (Chains.rpc chain)) = failed)
    by apply setAdd_twice.
  destruct (find (fun backupRpc => negb (Rpc.setHas failed (Some backupRpc)))
                 (Chains.rpcBackup chain)) as [b|] eqn:F; simpl.
  - rewrite Hadd, F.
    apply find_some in F. destruct F as [Hin Hnot]. apply negb_true_iff in Hnot.
    repeat apply conj; try reflexivity.
    + apply setHas_setAdd.
    + left. reflexivity.
    + intros _. exists b. repeat apply conj; [exact Hin|exact Hnot|apply mapGet_mapSet].
    + discriminate.
    + rewrite mapSet_twice. reflexivity.
  - rewrite Hadd, F.
    repeat apply conj; try reflexivity.
    + apply setHas_setAdd.
    + right. reflexivity.
    + discriminate.
    + intros _. split; [reflexivity|]. intros backupRpc Hin.
      pose proof (find_none _ _ F backupRpc Hin) as Hn. simpl in Hn.
      apply negb_false_iff in Hn. exact Hn.
Qed.

Lemma switchToBackupRpc_effect_witness :
  exists backupRpc,
    In backupRpc ["https://rpc2.monad.xyz"%string]
    /\ Rpc.mapGet (Rpc.providerCache
                     (snd (Rpc.switchToBackupRpc
                             {| Rpc.providerCache := []; Rpc.failedRpcs := [] |} "mon")))
                  "mon_provider"
       = Some (Rpc.JsonRpcProvider (Some backupRpc)).
Proof.
  destruct (switchToBackupRpc_effect
              {| Rpc.providerCache := []; Rpc.failedRpcs := [] |} "mon" _ eq_refl)
    as (_ & _ & _ & Htrue & _).
  destruct (Htrue eq_refl) as (b & Hin & _ & Hget).
  exists b. split; [exact Hin | exact Hget].
Defined.

(** X5.  The chain table gives an explorer API key to Ethereum only.  On
    every other chain of the table, under any of its keys or aliases,
    [checkContractFunctions] returns its failed UNKNOWN result without
    looking at what the explorer would answer, so the contract-scan block
    adds its flat 15 to every scan on that chain. *)
Theorem contract_scan_blind_off_ethereum (chainKey : string) (chain : Chains.Chain)
        (result : option AbiReply) (results : Results) (score : Z) :
  Chains.getChain chainKey = Chains.FoundChain chain ->
  Chains.name chain <> "Ethereum"%string ->
  Rpc.checkContractFunctionsOn chainKey result = Returned (Failure (Some UNKNOWN) None)
  /\ (Returned (contractScan results) = Rpc.checkContractFunctionsOn chainKey result ->
      added ContractScanSignal results score = 15).
Proof.
  intros Hchain Hname.
  assert (E : Rpc.checkContractFunctionsOn chainKey result
              = Returned (Failure (Some UNKNOWN) None)).
  { unfold Rpc.checkContractFunctionsOn, Rpc.getChainConfig. rewrite Hchain.
    pose proof (getChain_found_in_table _ _ Hchain) as Hin. simpl in Hin.
    destruct Hin as [H|Hin]; [subst chain; exfalso; apply Hname; reflexivity|].
    repeat (destruct Hin as [H|Hin]; [subst chain; reflexivity|]).
    destruct Hin. }
  split; [exact E|].
  rewrite E. intro H. injection H as H.
  unfold added, scoreContractScan. rewrite H. lia.
Qed.

Lemma contract_scan_blind_off_ethereum_witness :
  Rpc.checkContractFunctionsOn "BSC" (abiOf ["mint"%string])
  = Returned (Failure (Some UNKNOWN) None).
Proof.
  apply (contract_scan_blind_off_ethereum "BSC" _ (abiOf ["mint"%string]) allDown 0 eq_refl).
  discriminate.
Defined.

(* ================================================================== *)
(** ** telegram-bot.js: the helpers *)
(* ================================================================== *)

Lemma string_length_append (a b : string) :
  String.length (a ++ b) = (String.length a + String.length b)%nat.
Proof.
  induction a as [|c a IH]; simpl; [reflexivity|]. rewrite IH. reflexivity.
Qed.

Lemma substring_length (n m : nat) (s : string) :
  (n + m <= String.length s)%nat -> String.length (substring n m s) = m.
Proof.
  revert n m. induction s as [|c s IH]; intros n m H; simpl in H.
  - assert (n = 0%nat) by lia. assert (m = 0%nat) by lia. subst. reflexivity.
  - destruct n as [|n]; simpl.
    + destruct m as [|m]; simpl; [reflexivity|]. rewrite (IH 0%nat m); [reflexivity|lia].
    + apply IH. lia.
Qed.

Lemma isSpecial_backslash : Bot.isSpecial Bot.backslash = false.
Proof. reflexivity. Qed.

Lemma esc_length (text : string) :
  String.length (Bot.esc text)
  = (String.length text
     + List.length (filter Bot.isSpecial (list_ascii_of_string text)))%nat.
Proof.
  induction text as [|c rest IH]; simpl; [reflexivity|].
  destruct (Bot.isSpecial c); simpl; rewrite IH; lia.
Qed.

Lemma esc_guards_specials (text : string) (i : nat) (c : ascii) :
  String.get i (Bot.esc text) = Some c ->
  Bot.isSpecial c = true ->
  exists j, i = S j /\ String.get j (Bot.esc text) = Some Bot.backslash.
Proof.
  revert i. induction text as [|d rest IH]; intros i Hget Hc; simpl in *.
  - destruct i; discriminate.
  - destruct (Bot.isSpecial d) eqn:Ed.
    + destruct i as [|[|i]]; simpl in Hget.
      * injection Hget as <-. rewrite isSpecial_backslash in Hc. discriminate.
      * exists 0%nat. split; reflexivity.
      * destruct (IH i Hget Hc) as (j & -> & Hj).
        exists (S (S j)). split; [reflexivity|]. simpl. exact Hj.
    + destruct i as [|i]; simpl in Hget.
      * injection Hget as <-. congruence.
      * destruct (IH i Hget Hc) as (j & -> & Hj).
        exists (S j). split; [reflexivity|]. simpl. exact Hj.
Qed.

Lemma esc_unchanged_iff (text : string) :
  Bot.esc text = text
  <-> forallb (fun c => negb (Bot.isSpecial c)) (list_ascii_of_string text) = true.
Proof.
  split.
  - intro H.
    assert (L : List.length (filter Bot.isSpecial (list_ascii_of_string text)) = 0%nat).
    { pose proof (esc_length text) as E. rewrite H in E. lia. }
    clear H. induction text as [|c rest IH]; simpl in *; [reflexivity|].
    destruct (Bot.isSpecial c); simpl in *; [discriminate|]. apply IH. exact L.
  - induction text as [|c rest IH]; simpl; [reflexivity|].
    destruct (Bot.isSpecial c); simpl; [discriminate|].
    intro H. rewrite (IH H). reflexivity.
Qed.

(** X6.  [esc] puts one backslash before each of the eighteen special
    characters and copies every other character, a backslash included:
    the result is longer by the number of special characters, every
    special character of the result stands right after a backslash, and
    the text comes back unchanged exactly when it has no special
    character. *)
Theorem esc_escapes_every_special (text : string) :
  String.length (Bot.esc text)
  = (String.length text
     + List.length (filter Bot.isSpecial (list_ascii_of_string text)))%nat
  /\ (forall (i : nat) (c : ascii),
        String.get i (Bot.esc text) = Some c ->
        Bot.isSpecial c = true ->
        exists j, i = S j /\ String.get j (Bot.esc text) = Some Bot.backslash)
  /\ (Bot.esc text = text
      <-> forallb (fun c => negb (Bot.isSpecial c)) (list_ascii_of_string text) = true)
  /\ Bot.esc (String Bot.backslash EmptyString) = String Bot.backslash EmptyString.
Proof.
  split; [apply esc_length|].
  split; [apply esc_guards_specials|].
  split; [apply esc_unchanged_iff|reflexivity].
Qed.

Lemma hex_not_special (c : ascii) : Bot.isHexDigit c = true -> Bot.isSpecial c = false.
Proof.
  destruct c as [[] [] [] [] [] [] [] []]; vm_compute; congruence.
Qed.

Lemma hex_lowerAscii (c : ascii) : Bot.isHexDigit (lowerAscii c) = Bot.isHexDigit c.
Proof.
  destruct c as [[] [] [] [] [] [] [] []]; reflexivity.
Qed.

(** X7.  An address that passes [isValidAddress] has 42 characters, still
    passes once lowercased (as the fetchers do before they query), comes
    back unchanged from [esc], and is shortened by [shortAddr] to 13
    characters: its first six, three dots, its last four. *)
Theorem valid_address_handling (address : string) :
  Bot.isValidAddress address = true ->
  String.length address = 42%nat
  /\ Bot.isValidAddress (toLowerCase address) = true
  /\ Bot.esc address = address
  /\ Bot.shortAddr (Some address)
     = (substring 0 6 address ++ "..." ++ substring 38 4 address)%string
  /\ String.length (Bot.shortAddr (Some address)) = 13%nat.
Proof.
  unfold Bot.isValidAddress.
  destruct address as [|c0 [|c1 digits]]; try discriminate.
  { destruct c0 as [[] [] [] [] [] [] [] []]; discriminate. }
  destruct (Ascii.eqb c0 "0") eqn:E0;
    [apply Ascii.eqb_eq in E0; subst c0
    |destruct c0 as [[] [] [] [] [] [] [] []]; try discriminate; discriminate E0].
  destruct (Ascii.eqb c1 "x") eqn:E1;
    [apply Ascii.eqb_eq in E1; subst c1
    |destruct c1 as [[] [] [] [] [] [] [] []]; try discriminate; discriminate E1].
  intro H. apply andb_true_iff in H. destruct H as [Hlen Hhex].
  apply Nat.eqb_eq in Hlen.
  assert (L : String.length (String "0" (String "x" digits)) = 42%nat)
    by (simpl; rewrite Hlen; reflexivity).
  split; [exact L|].
  split.
  { simpl. rewrite toLowerCase_length, Hlen. simpl.
    clear Hlen L. induction digits as [|d ds IH]; simpl in *; [reflexivity|].
    apply andb_true_iff in Hhex. destruct Hhex as [Hd Hds].
    rewrite hex_lowerAscii, Hd. simpl. apply IH. exact Hds. }
  split.
  { apply esc_unchanged_iff. simpl.
    clear Hlen L. induction digits as [|d ds IH]; simpl in *; [reflexivity|].
    apply andb_true_iff in Hhex. destruct Hhex as [Hd Hds].
    rewrite (hex_not_special d Hd). simpl. apply IH. exact Hds. }
  assert (S : Bot.shortAddr (Some (String "0" (String "x" digits)))
              = (substring 0 6 (String "0" (String "x" digits)) ++ "..."
                 ++ substring 38 4 (String "0" (String "x" digits)))%string).
  { unfold Bot.shortAddr. rewrite L. reflexivity. }
  split; [exact S|].
  rewrite S, !string_length_append, !substring_length; [reflexivity|lia|lia].
Qed.

Lemma valid_address_handling_witness :
  String.length (Bot.shortAddr (Some "0xC02aaA39b223FE8D0A0e5C4F27eAD9083C756Cc2"%string))
  = 13%nat.
Proof.
  apply (valid_address_handling "0xC02aaA39b223FE8D0A0e5C4F27eAD9083C756Cc2" eq_refl).
Defined.

(** X8.  [formatAge] counts months of 30 days inside years of 365 days,
    so the month figure runs from 0 to 12, not 11: a contract of 30 to
    364 days is shown as 1 to 12 months (12 from day 360 on), one of at
    least 365 days as whole years and 0 to 12 months (12 in the last
    five days of each year), and a day count below 1 is shown in hours,
    24 per day. *)
Theorem formatAge_month_range (days : Z) :
  (days < 1 -> Bot.formatAge (Bot.IntDays days) = (showZ (days * 24) ++ "h")%string)
  /\ (30 <= days < 365 ->
      Bot.formatAge (Bot.IntDays days) = (showZ (days / 30) ++ "mo")%string
      /\ 1 <= days / 30 <= 12
      /\ (days / 30 = 12 <-> 360 <= days))
  /\ (365 <= days ->
      Bot.formatAge (Bot.IntDays days)
      = (showZ (days / 365) ++ "y " ++ showZ ((days mod 365) / 30) ++ "mo")%string
      /\ 1 <= days / 365
      /\ 0 <= (days mod 365) / 30 <= 12
      /\ ((days mod 365) / 30 = 12 <-> 360 <= days mod 365)).
Proof.
  unfold Bot.formatAge.
  repeat apply conj.
  - intro H. destruct (Z.ltb_spec days 1); [reflexivity|lia].
  - intro H.
    destruct (Z.ltb_spec days 1); [lia|].
    destruct (Z.ltb_spec days 30); [lia|].
    destruct (Z.ltb_spec days 365); [|lia].
    repeat apply conj; try reflexivity.
    + apply Z.div_le_lower_bound; lia.
    + assert (days / 30 < 13) by (apply Z.div_lt_upper_bound; lia). lia.
    + intro E. pose proof (Z.mul_div_le days 30 ltac:(lia)). lia.
    + intro E. assert (12 <= days / 30) by (apply Z.div_le_lower_bound; lia).
      assert (days / 30 < 13) by (apply Z.div_lt_upper_bound; lia). lia.
  - intro H.
    destruct (Z.ltb_spec days 1); [lia|].
    destruct (Z.ltb_spec days 30); [lia|].
    destruct (Z.ltb_spec days 365); [lia|].
    pose proof (Z.mod_pos_bound days 365 ltac:(lia)) as Hm.
    repeat apply conj; try reflexivity.
    + apply Z.div_le_lower_bound; lia.
    + apply Z.div_pos; lia.
    + assert ((days mod 365) / 30 < 13) by (apply Z.div_lt_upper_bound; lia). lia.
    + intro E. pose proof (Z.mul_div_le (days mod 365) 30 ltac:(lia)). lia.
    + intro E. assert (12 <= (days mod 365) / 30) by (apply Z.div_le_lower_bound; lia).
      assert ((days mod 365) / 30 < 13) by (apply Z.div_lt_upper_bound; lia). lia.
Qed.

Lemma formatAge_month_range_witness :
  Bot.formatAge (Bot.IntDays 725) = "1y 12mo"%string
  /\ Bot.formatAge (Bot.IntDays 360) = "12mo"%string
  /\ Bot.formatAge (Bot.IntDays 0) = "0h"%string.
Proof.
  destruct (formatAge_month_range 725) as (_ & _ & H725).
  destruct (formatAge_month_range 360) as (_ & H360 & _).
  destruct (formatAge_month_range 0) as (H0 & _).
  repeat apply conj.
  - rewrite (proj1 (H725 ltac:(lia))). reflexivity.
  - rewrite (proj1 (H360 ltac:(lia))). reflexivity.
  - rewrite (H0 ltac:(lia)). reflexivity.
Defined.

Lemma repeat_bar_length (f b : nat) :
  List.length (List.repeat Bot.Full f ++ List.repeat Bot.Blank b) = (f + b)%nat.
Proof. rewrite length_app, !repeat_length. reflexivity. Qed.

(** X9.  The bars of the reports never fail on a scan: for the score of
    any [results] the summary bar has exactly 10 cells, the first
    [riskScore / 10] of them full, and the console bar of the
    single-chain scanner exactly 20, the first [riskScore / 5] full; the
    console bar of the multi-chain scanner has no cell at all, since both
    strings it repeats are empty; the level always gets one of the four
    coloured emojis, never the white fallback.  That rests on the score
    lying in 0..100: on its own the summary bar throws a RangeError as
    soon as the score is negative or at least 110, and the console bar,
    empty as it is, as soon as the score is negative or at least 105. *)
Theorem report_bars_total (results : Results) :
  Bot.summaryBar (riskScore results)
  = Returned (List.repeat Bot.Full (Z.to_nat (riskScore results / 10))
              ++ List.repeat Bot.Blank (10 - Z.to_nat (riskScore results / 10)))
  /\ (Z.to_nat (riskScore results / 10) <= 10)%nat
  /\ Bot.consoleBarSingleChain (riskScore results)
     = Returned (List.repeat Bot.Full (Z.to_nat (riskScore results / 5))
                 ++ List.repeat Bot.Blank (20 - Z.to_nat (riskScore results / 5)))
  /\ (Z.to_nat (riskScore results / 5) <= 20)%nat
  /\ Bot.consoleBar (riskScore results) = Returned []
  /\ Bot.getRiskEmoji (Bot.labelText (riskLevel results)) <> Bot.WhiteCircle
  /\ (forall score : Z,
        (exists message, Bot.summaryBar score = Threw message)
        <-> score < 0 \/ 110 <= score)
  /\ (forall score : Z,
        (exists message, Bot.consoleBar score = Threw message)
        <-> score < 0 \/ 105 <= score).
Proof.
  assert (B : 0 <= riskScore results <= 100).
  { pose proof (rawScore_nonneg results). unfold riskScore. lia. }
  assert (D10 : 0 <= riskScore results / 10 <= 10).
  { split; [apply Z.div_pos; lia|apply Z.div_le_upper_bound; lia]. }
  assert (D5 : 0 <= riskScore results / 5 <= 20).
  { split; [apply Z.div_pos; lia|apply Z.div_le_upper_bound; lia]. }
  repeat apply conj.
  - unfold Bot.summaryBar, Bot.repeatGlyph.
    destruct (Z.ltb_spec (riskScore results / 10) 0); [lia|].
    destruct (Z.ltb_spec (10 - riskScore results / 10) 0); [lia|].
    do 3 f_equal. lia.
  - lia.
  - unfold Bot.consoleBarSingleChain, Bot.repeatGlyph.
    destruct (Z.ltb_spec (riskScore results / 5) 0); [lia|].
    destruct (Z.ltb_spec (20 - riskScore results / 5) 0); [lia|].
    do 3 f_equal. lia.
  - lia.
  - unfold Bot.consoleBar, Bot.repeatEmpty.
    destruct (Z.ltb_spec (riskScore results / 5) 0); [lia|].
    destruct (Z.ltb_spec (20 - riskScore results / 5) 0); [lia|].
    reflexivity.
  - unfold riskLevel.
    destruct (riskLevelOf_cases (riskScore results))
      as [[_ E]|[[_ E]|[[_ E]|[_ E]]]]; rewrite E; discriminate.
  - intro score. unfold Bot.summaryBar, Bot.repeatGlyph.
    destruct (Z.ltb_spec (score / 10) 0) as [Hneg|Hpos].
    + split; [intros _|intros _; eexists; reflexivity].
      left. destruct (Z.lt_ge_cases score 0) as [|Hs]; [assumption|].
      pose proof (Z.div_pos score 10 Hs ltac:(lia)). lia.
    + assert (0 <= score).
      { destruct (Z.lt_ge_cases score 0) as [Hs|]; [|assumption].
        assert (score / 10 < 0) by (apply Z.div_lt_upper_bound; lia). lia. }
      destruct (Z.ltb_spec (10 - score / 10) 0) as [Hbig|Hok].
      * split; [intros _|intros _; eexists; reflexivity].
        right. destruct (Z.lt_ge_cases score 110) as [Hs|]; [|assumption].
        assert (score / 10 < 11) by (apply Z.div_lt_upper_bound; lia). lia.
      * split; [intros [m Hm]; discriminate Hm|].
        intros [Hs|Hs]; [lia|].
        assert (11 <= score / 10) by (apply Z.div_le_lower_bound; lia). lia.
  - intro score. unfold Bot.consoleBar, Bot.repeatEmpty.
    destruct (Z.ltb_spec (score / 5) 0) as [Hneg|Hpos].
    + split; [intros _|intros _; eexists; reflexivity].
      left. destruct (Z.lt_ge_cases score 0) as [|Hs]; [assumption|].
      pose proof (Z.div_pos score 5 Hs ltac:(lia)). lia.
    + assert (0 <= score).
      { destruct (Z.lt_ge_cases score 0) as [Hs|]; [|assumption].
        assert (score / 5 < 0) by (apply Z.div_lt_upper_bound; lia). lia. }
      destruct (Z.ltb_spec (20 - score / 5) 0) as [Hbig|Hok].
      * split; [intros _|intros _; eexists; reflexivity].
        right. destruct (Z.lt_ge_cases score 105) as [Hs|]; [|assumption].
        assert (score / 5 < 21) by (apply Z.div_lt_upper_bound; lia). lia.
      * split; [intros [m Hm]; discriminate Hm|].
        intros [Hs|Hs]; [lia|].
        assert (21 <= score / 5) by (apply Z.div_le_lower_bound; lia). lia.
Qed.

(* ================================================================== *)
(** ** telegram-bot.js: the scan cache and the social buttons *)
(* ================================================================== *)

Lemma mapSet_keys {V} (m : list (string * V)) (k : string) (v : V) :
  map fst (Rpc.mapSet m k v)
  = if Rpc.mapHas m k then map fst m else (map fst m ++ [k])%list.
Proof.
  unfold Rpc.mapHas.
  induction m as [|[k' v'] rest IH]; simpl; [reflexivity|].
  destruct (String.eqb k' k) eqn:E; simpl; [reflexivity|].
  rewrite IH. destruct (ownProperty rest k); reflexivity.
Qed.

Lemma mapHas_In {V} (m : list (string * V)) (k : string) :
  Rpc.mapHas m k = false <-> ~ In k (map fst m).
Proof.
  unfold Rpc.mapHas. rewrite <- ownProperty_None.
  destruct (ownProperty m k); split; congruence.
Qed.

Lemma mapSet_length {V} (m : list (string * V)) (k : string) (v : V) :
  List.length (Rpc.mapSet m k v)
  = if Rpc.mapHas m k then List.length m else S (List.length m).
Proof.
  rewrite <- (length_map fst (Rpc.mapSet m k v)), mapSet_keys.
  destruct (Rpc.mapHas m k); [apply length_map|].
  rewrite length_app, length_map. simpl. lia.
Qed.

Lemma mapSet_NoDup {V} (m : list (string * V)) (k : string) (v : V) :
  NoDup (map fst m) -> NoDup (map fst (Rpc.mapSet m k v)).
Proof.
  intro H. rewrite mapSet_keys.
  destruct (Rpc.mapHas m k) eqn:E; [exact H|].
  apply mapHas_In in E.
  apply NoDup_app; [exact H|repeat constructor; intros []|].
  intros x Hx [Hk|[]]. subst. exact (E Hx).
Qed.

(** X10.  [handleScan] keeps the scan cache within 100 entries: from a
    cache of at most 100 distinct keys it leaves at most 100 distinct
    keys, the result just scanned is always the one found under its own
    key, and an entry is dropped only when the key is new and the cache
    already held 100 entries; the dropped entry is then the oldest one. *)
Theorem scan_cache_bounded {V} (scanCache : list (string * V)) (chatId : Z)
        (tokenAddress : string) (scanData : V) :
  NoDup (map fst scanCache) ->
  (List.length scanCache <= 100)%nat ->
  let cacheKey := (showZ chatId ++ "_" ++ tokenAddress)%string in
  let after := Bot.cacheScan scanCache chatId tokenAddress scanData in
  NoDup (map fst after)
  /\ (List.length after <= 100)%nat
  /\ Rpc.mapGet after cacheKey = Some scanData
  /\ (after = Rpc.mapSet scanCache cacheKey scanData
      \/ (List.length scanCache = 100%nat
          /\ Rpc.mapHas scanCache cacheKey = false
          /\ after = tl (Rpc.mapSet scanCache cacheKey scanData))).
Proof.
  intros Hdup Hlen. cbv zeta.
  unfold Bot.cacheScan. cbv zeta.
  set (cacheKey := (showZ chatId ++ "_" ++ tokenAddress)%string).
  pose proof (mapSet_length scanCache cacheKey scanData) as L.
  pose proof (mapSet_NoDup scanCache cacheKey scanData Hdup) as D.
  pose proof (mapGet_mapSet scanCache cacheKey scanData) as G.
  pose proof (mapSet_keys scanCache cacheKey scanData) as K.
  destruct (Nat.ltb_spec 100 (List.length (Rpc.mapSet scanCache cacheKey scanData)))
    as [Hfull|Hroom].
  - destruct (Rpc.mapHas scanCache cacheKey) eqn:Has; [lia|].
    assert (Hlen' : List.length scanCache = 100%nat) by lia.
    destruct (Rpc.mapSet scanCache cacheKey scanData) as [|[firstKey v] rest] eqn:E;
      [simpl in Hfull; lia|].
    simpl. rewrite String.eqb_refl.
    simpl in D. inversion D as [|? ? Hnotin Hrest]; subst.
    assert (Hne : firstKey <> cacheKey).
    { destruct scanCache as [|[k0 v0] tail]; [simpl in Hlen'; discriminate|].
      simpl in K. injection K as K0 _.
      intro Heq. apply mapHas_In in Has. apply Has. simpl. left. congruence. }
    repeat apply conj.
    + exact Hrest.
    + simpl in L. lia.
    + unfold Rpc.mapGet in *. simpl in G.
      destruct (String.eqb firstKey cacheKey) eqn:Ek;
        [apply String.eqb_eq in Ek; contradiction|exact G].
    + right. repeat split. exact Hlen'.
  - repeat apply conj; [exact D|exact Hroom|exact G|left; reflexivity].
Qed.

Lemma scan_cache_bounded_witness :
  Rpc.mapGet (Bot.cacheScan [("7_0xab"%string, 1)] 7 "0xcd" 2) "7_0xcd" = Some 2.
Proof.
  apply (scan_cache_bounded [("7_0xab"%string, 1)] 7 "0xcd" 2).
  - repeat constructor. intros [].
  - simpl. lia.
Defined.

Lemma addSocial_grows (buttons : list Bot.Button) (s : Bot.Social) :
  (List.length buttons <= 3)%nat ->
  (List.length (Bot.addSocial buttons s) <= 3)%nat
  /\ exists more, Bot.addSocial buttons s = (buttons ++ more)%list.
Proof.
  intro H. unfold Bot.addSocial, push.
  destruct (String.eqb (Bot.social_type s) "twitter"); simpl.
  - destruct (Nat.ltb_spec (List.length buttons) 3) as [H3|H3].
    + destruct (String.eqb (Bot.social_type s) "telegram"); simpl.
      * destruct (Nat.ltb_spec (List.length (buttons ++ [Bot.TwitterButton (Bot.social_url s)])) 3)
          as [H4|H4].
        -- split; [rewrite !length_app in *; simpl in *; lia|].
           eexists. rewrite <- app_assoc. reflexivity.
        -- split; [rewrite !length_app in *; simpl in *; lia|eexists; reflexivity].
      * split; [rewrite !length_app in *; simpl in *; lia|eexists; reflexivity].
    + destruct (String.eqb (Bot.social_type s) "telegram"); simpl.
      * destruct (Nat.ltb_spec (List.length buttons) 3); [lia|].
        split; [exact H|exists []; rewrite app_nil_r; reflexivity].
      * split; [exact H|exists []; rewrite app_nil_r; reflexivity].
  - destruct (String.eqb (Bot.social_type s) "telegram"); simpl.
    + destruct (Nat.ltb_spec (List.length buttons) 3).
      * split; [rewrite !length_app in *; simpl in *; lia|eexists; reflexivity].
      * split; [exact H|exists []; rewrite app_nil_r; reflexivity].
    + split; [exact H|exists []; rewrite app_nil_r; reflexivity].
Qed.

Lemma addSocials_grow (socials : list Bot.Social) (buttons : list Bot.Button) :
  (List.length buttons <= 3)%nat ->
  (List.length (fold_left Bot.addSocial socials buttons) <= 3)%nat
  /\ exists more, fold_left Bot.addSocial socials buttons = (buttons ++ more)%list.
Proof.
  revert buttons. induction socials as [|s rest IH]; intros buttons H; simpl.
  - split; [exact H|exists []; rewrite app_nil_r; reflexivity].
  - destruct (addSocial_grows buttons s H) as [H1 [m1 E1]].
    destruct (IH _ H1) as [H2 [m2 E2]].
    split; [exact H2|]. exists (m1 ++ m2)%list.
    rewrite E2, E1, app_assoc. reflexivity.
Qed.

(** X11.  The row of social buttons that [handleScan] adds never has more
    than three buttons, however many social links the token lists, and
    when the token has a website its button comes first. *)
Theorem social_buttons_at_most_three (websites : list string) (socials : list Bot.Social) :
  (List.length (Bot.socialButtons websites socials) <= 3)%nat
  /\ (forall url others, websites = url :: others ->
        hd_error (Bot.socialButtons websites socials) = Some (Bot.WebsiteButton url)).
Proof.
  unfold Bot.socialButtons. split.
  - destruct websites; apply addSocials_grow; simpl; lia.
  - intros url others ->.
    destruct (addSocials_grow socials [Bot.WebsiteButton url]) as [_ [more E]];
      [simpl; lia|].
    rewrite E. reflexivity.
Qed.

Lemma social_buttons_at_most_three_witness :
  hd_error (Bot.socialButtons ["https://a.example"%string]
              [{| Bot.social_type := "twitter"; Bot.social_url := "t" |}])
  = Some (Bot.WebsiteButton "https://a.example").
Proof.
  apply (proj2 (social_buttons_at_most_three ["https://a.example"%string]
                  [{| Bot.social_type := "twitter"; Bot.social_url := "t" |}])
               "https://a.example"%string []).
  reflexivity.
Defined.

(* ================================================================== *)
(** ** telegram-bot.js: splitting a long report *)
(* ================================================================== *)

Lemma splitLines_nonempty (text : Bot.Text) : Bot.splitLines text <> [].
Proof.
  induction text as [|c rest IH]; simpl; [discriminate|].
  destruct (c =? Bot.NL)%N; [discriminate|].
  destruct (Bot.splitLines rest); [contradiction|discriminate].
Qed.

(** Joining the lines again gives the text back. *)
Lemma splitLines_join (text : Bot.Text) :
  List.concat (map withNewline (Bot.splitLines text)) = (text ++ [Bot.NL])%list.
Proof.
  induction text as [|c rest IH]; simpl; [reflexivity|].
  destruct (N.eqb_spec c Bot.NL) as [->|Hc].
  - simpl. rewrite IH. reflexivity.
  - pose proof (splitLines_nonempty rest) as Hne.
    destruct (Bot.splitLines rest) as [|line lines]; [contradiction|].
    simpl in *. rewrite <- IH. unfold withNewline. simpl. reflexivity.
Qed.

Lemma chunk_fold_content (lines : list Bot.Text) (state : list Bot.Text * Bot.Text) :
  (List.concat (fst (fold_left Bot.chunkStep lines state))
   ++ snd (fold_left Bot.chunkStep lines state))%list
  = (List.concat (fst state) ++ snd state ++ List.concat (map withNewline lines))%list.
Proof.
  revert state. induction lines as [|line rest IH]; intros [chunks current]; simpl.
  - rewrite app_nil_r. reflexivity.
  - destruct (3900 <? List.length (current ++ line ++ [Bot.NL]))%nat.
    + rewrite IH. unfold push, withNewline. simpl.
      rewrite List.concat_app. simpl. rewrite app_nil_r, <- !app_assoc. reflexivity.
    + rewrite IH. unfold withNewline. simpl. rewrite <- !app_assoc. reflexivity.
Qed.

Lemma splitReport_concat (fullReport : Bot.Text) :
  List.concat (Bot.splitReport fullReport) = (fullReport ++ [Bot.NL])%list.
Proof.
  unfold Bot.splitReport.
  match goal with
  | |- context [fold_left ?f ?l ?i] =>
      pose proof (chunk_fold_content l i) as H;
      destruct (fold_left f l i) as [chunks current] eqn:E;
      try rewrite E in H
  end.
  simpl in H. rewrite splitLines_join in H.
  destruct current as [|c current].
  - rewrite <- H. symmetry. apply app_nil_r.
  - unfold push. rewrite List.concat_app. simpl. rewrite app_nil_r. exact H.
Qed.

(** X12.  Splitting a long report loses nothing: the chunks, put end to
    end in order, are the report followed by one line feed, and a report
    of at most 4000 units is sent as it is, in one message. *)
Theorem report_split_keeps_content (fullReport : Bot.Text) :
  List.concat (Bot.splitReport fullReport) = (fullReport ++ [Bot.NL])%list
  /\ ((4000 < List.length fullReport)%nat ->
      List.concat (Bot.reportMessages fullReport) = (fullReport ++ [Bot.NL])%list)
  /\ ((List.length fullReport <= 4000)%nat ->
      Bot.reportMessages fullReport = [fullReport]).
Proof.
  split; [apply splitReport_concat|].
  unfold Bot.reportMessages.
  split; intro H.
  - destruct (Nat.ltb_spec 4000 (List.length fullReport)); [apply splitReport_concat|lia].
  - destruct (Nat.ltb_spec 4000 (List.length fullReport)); [lia|reflexivity].
Qed.

Lemma report_split_keeps_content_witness :
  Bot.reportMessages [65; 10; 66]%N = [[65; 10; 66]%N].
Proof.
  apply (proj2 (proj2 (report_split_keeps_content [65; 10; 66]%N))).
  simpl. lia.
Defined.

Lemma chunk_fold_sizes (lines : list Bot.Text) (state : list Bot.Text * Bot.Text) :
  Forall (fun line => (List.length line < 3900)%nat) lines ->
  Forall chunkSized (fst state) ->
  (List.length (snd state) <= 3900)%nat ->
  Forall chunkSized (fst (fold_left Bot.chunkStep lines state))
  /\ (List.length (snd (fold_left Bot.chunkStep lines state)) <= 3900)%nat.
Proof.
  revert state.
  induction lines as [|line rest IH]; intros [chunks current] Hlines Hchunks Hcur; simpl in *.
  - split; assumption.
  - inversion Hlines as [|? ? Hline Hrest]; subst.
    destruct (Nat.ltb_spec 3900 (List.length (current ++ line ++ [Bot.NL]))) as [Hbig|Hfit].
    + apply IH; [exact Hrest| |simpl; rewrite length_app; simpl; lia].
      simpl. unfold push. apply Forall_app. split; [exact Hchunks|].
      constructor; [|constructor].
      unfold chunkSized. rewrite !length_app in Hbig. simpl in Hbig. lia.
    + apply IH; [exact Hrest|exact Hchunks|exact Hfit].
Qed.

(** The chunks pushed so far stay where they are. *)
Lemma chunk_fold_prefix (lines : list Bot.Text) (state : list Bot.Text * Bot.Text) :
  exists more, fst (fold_left Bot.chunkStep lines state) = (fst state ++ more)%list.
Proof.
  revert state. induction lines as [|line rest IH]; intros [chunks current]; simpl.
  - exists []. rewrite app_nil_r. reflexivity.
  - destruct (3900 <? List.length (current ++ line ++ [Bot.NL]))%nat.
    + destruct (IH (push chunks current, (line ++ [Bot.NL])%list)) as [more E].
      exists (current :: more). rewrite E. simpl. unfold push.
      rewrite <- app_assoc. reflexivity.
    + apply IH.
Qed.

(** X13.  When every line of the report is shorter than 3900 units, every
    chunk the splitter produces has between 1 and 3900 units.  Without
    that, the bound is lost, and a first line of 3900 units or more makes
    the first chunk the empty string. *)
Theorem report_chunks_sized (fullReport : Bot.Text) :
  (Forall (fun line => (List.length line < 3900)%nat) (Bot.splitLines fullReport) ->
   Forall (fun chunk => (1 <= List.length chunk <= 3900)%nat) (Bot.splitReport fullReport))
  /\ (forall first others,
        Bot.splitLines fullReport = first :: others ->
        (3900 <= List.length first)%nat ->
        hd_error (Bot.splitReport fullReport) = Some []).
Proof.
  split.
  - intro Hlines. unfold Bot.splitReport.
    match goal with
    | |- context [fold_left ?f ?l ?i] =>
        pose proof (chunk_fold_sizes l i Hlines (Forall_nil _) ltac:(simpl; lia))
          as [Hc Hl];
        destruct (fold_left f l i) as [chunks current] eqn:E;
        try rewrite E in Hc, Hl
    end.
    simpl in Hc, Hl.
    destruct current as [|c current]; [exact Hc|].
    unfold push. apply Forall_app. split; [exact Hc|].
    constructor; [|constructor]. simpl in *. lia.
  - intros first others Hsplit Hlong. unfold Bot.splitReport. rewrite Hsplit.
    simpl.
    destruct (Nat.ltb_spec 3900 (List.length (first ++ [Bot.NL]))) as [_|Hno];
      [|rewrite length_app in Hno; simpl in Hno; lia].
    match goal with
    | |- context [fold_left ?f ?l ?i] =>
        destruct (chunk_fold_prefix l i) as [more E];
        destruct (fold_left f l i) as [chunks current] eqn:F;
        try rewrite F in E
    end.
    simpl in E. subst chunks.
    destruct current; reflexivity.
Qed.

Lemma report_chunks_sized_witness :
  Forall (fun chunk => (1 <= List.length chunk <= 3900)%nat)
         (Bot.splitReport [65; 10; 66]%N).
Proof.
  apply (proj1 (report_chunks_sized [65; 10; 66]%N)).
  repeat constructor.
Defined.

(* ================================================================== *)
(** ** The burn-address test and the holder loop *)
(* ================================================================== *)

Lemma isBurnAddress_lower (address : string) :
  isBurnAddress (toLowerCase address) = isBurnAddress address.
Proof.
  unfold isBurnAddress. rewrite toLowerCase_idempotent. reflexivity.
Qed.

Lemma listed_burn_lowercase (ex : string) :
  In ex BURN_ADDRESSES -> toLowerCase ex = ex.
Proof.
  unfold BURN_ADDRESSES. intro H.
  repeat (destruct H as [H|H]; [subst ex; reflexivity|]). destruct H.
Qed.

Lemma listed_burn_iff (addr : string) :
  existsb (fun ex => String.eqb (toLowerCase ex) addr) BURN_ADDRESSES = true
  <-> In addr BURN_ADDRESSES.
Proof.
  rewrite existsb_exists. split.
  - intros (ex & Hin & Heq). apply String.eqb_eq in Heq.
    rewrite (listed_burn_lowercase ex Hin) in Heq. subst. exact Hin.
  - intro Hin. exists addr. split; [exact Hin|].
    apply String.eqb_eq. apply listed_burn_lowercase. exact Hin.
Qed.

Lemma dead_prefix (rest : string) :
  startsWith (toLowerCase ("0xDEAD" ++ rest)) "0xdead" = true.
Proof.
  unfold startsWith. cbn. destruct (toLowerCase rest); reflexivity.
Qed.

(** X14.  [isBurnAddress] does not depend on letter case, and it answers
    [true] exactly for the four listed burn addresses and for every
    address that begins with [0xdead], whatever follows those six
    characters; its last test, for the zero address, never decides. *)
Theorem isBurnAddress_characterised (address : string) :
  isBurnAddress (toLowerCase address) = isBurnAddress address
  /\ (isBurnAddress address = true
      <-> In (toLowerCase address) BURN_ADDRESSES
          \/ startsWith (toLowerCase address) "0xdead" = true)
  /\ (forall rest : string, isBurnAddress ("0xDEAD" ++ rest) = true).
Proof.
  split; [apply isBurnAddress_lower|].
  split.
  - unfold isBurnAddress. cbv zeta.
    destruct (existsb _ BURN_ADDRESSES) eqn:Ex.
    + apply listed_burn_iff in Ex. split; [intros _; left; exact Ex|reflexivity].
    + destruct (startsWith (toLowerCase address) "0xdead") eqn:P.
      * split; [intros _; right; reflexivity|reflexivity].
      * assert (Hnot : ~ In (toLowerCase address) BURN_ADDRESSES).
        { intro Hin. apply listed_burn_iff in Hin. congruence. }
        destruct (String.eqb_spec (toLowerCase address)
                                  "0x0000000000000000000000000000000000000000") as [E|N].
        -- exfalso. apply Hnot. rewrite E. left. reflexivity.
        -- split; [discriminate|]. intros [H|H]; [contradiction|discriminate].
  - intro rest. unfold isBurnAddress. cbv zeta.
    rewrite dead_prefix.
    destruct (existsb _ BURN_ADDRESSES); reflexivity.
Qed.


Lemma firstn_shows_members {A} (n : nat) (l : list A) (x : A) :
  In x (firstn n l) -> In x l.
Proof.
  revert l. induction n as [|n IH]; intros l H; simpl in H; [destruct H|].
  destruct l as [|a l]; [destruct H|].
  destruct H as [H|H]; [left; exact H|right; apply IH; exact H].
Qed.

Section HolderLoop.

Variable plus : JS.number -> JS.number -> JS.number.

Lemma tallyOwner_burn (t : Tally) (holder : MoralisOwner) :
  isBurnAddress (owner_address holder) = true ->
  sameCount (tallyOwner plus t holder) t.
Proof.
  intro H. unfold tallyOwner. rewrite isBurnAddress_lower, H.
  repeat split.
Qed.

Lemma tallyOwner_sameCount (t u : Tally) (holder : MoralisOwner) :
  sameCount t u -> sameCount (tallyOwner plus t holder) (tallyOwner plus u holder).
Proof.
  intros (H1 & H10 & Hh). unfold tallyOwner, sameCount.
  destruct (isBurnAddress (toLowerCase (owner_address holder))); simpl.
  - auto.
  - rewrite H1, H10, Hh. auto.
Qed.

Lemma tallyOwners_sameCount (result : list MoralisOwner) (t u : Tally) :
  sameCount t u ->
  sameCount (fold_left (tallyOwner plus) result t) (fold_left (tallyOwner plus) result u).
Proof.
  revert t u. induction result as [|holder rest IH]; intros t u H; simpl; [exact H|].
  apply IH. apply tallyOwner_sameCount. exact H.
Qed.

(** Dropping the burn-address entries changes nothing but the burned
    share. *)
Lemma tally_ignores_burned (result : list MoralisOwner) (t : Tally) :
  sameCount (fold_left (tallyOwner plus) result t)
            (fold_left (tallyOwner plus) (countedOwners result) t).
Proof.
  revert t. induction result as [|holder rest IH]; intro t; simpl.
  - repeat split.
  - destruct (isBurnAddress (owner_address holder)) eqn:B; simpl.
    + destruct (IH t) as (I1 & I10 & Ih).
      destruct (tallyOwners_sameCount rest _ _ (tallyOwner_burn t holder B))
        as (J1 & J10 & Jh).
      unfold sameCount. rewrite J1, J10, Jh. auto.
    + apply IH.
Qed.

Lemma tally_rows (result : list MoralisOwner) (t : Tally) :
  tally_holders (fold_left (tallyOwner plus) result t)
  = (tally_holders t ++ map rowOf (countedOwners result))%list.
Proof.
  revert t. induction result as [|holder rest IH]; intro t; simpl.
  - rewrite app_nil_r. reflexivity.
  - rewrite IH. unfold tallyOwner. rewrite isBurnAddress_lower.
    destruct (isBurnAddress (owner_address holder)); simpl; [reflexivity|].
    unfold push. rewrite <- app_assoc. reflexivity.
Qed.

Lemma tally_top1_kept (result : list MoralisOwner) (t : Tally) :
  tally_holders t <> [] ->
  tally_top1 (fold_left (tallyOwner plus) result t) = tally_top1 t.
Proof.
  revert t. induction result as [|holder rest IH]; intros t Hne; simpl; [reflexivity|].
  rewrite IH.
  - unfold tallyOwner.
    destruct (isBurnAddress (toLowerCase (owner_address holder))); simpl; [reflexivity|].
    unfold push. rewrite length_app. simpl.
    destruct (tally_holders t) as [|r rs]; [contradiction|]. simpl.
    replace (List.length rs + 1)%nat with (S (List.length rs)) by lia. reflexivity.
  - unfold tallyOwner.
    destruct (isBurnAddress (toLowerCase (owner_address holder))); simpl; [exact Hne|].
    unfold push. destruct (tally_holders t); discriminate.
Qed.

Lemma tally_top1_first (result : list MoralisOwner) (t : Tally) :
  tally_holders t = [] ->
  tally_top1 (fold_left (tallyOwner plus) result t)
  = match countedOwners result with
    | [] => tally_top1 t
    | holder :: _ => row_percent (rowOf holder)
    end.
Proof.
  revert t. induction result as [|holder rest IH]; intros t Hnil; simpl; [reflexivity|].
  destruct (isBurnAddress (owner_address holder)) eqn:B; simpl.
  - rewrite IH.
    + destruct (tallyOwner_burn t holder B) as (E1 & _ & _). rewrite E1. reflexivity.
    + destruct (tallyOwner_burn t holder B) as (_ & _ & Eh). rewrite Eh. exact Hnil.
  - rewrite tally_top1_kept.
    + unfold tallyOwner. rewrite isBurnAddress_lower, B. simpl.
      rewrite Hnil. reflexivity.
    + unfold tallyOwner. rewrite isBurnAddress_lower, B. simpl.
      unfold push. destruct (tally_holders t); discriminate.
Qed.

(** X15.  In the holder loop of [checkHolders], the rows kept are the
    owners that are not burn addresses, in the order received;
    [top1Percent] is the share of the first of them (0 when there is
    none), wherever the burn addresses stand in the list; and
    [topHolders] has at most ten rows, none of them a burn address. *)
Theorem holder_loop_top1 (result : list MoralisOwner) :
  let t := tallyOwners plus result in
  tally_holders t = map rowOf (countedOwners result)
  /\ tally_top1 t = match countedOwners result with
                    | [] => JS.int 0
                    | holder :: _ => JS.orZero (Some (percentage holder))
                    end
  /\ (List.length (topHolders t) <= 10)%nat
  /\ Forall (fun row => isBurnAddress (row_address row) = false) (topHolders t).
Proof.
  cbv zeta. unfold tallyOwners.
  split; [rewrite tally_rows; reflexivity|].
  split; [rewrite tally_top1_first; reflexivity|].
  split; [unfold topHolders; apply firstn_le_length|].
  unfold topHolders. rewrite tally_rows.
  change (tally_holders _ ++ ?l)%list with l.
  apply Forall_forall. intros row Hin.
  apply firstn_shows_members in Hin.
  apply in_map_iff in Hin. destruct Hin as (holder & <- & Hin).
  unfold countedOwners in Hin. apply filter_In in Hin. destruct Hin as [_ Hb].
  simpl. rewrite isBurnAddress_lower. apply negb_true_iff. exact Hb.
Qed.

Lemma dead_is_burn (rest : string) : isBurnAddress ("0xdead" ++ rest) = true.
Proof.
  unfold isBurnAddress. cbv zeta.
  change (toLowerCase ("0xdead" ++ rest)) with (toLowerCase ("0xDEAD" ++ rest)).
  rewrite dead_prefix.
  destruct (existsb _ BURN_ADDRESSES); reflexivity.
Qed.

Lemma countedOwners_idempotent (result : list MoralisOwner) :
  countedOwners (countedOwners result) = countedOwners result.
Proof.
  unfold countedOwners. induction result as [|holder rest IH]; simpl; [reflexivity|].
  destruct (isBurnAddress (owner_address holder)) eqn:B; simpl; [exact IH|].
  rewrite B. simpl. rewrite IH. reflexivity.
Qed.

Lemma countedOwners_skips_burn (before after : list MoralisOwner) (holder : MoralisOwner) :
  isBurnAddress (owner_address holder) = true ->
  countedOwners (before ++ holder :: after) = countedOwners (before ++ after).
Proof.
  intro B. unfold countedOwners. rewrite !filter_app. simpl. rewrite B. reflexivity.
Qed.

(** The Moralis branch sees a list only through its owners that are not
    burn addresses and through whether it is empty. *)
Lemma moralisHolders_by_counted (result other : list MoralisOwner) :
  countedOwners other = countedOwners result ->
  (other = [] <-> result = []) ->
  moralisHolders plus (Some other) = moralisHolders plus (Some result).
Proof.
  intros Hc Hiff. unfold moralisHolders.
  destruct other as [|o os], result as [|r rs]; [reflexivity| | |].
  - exfalso. pose proof (proj1 Hiff eq_refl) as E. discriminate E.
  - exfalso. pose proof (proj2 Hiff eq_refl) as E. discriminate E.
  - destruct (tally_ignores_burned (o :: os)
                {| tally_burned := JS.int 0; tally_top1 := JS.int 0;
                   tally_top10 := JS.int 0; tally_holders := [] |}) as (O1 & O10 & _).
    destruct (tally_ignores_burned (r :: rs)
                {| tally_burned := JS.int 0; tally_top1 := JS.int 0;
                   tally_top10 := JS.int 0; tally_holders := [] |}) as (R1 & R10 & _).
    unfold tallyOwners. rewrite O1, O10, R1, R10, Hc. reflexivity.
Qed.

(** X16.  An owner at a burn address, and so any owner whose address
    begins with [0xdead], never counts towards the concentration
    figures: [checkHolders] gives the same label, [top1Percent] and
    [top10Percent] to two Moralis lists with the same owners that are
    not burn addresses, as long as both are empty or both are not.  So
    any share may be written on a burn address, and the burn addresses
    may be removed when another owner remains.  When the list holds burn
    addresses only, it is labelled LOW with both figures 0, whereas
    without them the list is empty and [checkHolders] goes on to its
    GoPlus branch. *)
Theorem holder_loop_ignores_burned (result : list MoralisOwner) :
  sameCount (tallyOwners plus result) (tallyOwners plus (countedOwners result))
  /\ (forall (other : list MoralisOwner) (goplus : option Holders),
        countedOwners other = countedOwners result ->
        (other = [] <-> result = []) ->
        checkHolders (moralisHolders plus (Some other)) goplus
        = checkHolders (moralisHolders plus (Some result)) goplus)
  /\ (forall goplus : option Holders,
        countedOwners result <> [] ->
        checkHolders (moralisHolders plus (Some (countedOwners result))) goplus
        = checkHolders (moralisHolders plus (Some result)) goplus)
  /\ (forall goplus : option Holders,
        result <> [] -> countedOwners result = [] ->
        checkHolders (moralisHolders plus (Some result)) goplus
        = Success (Some LOW) {| top1Percent := JS.int 0; top10Percent := JS.int 0 |}
        /\ checkHolders (moralisHolders plus (Some (countedOwners result))) goplus
           = checkHolders None goplus)
  /\ (forall (before after : list MoralisOwner) (holder : MoralisOwner)
             (share : JS.number) (goplus : option Holders),
        isBurnAddress (owner_address holder) = true ->
        result = (before ++ holder :: after)%list ->
        checkHolders
          (moralisHolders plus
             (Some (before ++ {| owner_address := owner_address holder;
                                 percentage := share |} :: after)%list)) goplus
        = checkHolders (moralisHolders plus (Some result)) goplus)
  /\ (forall (before after : list MoralisOwner) (rest : string) (share : JS.number),
        result = (before ++ {| owner_address := "0xdead" ++ rest; percentage := share |}
                         :: after)%list ->
        sameCount (tallyOwners plus result) (tallyOwners plus (before ++ after))).
Proof.
  pose proof (tally_ignores_burned result
                {| tally_burned := JS.int 0; tally_top1 := JS.int 0;
                   tally_top10 := JS.int 0; tally_holders := [] |}) as H.
  fold (tallyOwners plus result) in H.
  fold (tallyOwners plus (countedOwners result)) in H.
  split; [exact H|].
  split; [|split; [|split; [|split]]].
  - intros other goplus Hc Hiff.
    rewrite (moralisHolders_by_counted result other Hc Hiff). reflexivity.
  - intros goplus Hne.
    rewrite (moralisHolders_by_counted result (countedOwners result));
      [reflexivity|apply countedOwners_idempotent|].
    split; [intro E; contradiction|intros ->; reflexivity].
  - intros goplus Hne Hnone. split.
    + destruct result as [|r rs]; [contradiction|].
      unfold moralisHolders. destruct H as (H1 & H10 & _).
      rewrite H1, H10, Hnone. reflexivity.
    + rewrite Hnone. reflexivity.
  - intros before after holder share goplus B ->.
    rewrite (moralisHolders_by_counted (before ++ holder :: after)
               (before ++ {| owner_address := owner_address holder;
                             percentage := share |} :: after)); [reflexivity| |].
    + rewrite (countedOwners_skips_burn before after holder B).
      apply countedOwners_skips_burn. exact B.
    + split; intro E; destruct before; discriminate E.
  - intros before after rest share ->.
    unfold tallyOwners. rewrite !fold_left_app. simpl.
    apply tallyOwners_sameCount. apply tallyOwner_burn.
    exact (dead_is_burn rest).
Qed.

End HolderLoop.

(* ================================================================== *)
(** ** The contract-function scan *)
(* ================================================================== *)

Lemma holder_loop_ignores_burned_witness :
  checkHolders
    (moralisHolders exactPlus
       (Some [{| owner_address := "0xab"; percentage := JS.int 5 |}])) None
  = checkHolders
      (moralisHolders exactPlus
         (Some [{| owner_address := "0xdead00"; percentage := JS.int 40 |};
                {| owner_address := "0xab"; percentage := JS.int 5 |}])) None.
Proof.
  apply (proj1 (proj2 (proj2 (holder_loop_ignores_burned exactPlus
           [{| owner_address := "0xdead00"; percentage := JS.int 40 |};
            {| owner_address := "0xab"; percentage := JS.int 5 |}])))
           None).
  discriminate.
Defined.

(** What one function name adds to each bucket. *)
Lemma scanFunction_adds (findings : Findings) (func : string) :
  critical (scanFunction findings func)
  = (critical findings
     ++ if existsb (includes func) minting
        then [{| name := func; why := "Can create new tokens" |}] else [])%list
  /\ high (scanFunction findings func)
     = (high findings
        ++ (if existsb (includes func) pausing
            then [{| name := func; why := "Can freeze trading" |}] else [])
        ++ (if existsb (includes func) blacklisting
            then [{| name := func; why := "Can block wallets" |}] else []))%list
  /\ medium (scanFunction findings func)
     = (medium findings
        ++ if existsb (includes func) fees
           then [{| name := func; why := "Can change fees" |}] else [])%list
  /\ info (scanFunction findings func) = info findings.
Proof.
  unfold scanFunction, push.
  destruct (existsb (includes func) minting), (existsb (includes func) pausing),
    (existsb (includes func) blacklisting), (existsb (includes func) fees);
    simpl; rewrite ?app_nil_r, <- ?app_assoc; repeat split.
Qed.

(** The findings after a whole list of names: sizes, and where the names
    come from. *)
Lemma scan_fold_shape (functions : list string) (start : Findings) :
  let f := fold_left scanFunction functions start in
  (List.length (critical start) <= List.length (critical f)
   <= List.length (critical start) + List.length functions)%nat
  /\ (List.length (high f) <= List.length (high start) + 2 * List.length functions)%nat
  /\ (List.length (medium f) <= List.length (medium start) + List.length functions)%nat
  /\ info f = info start
  /\ (forall x, In x (critical f ++ high f ++ medium f) ->
                In x (critical start ++ high start ++ medium start)
                \/ In (name x) functions).
Proof.
  revert start. induction functions as [|func rest IH]; intro start; cbv zeta; simpl.
  - repeat split; try lia. intros x H. left. exact H.
  - destruct (scanFunction_adds start func) as (Ec & Eh & Em & Ei).
    specialize (IH (scanFunction start func)). cbv zeta in IH.
    destruct IH as ((C1 & C2) & H2 & M2 & I2 & N2).
    rewrite Ec in C1, C2. rewrite Eh in H2. rewrite Em in M2. rewrite Ei in I2.
    rewrite !length_app in *.
    assert (Lc : forall (b : bool) (x : Finding),
               (List.length (if b then [x] else []) <= 1)%nat)
      by (intros [] ?; simpl; lia).
    pose proof (Lc (existsb (includes func) minting)
                   {| name := func; why := "Can create new tokens" |}).
    pose proof (Lc (existsb (includes func) pausing)
                   {| name := func; why := "Can freeze trading" |}).
    pose proof (Lc (existsb (includes func) blacklisting)
                   {| name := func; why := "Can block wallets" |}).
    pose proof (Lc (existsb (includes func) fees)
                   {| name := func; why := "Can change fees" |}).
    repeat split; try lia; try assumption.
    intros x Hx. destruct (N2 x Hx) as [Hs|Hr]; [|right; right; exact Hr].
    rewrite Ec, Eh, Em in Hs. rewrite !in_app_iff in Hs. rewrite !in_app_iff.
    assert (Ln : forall (b : bool) (w : string),
               In x (if b then [{| name := func; why := w |}] else []) -> name x = func).
    { intros [] w Hin; simpl in Hin; [|destruct Hin].
      destruct Hin as [<-|[]]. reflexivity. }
    destruct Hs as [[Hs|Hs]|[[Hs|[Hs|Hs]]|[Hs|Hs]]]; auto;
      right; left; symmetry; eapply Ln; exact Hs.
Qed.

(** X17.  For a verified contract, [checkContractFunctions] reports as
    [functionCount] the number of ABI entries of type [function]; it
    never fills the [info] bucket; a function gives at most one critical,
    two high and one medium finding; every finding carries the
    lowercased name of a function of the ABI, so entries of another type
    (events, the constructor) are never reported; and the score block
    adds at most 22 points per function. *)
Theorem contract_scan_shape (abi : list AbiItem) (results : Results) :
  let functions := filter (fun item => String.eqb (item_type item) "function") abi in
  exists f : Findings,
    checkContractFunctions true (Some {| reply_status := "1"; reply_abi := Returned abi |})
    = Success (Some (findingsRisk f))
              {| functionCount := List.length functions; findings := f |}
    /\ info f = []
    /\ (List.length (critical f) <= List.length functions)%nat
    /\ (List.length (high f) <= 2 * List.length functions)%nat
    /\ (List.length (medium f) <= List.length functions)%nat
    /\ (forall x, In x (critical f ++ high f ++ medium f) ->
                  exists item, In item abi
                               /\ item_type item = "function"%string
                               /\ name x = toLowerCase (item_name item))
    /\ (contractScan results
        = checkContractFunctions true
            (Some {| reply_status := "1"; reply_abi := Returned abi |}) ->
        added ContractScanSignal results 0 <= 22 * Z.of_nat (List.length functions)).
Proof.
  cbv zeta.
  set (functions := filter (fun item => String.eqb (item_type item) "function") abi).
  pose proof (scan_fold_shape (map (fun f => toLowerCase (item_name f)) functions)
                {| critical := []; high := []; medium := []; info := [] |}) as H.
  cbv zeta in H. rewrite length_map in H. simpl in H.
  destruct H as ((_ & Hc) & Hh & Hm & Hi & Hn).
  exists (fold_left scanFunction
            (map (fun f => toLowerCase (item_name f)) functions)
            {| critical := []; high := []; medium := []; info := [] |}).
  split.
  { transitivity
      (Success (Some (findingsRisk
                        (fold_left scanFunction
                           (map (fun f => toLowerCase (item_name f)) functions)
                           {| critical := []; high := []; medium := []; info := [] |})))
               {| functionCount :=
                    List.length (map (fun f => toLowerCase (item_name f)) functions);
                  findings :=
                    fold_left scanFunction
                      (map (fun f => toLowerCase (item_name f)) functions)
                      {| critical := []; high := []; medium := []; info := [] |} |});
      [reflexivity|].
    rewrite length_map. reflexivity. }
  repeat apply conj; try assumption; try lia.
  - intros x Hx. destruct (Hn x Hx) as [[]|Hin].
    apply in_map_iff in Hin. destruct Hin as (item & Hname & Hitem).
    unfold functions in Hitem. apply filter_In in Hitem. destruct Hitem as [Hitem Htype].
    exists item. repeat split; [exact Hitem|apply String.eqb_eq; exact Htype|].
    symmetry. exact Hname.
  - intro E. unfold added, scoreContractScan. rewrite E.
    change (checkContractFunctions true
              (Some {| reply_status := "1"; reply_abi := Returned abi |}))
      with (Success (Some (findingsRisk
                        (fold_left scanFunction
                           (map (fun f => toLowerCase (item_name f)) functions)
                           {| critical := []; high := []; medium := []; info := [] |})))
               {| functionCount :=
                    List.length (map (fun f => toLowerCase (item_name f)) functions);
                  findings :=
                    fold_left scanFunction
                      (map (fun f => toLowerCase (item_name f)) functions)
                      {| critical := []; high := []; medium := []; info := [] |} |}).
    cbv beta iota zeta. cbn [findings].
    clearbody functions. lia.
Qed.

Lemma scan_fold_critical (functions : list string) (start : Findings) (func : string) :
  In func functions ->
  existsb (includes func) minting = true ->
  (0 < List.length (critical (fold_left scanFunction functions start)))%nat.
Proof.
  revert start. induction functions as [|g rest IH]; intros start Hin Hmint; [destruct Hin|].
  simpl. destruct Hin as [->|Hin].
  - pose proof (scan_fold_shape rest (scanFunction start func)) as H. cbv zeta in H.
    destruct H as ((H & _) & _).
    destruct (scanFunction_adds start func) as (Ec & _).
    rewrite Ec, Hmint, length_app in H. simpl in H. lia.
  - apply IH; assumption.
Qed.

(** X18.  A contract function whose name contains [mint], [issue],
    [create] or [inflate], in any letter case, always makes the scan's
    label CRITICAL and the score block add at least 10. *)
Theorem minting_function_is_critical (abi : list AbiItem) (item : AbiItem)
        (keyword : string) (results : Results) :
  In item abi ->
  item_type item = "function"%string ->
  In keyword minting ->
  includes (toLowerCase (item_name item)) keyword = true ->
  risk (checkContractFunctions true
          (Some {| reply_status := "1"; reply_abi := Returned abi |})) = Some CRITICAL
  /\ (contractScan results
      = checkContractFunctions true
          (Some {| reply_status := "1"; reply_abi := Returned abi |}) ->
      10 <= added ContractScanSignal results 0).
Proof.
  intros Hitem Htype Hkey Hinc.
  assert (Hlen : (0 < List.length (critical
            (fold_left scanFunction
               (map (fun f => toLowerCase (item_name f))
                    (filter (fun item => String.eqb (item_type item) "function") abi))
               {| critical := []; high := []; medium := []; info := [] |})))%nat).
  { apply (scan_fold_critical _ _ (toLowerCase (item_name item))).
    - apply in_map_iff. exists item. split; [reflexivity|].
      apply filter_In. split; [exact Hitem|]. apply String.eqb_eq. exact Htype.
    - apply existsb_exists. exists keyword. split; assumption. }
  split.
  - change (risk (checkContractFunctions true
              (Some {| reply_status := "1"; reply_abi := Returned abi |})))
      with (Some (findingsRisk
                        (fold_left scanFunction
                           (map (fun f => toLowerCase (item_name f))
                              (filter (fun item => String.eqb (item_type item) "function") abi))
                           {| critical := []; high := []; medium := []; info := [] |}))).
    unfold findingsRisk.
    destruct (Nat.ltb_spec 0 (List.length (critical
            (fold_left scanFunction
               (map (fun f => toLowerCase (item_name f))
                    (filter (fun item => String.eqb (item_type item) "function") abi))
               {| critical := []; high := []; medium := []; info := [] |}))));
      [reflexivity|lia].
  - intro E. unfold added, scoreContractScan. rewrite E.
    change (checkContractFunctions true
              (Some {| reply_status := "1"; reply_abi := Returned abi |}))
      with (Success (Some (findingsRisk
                        (fold_left scanFunction
                           (map (fun f => toLowerCase (item_name f))
                              (filter (fun item => String.eqb (item_type item) "function") abi))
                           {| critical := []; high := []; medium := []; info := [] |})))
               {| functionCount :=
                    List.length (map (fun f => toLowerCase (item_name f))
                              (filter (fun item => String.eqb (item_type item) "function") abi));
                  findings :=
                    fold_left scanFunction
                      (map (fun f => toLowerCase (item_name f))
                         (filter (fun item => String.eqb (item_type item) "function") abi))
                      {| critical := []; high := []; medium := []; info := [] |} |}).
    cbv beta iota zeta. cbn [findings]. lia.
Qed.

Lemma minting_function_is_critical_witness :
  risk (checkContractFunctions true (abiOf ["transfer"; "safeMint"]%string)) = Some CRITICAL.
Proof.
  apply (minting_function_is_critical
           (map (fun n => {| item_type := "function"; item_name := n |})
                ["transfer"; "safeMint"]%string)
           {| item_type := "function"; item_name := "safeMint" |}
           "mint"%string allDown).
  - simpl. tauto.
  - reflexivity.
  - simpl. tauto.
  - reflexivity.
Defined.

(* ================================================================== *)
(** ** Labels of the fetchers against the score *)
(* ================================================================== *)

Lemma low_tokenInfo (reads : Attempt TokenReads) (results : Results) :
  tokenInfo results = checkTokenInfo reads ->
  risk (checkTokenInfo reads) = Some LOW ->
  added TokenInfoSignal results 0 <= 10.
Proof.
  intros E R. unfold added, scoreTokenInfo. rewrite E.
  destruct reads as [r|m]; [|discriminate R].
  unfold checkTokenInfo in *.
  destruct (read_owner r) as [owner|]; [destruct (String.eqb owner zeroAddress)|];
    cbn in R |- *; try discriminate R;
    destruct (read_contractAge r); split_ifs; lia.
Qed.

Lemma findingsRisk_low (f : Findings) :
  findingsRisk f = LOW ->
  critical f = [] /\ high f = [] /\ (List.length (medium f) <= 1)%nat.
Proof.
  unfold findingsRisk.
  destruct (critical f) as [|c cs]; simpl; [|discriminate].
  destruct (high f) as [|h [|h' hs]]; simpl; try discriminate.
  destruct (medium f) as [|m [|m' ms]]; simpl; try discriminate;
    intros _; repeat split; lia.
Qed.

Lemma low_contractScan (apiKey : bool) (result : option AbiReply) (results : Results) :
  contractScan results = checkContractFunctions apiKey result ->
  risk (checkContractFunctions apiKey result) = Some LOW ->
  added ContractScanSignal results 0 <= 2.
Proof.
  intros E R. unfold added, scoreContractScan. rewrite E.
  unfold checkContractFunctions in *.
  destruct apiKey; [|discriminate R].
  destruct result as [reply|]; [|discriminate R].
  cbn [negb] in *.
  destruct (negb (String.eqb (reply_status reply) "1")); [discriminate R|].
  destruct (reply_abi reply) as [abi|m]; [|discriminate R].
  cbn [risk] in R. injection R as R. apply findingsRisk_low in R.
  destruct R as (Rc & Rh & Rm).
  cbv beta iota zeta. cbn [findings]. rewrite Rc, Rh. simpl List.length. lia.
Qed.

Lemma liquidityRisk_low (usd safe : JS.number) :
  liquidityRisk usd safe = LOW ->
  JS.lt usd (JS.int 50000) = false /\ JS.lt safe (JS.int 80) = false.
Proof.
  unfold liquidityRisk.
  destruct (JS.lt usd (JS.int 10000) && JS.lt safe (JS.int 50)); [discriminate|].
  destruct (JS.lt usd (JS.int 50000)); [discriminate|].
  destruct (JS.lt safe (JS.int 80)); [discriminate|].
  intros _. split; reflexivity.
Qed.

Lemma JS_lt_int_false (x : JS.number) (c d : Z) :
  c <= d -> JS.lt x (JS.int d) = false -> JS.lt x (JS.int c) = false.
Proof.
  intros Hcd H. destruct (JS.lt x (JS.int c)) eqn:E; [|reflexivity].
  rewrite (JS_lt_int_weaken x c d Hcd E) in H. discriminate H.
Qed.

Lemma low_liquidity (reads : Attempt PoolReads) (results : Results) :
  liquidity results = checkLiquidity reads ->
  risk (checkLiquidity reads) = Some LOW ->
  added LiquiditySignal results 0 = 0.
Proof.
  intros E R. unfold added, scoreLiquidity. rewrite E.
  destruct reads as [p|m]; [|discriminate R].
  unfold checkLiquidity in *.
  destruct (JS.isZero (priceInUSD p)); [discriminate R|].
  cbn [risk] in R. injection R as R. apply liquidityRisk_low in R.
  destruct R as [Ru Rs].
  cbv beta iota zeta. cbn [liquidityUSD safePercent].
  rewrite (JS_lt_int_false _ 1000 50000 ltac:(lia) Ru),
    (JS_lt_int_false _ 10000 50000 ltac:(lia) Ru), Ru,
    (JS_lt_int_false _ 20 80 ltac:(lia) Rs),
    (JS_lt_int_false _ 50 80 ltac:(lia) Rs), Rs.
  reflexivity.
Qed.

Lemma holdersRisk_low (top1 top10 : JS.number) :
  holdersRisk top1 top10 = LOW ->
  JS.gt top1 (JS.int 30) = false /\ JS.gt top1 (JS.int 20) = false
  /\ JS.gt top1 (JS.int 10) = false /\ JS.gt top10 (JS.int 70) = false
  /\ JS.gt top10 (JS.int 50) = false.
Proof.
  unfold holdersRisk.
  destruct (JS.gt top1 (JS.int 30)); [discriminate|].
  destruct (JS.gt top1 (JS.int 20)); [discriminate|].
  destruct (JS.gt top10 (JS.int 70)); [discriminate|].
  destruct (JS.gt top1 (JS.int 10)); [discriminate|].
  destruct (JS.gt top10 (JS.int 50)); [discriminate|].
  intros _. repeat split.
Qed.

Lemma low_holders (moralis goplus : option Holders) (results : Results) :
  holders results = checkHolders moralis goplus ->
  risk (checkHolders moralis goplus) = Some LOW ->
  added HoldersSignal results 0 = 0.
Proof.
  intros E R. unfold added, scoreHolders. rewrite E.
  unfold checkHolders in *.
  destruct moralis as [h|]; [|destruct goplus as [h|]; [|discriminate R]];
    cbn [risk] in R; injection R as R; apply holdersRisk_low in R;
    destruct R as (R1 & R2 & R3 & R4 & R5);
    cbv beta iota zeta; rewrite R1, R2, R3, R4, R5; reflexivity.
Qed.

Lemma pushIf_length {A} (c : bool) (x : A) (bucket : list A) :
  List.length (pushIf c x bucket)
  = (List.length bucket + if c then 1 else 0)%nat.
Proof.
  unfold pushIf, push. destruct c; [rewrite length_app; reflexivity|lia].
Qed.

Lemma pushTax_length (tax : option JS.number) (test : JS.number -> bool)
      (mk : JS.number -> Issue) (bucket : list Issue) :
  List.length (pushTax tax test mk bucket)
  = (List.length bucket
     + match tax with
       | Some t => if test t then 1 else 0
       | None => 0
       end)%nat.
Proof.
  unfold pushTax. destruct tax as [t|]; [apply pushIf_length|lia].
Qed.

(** With no extreme and no high sell tax recorded, the sell-tax ladder
    of the score gives 5 at most. *)
Lemma sellTaxPoints_low (tax : option JS.number) :
  match tax with Some t => JS.gt t (JS.int 50) | None => false end = false ->
  match tax with
  | Some t => JS.gt t (JS.int 20) && JS.le t (JS.int 50)
  | None => false
  end = false ->
  sellTaxPoints tax <= 5.
Proof.
  unfold sellTaxPoints. cbv zeta.
  destruct tax as [[|a]|]; simpl JS.orZero; intros H50 H20; try (vm_compute; discriminate).
  destruct (Qeq_bool a 0); [vm_compute; discriminate|].
  rewrite H50.
  destruct (JS.gt (JS.Num a) (JS.int 20)) eqn:G20.
  - exfalso. simpl in H20.
    unfold JS.gt, JS.lt, JS.int in H50. unfold JS.le, JS.int in H20.
    apply negb_false_iff in H50. rewrite H50 in H20. discriminate H20.
  - split_ifs; lia.
Qed.

Lemma low_honeypot (reply : Attempt SecurityReply) (results : Results) :
  honeypot results = checkHoneypot reply ->
  risk (checkHoneypot reply) = Some LOW ->
  added HoneypotSignal results 0 <= 5.
Proof.
  intros E R. unfold added. rewrite scoreHoneypot_sum, E.
  destruct reply as [[| |d]|m]; try discriminate R.
  cbn [checkHoneypot risk] in *. injection R as R.
  unfold honeypotRisk in R.
  destruct (isHoneypot (flags d)) eqn:F1; [discriminate R|]. cbn [orb] in R.
  destruct (Nat.ltb_spec 0 (List.length (critical (issuesOf d)))) as [|Hc];
    [discriminate R|].
  destruct (Nat.leb_spec 2 (List.length (high (issuesOf d)))); [discriminate R|].
  destruct (Nat.ltb_spec 0 (List.length (high (issuesOf d)))) as [|Hh];
    [discriminate R|].
  clear R.
  unfold issuesOf in Hc, Hh. cbn [critical high] in Hc, Hh.
  repeat (rewrite pushIf_length in Hc || rewrite pushTax_length in Hc).
  repeat (rewrite pushIf_length in Hh || rewrite pushTax_length in Hh).
  simpl List.length in Hc, Hh.
  unfold honeypotPoints, flagPoints. rewrite F1.
  cbv beta zeta in Hc, Hh.
  destruct (cannotBuy (flags d)); [cbv iota in Hc; lia|].
  destruct (cannotSellAll (flags d)); [cbv iota in Hc; lia|].
  destruct (ownerCanChangeBalance (flags d)); [cbv iota in Hh; lia|].
  destruct (hiddenOwner (flags d)); [cbv iota in Hh; lia|].
  destruct (canTakeBackOwnership (flags d)); [cbv iota in Hh; lia|].
  assert (sellTaxPoints (sellTax (flags d)) <= 5); [|lia].
  apply sellTaxPoints_low.
  - destruct (sellTax (flags d)) as [t|]; [|reflexivity].
    destruct (JS.gt t (JS.int 50)); [cbv iota in Hc; lia|reflexivity].
  - destruct (sellTax (flags d)) as [t|]; [|reflexivity].
    destruct (JS.gt t (JS.int 20) && JS.le t (JS.int 50));
      [cbv iota in Hh; lia|reflexivity].
Qed.

(** X19.  When the five scored fetchers all label their signal LOW, the
    overall level is LOW as well: the score is then at most 17 (up to 10
    for a young contract, 2 for a single fee-setting function, 5 for a
    sell tax between 10 and 20 percent, nothing for liquidity and
    holders).  A report cannot show five LOW categories under a MEDIUM,
    HIGH or CRITICAL verdict. *)
Theorem all_low_labels_give_low (token : Attempt TokenReads) (apiKey : bool)
        (abi : option AbiReply) (pool : Attempt PoolReads)
        (moralis goplus : option Holders) (security : Attempt SecurityReply)
        (market : SignalResult Sentiment) :
  let results :=
    {| tokenInfo := checkTokenInfo token;
       contractScan := checkContractFunctions apiKey abi;
       liquidity := checkLiquidity pool;
       holders := checkHolders moralis goplus;
       honeypot := checkHoneypot security;
       sentiment := market |} in
  risk (tokenInfo results) = Some LOW ->
  risk (contractScan results) = Some LOW ->
  risk (liquidity results) = Some LOW ->
  risk (holders results) = Some LOW ->
  risk (honeypot results) = Some LOW ->
  riskScore results <= 17 /\ riskLevel results = LOW.
Proof.
  cbv zeta. cbn [tokenInfo contractScan liquidity holders honeypot].
  intros Rt Rc Rl Rh Rp.
  set (results := {| tokenInfo := checkTokenInfo token;
       contractScan := checkContractFunctions apiKey abi;
       liquidity := checkLiquidity pool;
       holders := checkHolders moralis goplus;
       honeypot := checkHoneypot security;
       sentiment := market |}).
  pose proof (low_tokenInfo token results eq_refl Rt).
  pose proof (low_contractScan apiKey abi results eq_refl Rc).
  pose proof (low_liquidity pool results eq_refl Rl).
  pose proof (low_holders moralis goplus results eq_refl Rh).
  pose proof (low_honeypot security results eq_refl Rp).
  pose proof (rawScore_nonneg results) as Hnn.
  assert (Hs : riskScore results <= 17).
  { unfold riskScore. rewrite rawScore_sum in *. lia. }
  split; [exact Hs|].
  unfold riskLevel.
  destruct (riskLevelOf_cases (riskScore results))
    as [[? ?]|[[? ?]|[[? ?]|[? E]]]]; try lia. exact E.
Qed.

Lemma all_low_labels_give_low_witness :
  riskScore cleanToken <= 17 /\ riskLevel cleanToken = LOW.
Proof.
  apply (all_low_labels_give_low
           (Returned {| read_owner := Some zeroAddress;
                        read_contractAge := Some (JS.int 400) |})
           true (abiOf ["transfer"; "approve"]%string)
           (pool 1 200000 95) (share 5 20) None
           (Returned (Listed {| flags := noFlags false (Some (JS.int 2));
                                lpHolderCount := 0; lpSafePercent := JS.int 0 |}))
           calmMarket); reflexivity.
Defined.

(* ================================================================== *)
(** ** The standalone scripts against the unified scanner *)
(* ================================================================== *)

(** X20.  The holder script's overall risk is never milder than the label
    the unified scanner gives to the same two concentration figures; it
    is CRITICAL exactly when the top holder has more than 30 percent or
    the top ten more than 70 percent; and the burned share, although it
    adds a POSITIVE entry to the list, never changes it. *)
Theorem holder_script_never_milder (analysis : HolderScript.Analysis) :
  (severity (holdersRisk (HolderScript.top1Percent analysis)
                         (HolderScript.top10Percent analysis))
   <= severity (HolderScript.overallRisk (HolderScript.calculateHolderRisk analysis)))%nat
  /\ (HolderScript.overallRisk (HolderScript.calculateHolderRisk analysis) = CRITICAL
      <-> JS.gt (HolderScript.top1Percent analysis) (JS.int 30) = true
          \/ JS.gt (HolderScript.top10Percent analysis) (JS.int 70) = true)
  /\ (forall burned : JS.number,
        HolderScript.overallRisk
          (HolderScript.calculateHolderRisk
             {| HolderScript.totalHolders := HolderScript.totalHolders analysis;
                HolderScript.burnedPercent := burned;
                HolderScript.top10Percent := HolderScript.top10Percent analysis;
                HolderScript.top1Percent := HolderScript.top1Percent analysis;
                HolderScript.whales := HolderScript.whales analysis |})
        = HolderScript.overallRisk (HolderScript.calculateHolderRisk analysis)).
Proof.
  assert (Core : forall burned : JS.number,
    let r := HolderScript.overallRisk
          (HolderScript.calculateHolderRisk
             {| HolderScript.totalHolders := HolderScript.totalHolders analysis;
                HolderScript.burnedPercent := burned;
                HolderScript.top10Percent := HolderScript.top10Percent analysis;
                HolderScript.top1Percent := HolderScript.top1Percent analysis;
                HolderScript.whales := HolderScript.whales analysis |}) in
    (severity (holdersRisk (HolderScript.top1Percent analysis)
                           (HolderScript.top10Percent analysis)) <= severity r)%nat
    /\ (r = CRITICAL
        <-> JS.gt (HolderScript.top1Percent analysis) (JS.int 30) = true
            \/ JS.gt (HolderScript.top10Percent analysis) (JS.int 70) = true)
    /\ r = match holdersRisk (HolderScript.top1Percent analysis)
                             (HolderScript.top10Percent analysis) with
           | CRITICAL => CRITICAL
           | HIGH => if JS.gt (HolderScript.top10Percent analysis) (JS.int 70)
                     then CRITICAL else HIGH
           | MEDIUM => if JS.gt (HolderScript.top10Percent analysis) (JS.int 50)
                       then HIGH else MEDIUM
           | _ => if (3 <? List.length
                             (filter (fun w => String.eqb (HolderScript.type w) "wallet")
                                     (HolderScript.whales analysis)))%nat
                  then MEDIUM else LOW
           end).
  { intro burned. cbv zeta.
    unfold HolderScript.calculateHolderRisk, holdersRisk. cbv zeta.
    cbn [HolderScript.top1Percent HolderScript.top10Percent HolderScript.whales
         HolderScript.burnedPercent HolderScript.overallRisk].
    destruct (JS.gt (HolderScript.top1Percent analysis) (JS.int 30));
      destruct (JS.gt (HolderScript.top1Percent analysis) (JS.int 20));
      destruct (JS.gt (HolderScript.top1Percent analysis) (JS.int 10));
      destruct (JS.gt (HolderScript.top10Percent analysis) (JS.int 70));
      destruct (JS.gt (HolderScript.top10Percent analysis) (JS.int 50));
      destruct (3 <? List.length
                       (filter (fun w => String.eqb (HolderScript.type w) "wallet")
                               (HolderScript.whales analysis)))%nat;
      destruct (JS.gt burned (JS.int 50));
      cbn; (split; [lia|]); (split; [|reflexivity]);
      (split; [intro H; try discriminate H; auto
              |intros [H|H]; try discriminate H; reflexivity]). }
  assert (Same : analysis
                 = {| HolderScript.totalHolders := HolderScript.totalHolders analysis;
                      HolderScript.burnedPercent := HolderScript.burnedPercent analysis;
                      HolderScript.top10Percent := HolderScript.top10Percent analysis;
                      HolderScript.top1Percent := HolderScript.top1Percent analysis;
                      HolderScript.whales := HolderScript.whales analysis |})
    by (destruct analysis; reflexivity).
  pose proof (Core (HolderScript.burnedPercent analysis)) as Here.
  cbv zeta in Here. rewrite <- Same in Here.
  destruct Here as (H1 & H2 & H3).
  split; [exact H1|]. split; [exact H2|].
  intro burned. destruct (Core burned) as (_ & _ & H3'). cbv zeta in H3'.
  rewrite H3', H3. reflexivity.
Qed.

Lemma keyword_subset (small large : list string) (func : string) :
  incl small large ->
  existsb (includes func) small = true -> existsb (includes func) large = true.
Proof.
  intros Hincl H. apply existsb_exists in H. destruct H as (k & Hk & Hinc).
  apply existsb_exists. exists k. split; [apply Hincl; exact Hk|exact Hinc].
Qed.

Lemma minting_subset : incl minting AbiScript.minting.
Proof. intros k H. simpl in *. tauto. Qed.

Lemma pausing_subset : incl pausing AbiScript.pausing.
Proof. intros k H. simpl in *. tauto. Qed.

Lemma blacklisting_subset : incl blacklisting AbiScript.blacklisting.
Proof. intros k H. simpl in *. tauto. Qed.

Lemma fees_subset : incl fees AbiScript.fees.
Proof. intros k H. simpl in *. tauto. Qed.

Lemma bool_step (a b : bool) (x y : nat) :
  (a = true -> b = true) -> (x <= y)%nat ->
  (x + (if a then 1 else 0) <= y + (if b then 1 else 0))%nat.
Proof.
  intros H L. destruct a, b; try lia; specialize (H eq_refl); discriminate H.
Qed.

Lemma scan_step_noFewer (f : Findings) (g : Buckets AbiScript.Finding)
      (func : AbiScript.FunctionInfo) :
  noFewerFindings f g ->
  noFewerFindings (scanFunction f (toLowerCase (AbiScript.name func)))
                  (AbiScript.scanFunction g func).
Proof.
  intros (Hc & Hh & Hm).
  destruct (scanFunction_adds f (toLowerCase (AbiScript.name func))) as (Ec & Eh & Em & _).
  unfold noFewerFindings. rewrite Ec, Eh, Em.
  unfold AbiScript.scanFunction. cbv zeta. cbn [critical high medium].
  rewrite !pushIf_length, !length_app.
  set (n := toLowerCase (AbiScript.name func)).
  pose proof (keyword_subset _ _ n minting_subset) as Sm.
  pose proof (keyword_subset _ _ n pausing_subset) as Sp.
  pose proof (keyword_subset _ _ n blacklisting_subset) as Sb.
  pose proof (keyword_subset _ _ n fees_subset) as Sf.
  assert (L : forall (b : bool) (x : Finding),
             List.length (if b then [x] else []) = if b then 1%nat else 0%nat)
    by (intros [] ?; reflexivity).
  rewrite !L.
  pose proof (bool_step _ _ _ _ Sm Hc).
  pose proof (bool_step _ _ _ _ Sp Hh) as Hp.
  pose proof (bool_step _ _ _ _ Sb Hp).
  pose proof (bool_step _ _ _ _ Sf Hm).
  destruct (existsb (includes n) AbiScript.liquidity);
    destruct (existsb (includes n) AbiScript.upgrades);
    repeat split; lia.
Qed.

Lemma scan_fold_noFewer (functions : list AbiScript.FunctionInfo) (f : Findings)
      (g : Buckets AbiScript.Finding) :
  noFewerFindings f g ->
  noFewerFindings
    (fold_left scanFunction (map toLowerCase (map AbiScript.name functions)) f)
    (fold_left AbiScript.scanFunction functions g).
Proof.
  revert f g. induction functions as [|func rest IH]; intros f g H; simpl; [exact H|].
  apply IH. apply scan_step_noFewer. exact H.
Qed.

Lemma ladders_monotone (f : Findings) (g : Buckets AbiScript.Finding) :
  noFewerFindings f g ->
  (severity (findingsRisk f) <= severity (AbiScript.calculateRisk g))%nat.
Proof.
  intros (Hc & Hh & Hm). unfold findingsRisk, AbiScript.calculateRisk. cbv zeta.
  destruct (Nat.ltb_spec 0 (List.length (critical f)));
    destruct (Nat.leb_spec 2 (List.length (high f)));
    destruct (Nat.ltb_spec 0 (List.length (high f)));
    destruct (Nat.leb_spec 2 (List.length (medium f)));
    destruct (Nat.ltb_spec 0 (List.length (critical g)));
    destruct (Nat.leb_spec 2 (List.length (high g)));
    destruct (Nat.eqb_spec (List.length (high g)) 1);
    destruct (Nat.leb_spec 2 (List.length (medium g)));
    cbn; lia.
Qed.

(** X21.  On the same functions, the standalone ABI scanner is never
    milder than the unified scanner: its keyword lists contain the
    unified scanner's, so it has at least as many critical, high and
    medium findings, and its label is at least as grave.  The two can be
    as far apart as LOW and CRITICAL: [generateTokens] is a minting
    function for the standalone scanner only. *)
Theorem abi_script_never_milder (functions : list AbiScript.FunctionInfo) :
  noFewerFindings (unifiedFindings (map AbiScript.name functions))
                  (AbiScript.scanForDangers functions)
  /\ (severity (findingsRisk (unifiedFindings (map AbiScript.name functions)))
      <= severity (AbiScript.calculateRisk (AbiScript.scanForDangers functions)))%nat
  /\ (exists other : list AbiScript.FunctionInfo,
        findingsRisk (unifiedFindings (map AbiScript.name other)) = LOW
        /\ AbiScript.calculateRisk (AbiScript.scanForDangers other) = CRITICAL).
Proof.
  assert (H : noFewerFindings (unifiedFindings (map AbiScript.name functions))
                              (AbiScript.scanForDangers functions)).
  { unfold unifiedFindings, AbiScript.scanForDangers.
    apply scan_fold_noFewer. repeat split; simpl; lia. }
  split; [exact H|]. split; [apply ladders_monotone; exact H|].
  exists [{| AbiScript.name := "generateTokens"; AbiScript.mutability := None;
             AbiScript.inputs := "" |}].
  split; reflexivity.
Qed.

(* ================================================================== *)
(** ** The native-token price: cache and fallback *)
(* ================================================================== *)

Lemma fresh_entry_is_served (priceCache : list (string * NativePrice.Cached))
      (coingeckoId : string) (cached : NativePrice.Cached) (now later : Z)
      (gecko dex : Attempt (option JS.number)) :
  Rpc.mapGet priceCache coingeckoId = Some cached ->
  now - NativePrice.time cached < NativePrice.PRICE_CACHE_DURATION ->
  NativePrice.getNativeTokenPrice priceCache coingeckoId now later gecko dex
  = (NativePrice.Number (NativePrice.price cached), priceCache).
Proof.
  intros G F. unfold NativePrice.getNativeTokenPrice. cbv zeta. rewrite G.
  apply Z.ltb_lt in F. rewrite F. reflexivity.
Qed.

(** X22.  [getNativeTokenPrice] writes the cache only together with a
    live price, and that price is then served for the next 60 seconds
    whatever the two services answer; the fallback is never cached.
    DexScreener is asked only after CoinGecko threw.  With no fresh entry
    and a CoinGecko answer holding no price, a zero or a NaN, the result
    is the fallback and the cache is as before. *)
Theorem native_price_cache_and_fallback
        (priceCache : list (string * NativePrice.Cached)) (coingeckoId : string)
        (now later : Z) (gecko dex : Attempt (option JS.number)) :
  let out := NativePrice.getNativeTokenPrice priceCache coingeckoId now later gecko dex in
  (snd out = priceCache
   \/ exists p : JS.number,
        out = (NativePrice.Number p,
               Rpc.mapSet priceCache coingeckoId
                          {| NativePrice.price := p; NativePrice.time := later |})
        /\ forall (now' later' : Z) (gecko' dex' : Attempt (option JS.number)),
             now' - later < 60000 ->
             NativePrice.getNativeTokenPrice (snd out) coingeckoId now' later' gecko' dex'
             = (NativePrice.Number p, snd out))
  /\ (forall (answer : option JS.number) (dex' : Attempt (option JS.number)),
        gecko = Returned answer ->
        NativePrice.getNativeTokenPrice priceCache coingeckoId now later gecko dex' = out)
  /\ ((forall cached, Rpc.mapGet priceCache coingeckoId = Some cached ->
                      60000 <= now - NativePrice.time cached) ->
      gecko = Returned None \/ gecko = Returned (Some (JS.int 0))
      \/ gecko = Returned (Some JS.NaN) ->
      out = (NativePrice.fallbackPrice coingeckoId, priceCache)).
Proof.
  cbv zeta.
  assert (Served : forall p : JS.number,
    forall (now' later' : Z) (gecko' dex' : Attempt (option JS.number)),
      now' - later < 60000 ->
      NativePrice.getNativeTokenPrice
        (Rpc.mapSet priceCache coingeckoId
                    {| NativePrice.price := p; NativePrice.time := later |})
        coingeckoId now' later' gecko' dex'
      = (NativePrice.Number p,
         Rpc.mapSet priceCache coingeckoId
                    {| NativePrice.price := p; NativePrice.time := later |})).
  { intros p now' later' gecko' dex' F.
    apply (fresh_entry_is_served _ _ {| NativePrice.price := p; NativePrice.time := later |});
      [apply mapGet_mapSet|exact F]. }
  split; [|split].
  - unfold NativePrice.getNativeTokenPrice. cbv zeta.
    destruct (Rpc.mapGet priceCache coingeckoId) as [cached|];
      [destruct (now - NativePrice.time cached <? NativePrice.PRICE_CACHE_DURATION);
       [left; reflexivity|]|];
      (destruct gecko as [[usd|]|msg];
       [destruct (NativePrice.truthy usd);
        [right; exists usd; split; [reflexivity|apply Served]|left; reflexivity]
       |left; reflexivity
       |destruct dex as [[p|]|msg'];
        [right; exists p; split; [reflexivity|apply Served]
        |left; reflexivity|left; reflexivity]]).
  - intros answer dex' ->. unfold NativePrice.getNativeTokenPrice. reflexivity.
  - intros Stale Hgecko. unfold NativePrice.getNativeTokenPrice. cbv zeta.
    assert (F : match Rpc.mapGet priceCache coingeckoId with
                | Some cached =>
                    if now - NativePrice.time cached <? NativePrice.PRICE_CACHE_DURATION
                    then Some (NativePrice.price cached) else None
                | None => None
                end = None).
    { destruct (Rpc.mapGet priceCache coingeckoId) as [cached|]; [|reflexivity].
      specialize (Stale cached eq_refl).
      destruct (Z.ltb_spec (now - NativePrice.time cached) NativePrice.PRICE_CACHE_DURATION)
        as [L|L]; [|reflexivity].
      unfold NativePrice.PRICE_CACHE_DURATION in L. lia. }
    rewrite F. destruct Hgecko as [->|[->| ->]]; reflexivity.
Qed.

Lemma native_price_cache_and_fallback_witness :
  NativePrice.getNativeTokenPrice
    [("ethereum"%string, {| NativePrice.price := JS.int 3000; NativePrice.time := 0 |})]
    "ethereum" 60000 60001 (Returned (Some (JS.int 0))) (Returned (Some (JS.int 2900)))
  = (NativePrice.Number (JS.int 3500),
     [("ethereum"%string, {| NativePrice.price := JS.int 3000; NativePrice.time := 0 |})]).
Proof.
  refine (proj2 (proj2 (native_price_cache_and_fallback
            [("ethereum"%string,
              {| NativePrice.price := JS.int 3000; NativePrice.time := 0 |})]
            "ethereum" 60000 60001 (Returned (Some (JS.int 0)))
            (Returned (Some (JS.int 2900))))) _ _).
  - intros cached H. injection H as <-. simpl. lia.
  - right. left. reflexivity.
Defined.

(** X23.  For every chain the table resolves, the fallback price of its
    native token is a positive number: one of the five hard-coded
    defaults, or 1 for a token the defaults do not list, which is the
    case of Cronos and Monad. *)
Theorem fallback_price_of_table_chains (chainKey : string) (chain : Chains.Chain) :
  Chains.getChain chainKey = Chains.FoundChain chain ->
  exists q : Q,
    NativePrice.fallbackPrice (Chains.coingeckoId chain) = NativePrice.Number (JS.Num q)
    /\ (0 < q)%Q
    /\ (ownProperty NativePrice.fallbacks (Chains.coingeckoId chain) = None <-> q = 1%Q)
    /\ (q = 1%Q <-> Chains.name chain = "Cronos"%string \/ Chains.name chain = "Monad"%string).
Proof.
  intro Hchain.
  pose proof (getChain_found_in_table _ _ Hchain) as Hin. simpl in Hin.
  repeat (destruct Hin as [H|Hin];
          [subst chain; eexists; split; [reflexivity|];
           split; [reflexivity|];
           split; (split; intro E; try discriminate E; try reflexivity;
                   try (destruct E as [E|E]; discriminate E);
                   auto)|]).
  destruct Hin.
Qed.

Lemma fallback_price_of_table_chains_witness :
  exists q : Q,
    NativePrice.fallbackPrice "monad" = NativePrice.Number (JS.Num q) /\ (0 < q)%Q.
Proof.
  destruct (fallback_price_of_table_chains "MON" _ eq_refl) as (q & E & P & _).
  exists q. split; [exact E|exact P].
Defined.

(* ================================================================== *)
(** ** The standalone liquidity script *)
(* ================================================================== *)

Lemma JS_le_spec (a b : Q) : JS.le (JS.Num a) (JS.Num b) = true <-> (a <= b)%Q.
Proof. unfold JS.le. apply Qle_bool_iff. Qed.

Lemma JS_gt_or_le (a b : Q) :
  JS.gt (JS.Num a) (JS.Num b) = negb (JS.le (JS.Num a) (JS.Num b)).
Proof. reflexivity. Qed.

Lemma JS_lt_not_ge (v : Q) (c : Z) :
  JS.lt (JS.Num v) (JS.int c) = negb (JS.ge (JS.Num v) (JS.int c)).
Proof. reflexivity. Qed.

Lemma JS_ge_int_weaken (x : JS.number) (c d : Z) :
  c <= d -> JS.ge x (JS.int d) = true -> JS.ge x (JS.int c) = true.
Proof.
  intro Hcd. destruct x as [|a]; [discriminate|].
  unfold JS.ge, JS.int. rewrite !JS_le_spec. intro H.
  eapply Qle_trans; [|exact H]. rewrite <- Zle_Qle. exact Hcd.
Qed.

Section LiquidityArithmetic.

Variables plus minus : JS.number -> JS.number -> JS.number.

Lemma analysePools_returned (ms : list LiquidityScript.Measured)
      (poolAnalysis : list LiquidityScript.Pool) :
  LiquidityScript.analysePools plus minus (map Returned ms) poolAnalysis
  = Returned (poolAnalysis ++ map (LiquidityScript.poolOf plus minus) ms)%list.
Proof.
  revert poolAnalysis. induction ms as [|m rest IH]; intro acc; simpl.
  - rewrite app_nil_r. reflexivity.
  - rewrite IH. unfold push. rewrite <- app_assoc. reflexivity.
Qed.

Lemma analysePools_threw (pools : list (Attempt LiquidityScript.Measured))
      (poolAnalysis : list LiquidityScript.Pool) (message : string) :
  LiquidityScript.analysePools plus minus pools poolAnalysis = Threw message
  <-> exists before after,
        pools = (map Returned before ++ Threw message :: after)%list.
Proof.
  revert poolAnalysis. induction pools as [|[m|msg] rest IH]; intro acc; simpl.
  - split; [discriminate|]. intros (before & after & E).
    destruct before; discriminate E.
  - rewrite IH. split; intros (before & after & E).
    + exists (m :: before), after. rewrite E. reflexivity.
    + destruct before as [|m' before]; [discriminate E|].
      injection E as _ E. exists before, after. exact E.
  - split.
    + intro E. injection E as ->. exists [], rest. reflexivity.
    + intros (before & after & E). destruct before as [|m' before]; [|discriminate E].
      injection E as ->. reflexivity.
Qed.

End LiquidityArithmetic.

(** Every pool of the list has a proper number as its value. *)
Definition allValued (pools : list LiquidityScript.Pool) : Prop :=
  forall p, In p pools -> exists v, LiquidityScript.estimatedValueUSD p = JS.Num v.

Lemma richer_is_last_greatest (others : list LiquidityScript.Pool)
      (first : LiquidityScript.Pool) :
  allValued (first :: others) ->
  exists earlier later,
    first :: others
    = (earlier ++ fold_left LiquidityScript.richer others first :: later)%list
    /\ (forall p, In p earlier ->
          JS.le (LiquidityScript.estimatedValueUSD p)
                (LiquidityScript.estimatedValueUSD
                   (fold_left LiquidityScript.richer others first)) = true)
    /\ (forall p, In p later ->
          JS.lt (LiquidityScript.estimatedValueUSD p)
                (LiquidityScript.estimatedValueUSD
                   (fold_left LiquidityScript.richer others first)) = true).
Proof.
  revert first. induction others as [|b rest IH]; intros a Hall.
  - exists [], []. simpl. repeat split; intros p [].
  - simpl fold_left.
    destruct (Hall a (or_introl eq_refl)) as (va & Ea).
    destruct (Hall b (or_intror (or_introl eq_refl))) as (vb & Eb).
    unfold LiquidityScript.richer at 2 4 6.
    rewrite Ea, Eb, JS_gt_or_le.
    destruct (JS.le (JS.Num va) (JS.Num vb)) eqn:Hab; cbn [negb].
    + assert (Hall' : allValued (b :: rest))
        by (intros p Hp; apply Hall; right; exact Hp).
      pose proof (IH b Hall') as Step.
      remember (fold_left LiquidityScript.richer rest b) as main eqn:Hmain.
      destruct Step as (earlier & later & E & Hle & Hlt).
      exists (a :: earlier), later. simpl. rewrite E.
      split; [reflexivity|]. split; [|exact Hlt].
      intros p [<-|Hp]; [|apply Hle; exact Hp].
      assert (Hb : JS.le (LiquidityScript.estimatedValueUSD b)
                         (LiquidityScript.estimatedValueUSD main) = true).
      { destruct earlier as [|e earlier].
        - simpl in E. injection E as E _. rewrite <- E, Eb.
          apply JS_le_spec. apply Qle_refl.
        - simpl in E. injection E as E _. apply Hle. left. symmetry. exact E. }
      destruct (LiquidityScript.estimatedValueUSD main) as [|vm];
        [rewrite Eb in Hb; discriminate Hb|].
      rewrite Ea. rewrite Eb in Hb. apply JS_le_spec.
      apply JS_le_spec in Hab, Hb. eapply Qle_trans; eassumption.
    + assert (Hall' : allValued (a :: rest)).
      { intros p [<-|Hp]; [exists va; exact Ea|apply Hall; right; right; exact Hp]. }
      pose proof (IH a Hall') as Step.
      remember (fold_left LiquidityScript.richer rest a) as main eqn:Hmain.
      destruct Step as (earlier & later & E & Hle & Hlt).
      assert (Hba : (vb < va)%Q).
      { apply Qnot_le_lt. intro H. apply JS_le_spec in H. congruence. }
      destruct earlier as [|e earlier].
      * simpl in E. injection E as E1 E2.
        exists [], (b :: later). simpl. rewrite <- E1, <- E2.
        split; [reflexivity|]. split; [intros p []|].
        intros p [<-|Hp]; [|rewrite E1; apply Hlt; rewrite <- E2; exact Hp].
        rewrite Ea, Eb. apply JS_lt_spec. exact Hba.
      * simpl in E. injection E as E1 E2. subst e.
        exists (a :: b :: earlier), later. simpl. rewrite E2.
        split; [reflexivity|]. split; [|exact Hlt].
        assert (Ha : JS.le (LiquidityScript.estimatedValueUSD a)
                           (LiquidityScript.estimatedValueUSD main) = true)
          by (apply Hle; left; reflexivity).
        intros p [<-|[<-|Hp]]; [exact Ha| |apply Hle; right; exact Hp].
        destruct (LiquidityScript.estimatedValueUSD main) as [|vm];
          [rewrite Ea in Ha; discriminate Ha|].
        rewrite Ea in Ha. rewrite Eb. apply JS_le_spec. apply JS_le_spec in Ha.
        apply Qlt_le_weak. eapply Qlt_le_trans; eassumption.
Qed.

(** X24.  [analyzeLiquidity] returns the no-pools object exactly for an
    empty list and the UNKNOWN object exactly when a pool reader threw,
    with the message of the first throw.  Otherwise it analyses every
    pool, and when all values are proper numbers its main pool is the
    last pool of the greatest value: no earlier pool is worth more, every
    later pool is worth less. *)
Theorem liquidity_script_main_pool
        (plus minus : JS.number -> JS.number -> JS.number)
        (pools : list (Attempt LiquidityScript.Measured)) :
  (LiquidityScript.analyzeLiquidity plus minus pools = LiquidityScript.NoPools
   <-> pools = [])
  /\ (forall message,
        LiquidityScript.analyzeLiquidity plus minus pools
        = LiquidityScript.Errored message
        <-> exists before after,
              pools = (map Returned before ++ Threw message :: after)%list)
  /\ (forall measured,
        pools = map Returned measured -> measured <> [] ->
        exists mainPool,
          LiquidityScript.analyzeLiquidity plus minus pools
          = LiquidityScript.Analysed
              (map (LiquidityScript.poolOf plus minus) measured) mainPool
              (LiquidityScript.overallRiskOf mainPool)
              (LiquidityScript.warningsOf mainPool
                 (LiquidityScript.overallRiskOf mainPool))
          /\ In mainPool (map (LiquidityScript.poolOf plus minus) measured)
          /\ (allValued (map (LiquidityScript.poolOf plus minus) measured) ->
              exists earlier later,
                map (LiquidityScript.poolOf plus minus) measured
                = (earlier ++ mainPool :: later)%list
                /\ (forall p, In p earlier ->
                      JS.le (LiquidityScript.estimatedValueUSD p)
                            (LiquidityScript.estimatedValueUSD mainPool) = true)
                /\ (forall p, In p later ->
                      JS.lt (LiquidityScript.estimatedValueUSD p)
                            (LiquidityScript.estimatedValueUSD mainPool) = true))).
Proof.
  assert (Shape : forall (p : Attempt LiquidityScript.Measured) rest acc,
             LiquidityScript.analysePools plus minus (p :: rest) acc <> Returned []).
  { intros p rest acc E.
    assert (G : forall l acc' out,
               LiquidityScript.analysePools plus minus l acc' = Returned out ->
               (List.length acc' <= List.length out)%nat).
    { induction l as [|[m|msg] l IHl]; intros acc' out H; simpl in H.
      - injection H as <-. lia.
      - apply IHl in H. unfold push in H. rewrite length_app in H. simpl in H. lia.
      - discriminate H. }
    destruct p as [m|msg]; simpl in E; [|discriminate E].
    apply G in E. unfold push in E. rewrite length_app in E. simpl in E. lia. }
  split; [|split].
  - destruct pools as [|p rest]; [split; reflexivity|].
    split; [|discriminate]. unfold LiquidityScript.analyzeLiquidity.
    destruct (LiquidityScript.analysePools plus minus (p :: rest) [])
      as [[|first others]|msg]; discriminate.
  - intro message. destruct pools as [|p rest].
    + split; [discriminate|]. intros (before & after & E).
      destruct before; discriminate E.
    + rewrite <- (analysePools_threw plus minus (p :: rest) [] message).
      unfold LiquidityScript.analyzeLiquidity.
      destruct (LiquidityScript.analysePools plus minus (p :: rest) [])
        as [[|first others]|msg] eqn:E.
      * exfalso. exact (Shape _ _ _ E).
      * split; discriminate.
      * split; intro H; injection H as ->; reflexivity.
  - intros measured -> Hne.
    destruct measured as [|m ms]; [exfalso; apply Hne; reflexivity|].
    unfold LiquidityScript.analyzeLiquidity.
    change (map Returned (m :: ms)) with (Returned m :: map Returned ms) at 1.
    cbv iota. rewrite analysePools_returned. cbn [app map]. cbv zeta.
    eexists. split; [reflexivity|].
    split.
    + assert (M : forall others first,
                 In (fold_left LiquidityScript.richer others first) (first :: others)).
      { induction others as [|b rest IH]; intro a; simpl; [left; reflexivity|].
        destruct (IH (LiquidityScript.richer a b)) as [H|H].
        - unfold LiquidityScript.richer in H at 1.
          destruct (JS.gt _ _); [left|right; left]; exact H.
        - right. right. exact H. }
      apply M.
    + intro Hall. apply richer_is_last_greatest. exact Hall.
Qed.

Lemma liquidity_script_main_pool_witness :
  exists mainPool,
    LiquidityScript.analyzeLiquidity exactPlus exactMinus (map Returned twoEqualPools)
    = LiquidityScript.Analysed
        (map (LiquidityScript.poolOf exactPlus exactMinus) twoEqualPools)
        mainPool MEDIUM []
    /\ LiquidityScript.baseToken mainPool = "USDC"%string.
Proof.
  destruct (proj2 (proj2 (liquidity_script_main_pool exactPlus exactMinus
                            (map Returned twoEqualPools)))
                  twoEqualPools eq_refl) as (mainPool & E & _).
  - discriminate.
  - exists mainPool. split; [rewrite E|]; injection E as <-; reflexivity.
Defined.

Lemma poolOf_labels (plus minus : JS.number -> JS.number -> JS.number)
      (m : LiquidityScript.Measured) :
  LiquidityScript.liquidityRisk (LiquidityScript.poolOf plus minus m)
  = LiquidityScript.liquidityRiskOf
      (LiquidityScript.estimatedValueUSD (LiquidityScript.poolOf plus minus m))
  /\ LiquidityScript.lpRisk (LiquidityScript.poolOf plus minus m)
     = LiquidityScript.lpRiskOf
         (LiquidityScript.safePercent (LiquidityScript.poolOf plus minus m)).
Proof. split; reflexivity. Qed.

(** The tests of the three ladders on a proper number, each decided and
    the impossible combinations closed. *)
Ltac decide_threshold v c :=
  let E := fresh "E" in
  destruct (JS.ge (JS.Num v) (JS.int c)) eqn:E.

Ltac close_thresholds :=
  repeat match goal with
         | H : JS.ge ?x (JS.int ?d) = true, H' : JS.ge ?x (JS.int ?c) = false |- _ =>
             exfalso;
             assert (JS.ge x (JS.int c) = true)
               by (apply (JS_ge_int_weaken x c d); [lia|exact H]);
             congruence
         end.

Ltac settle_labels :=
  repeat match goal with
         | |- _ /\ _ => split
         | |- _ <-> _ => split
         | |- _ -> _ => intro
         | |- ~ _ => intro
         | H : False |- _ => destruct H
         | H : In _ _ |- _ => simpl in H
         | H : _ /\ _ |- _ => destruct H
         | H : _ \/ _ |- _ => destruct H
         end;
  try congruence; try lia.

(** X25.  On a pool whose value and safe share are proper numbers, the
    overall risk of [analyzeLiquidity] lies between the pool's own two
    labels (SAFE counting as LOW): it is CRITICAL only when both are
    CRITICAL, LOW exactly when the liquidity label is at most MEDIUM and
    the LP label at most LOW, and a HIGH or CRITICAL overall risk prints
    both warnings.  A value that is NaN is labelled SAFE by the pool's
    own ladder, yet the overall risk is then never LOW and the
    low-liquidity warning is never printed. *)
Theorem liquidity_script_overall_between
        (plus minus : JS.number -> JS.number -> JS.number)
        (m : LiquidityScript.Measured) :
  let pool := LiquidityScript.poolOf plus minus m in
  let overallRisk := LiquidityScript.overallRiskOf pool in
  ((exists v, LiquidityScript.estimatedValueUSD pool = JS.Num v) ->
   (exists s, LiquidityScript.safePercent pool = JS.Num s) ->
   (Nat.min (LiquidityScript.poolSeverity (LiquidityScript.liquidityRisk pool))
            (LiquidityScript.poolSeverity (LiquidityScript.lpRisk pool))
    <= severity overallRisk
    <= Nat.max (LiquidityScript.poolSeverity (LiquidityScript.liquidityRisk pool))
               (LiquidityScript.poolSeverity (LiquidityScript.lpRisk pool)))%nat
   /\ (overallRisk = CRITICAL
       <-> LiquidityScript.liquidityRisk pool = LiquidityScript.PoolCritical
           /\ LiquidityScript.lpRisk pool = LiquidityScript.PoolCritical)
   /\ (overallRisk = LOW
       <-> (LiquidityScript.poolSeverity (LiquidityScript.liquidityRisk pool) <= 1)%nat
           /\ LiquidityScript.poolSeverity (LiquidityScript.lpRisk pool) = 0%nat)
   /\ (overallRisk = HIGH \/ overallRisk = CRITICAL ->
       LiquidityScript.warningsOf pool overallRisk
       = [LiquidityScript.LowLiquidity; LiquidityScript.LpCanBeRemoved]))
  /\ (LiquidityScript.estimatedValueUSD pool = JS.NaN ->
      LiquidityScript.liquidityRisk pool = LiquidityScript.PoolSafe
      /\ overallRisk <> LOW
      /\ ~ In LiquidityScript.LowLiquidity (LiquidityScript.warningsOf pool overallRisk)).
Proof.
  cbv zeta. destruct (poolOf_labels plus minus m) as (EL & EP).
  rewrite EL, EP.
  generalize (LiquidityScript.poolOf plus minus m). intro pool.
  unfold LiquidityScript.overallRiskOf, LiquidityScript.warningsOf,
    LiquidityScript.liquidityRiskOf, LiquidityScript.lpRiskOf.
  cbv zeta. split.
  - intros (v & Ev) (s & Es). rewrite Ev, Es. rewrite !JS_lt_not_ge.
    decide_threshold v 1000; decide_threshold v 10000; decide_threshold v 50000;
      decide_threshold v 100000; close_thresholds;
      decide_threshold s 20; decide_threshold s 50; decide_threshold s 80;
      decide_threshold s 95; close_thresholds;
      cbn; unfold push; cbn; settle_labels.
  - intro Ev. rewrite Ev.
    destruct (JS.ge (LiquidityScript.safePercent pool) (JS.int 80));
      destruct (JS.ge (LiquidityScript.safePercent pool) (JS.int 20));
      destruct (JS.lt (LiquidityScript.safePercent pool) (JS.int 80));
      cbn; unfold push; cbn; settle_labels.
Qed.

Lemma liquidity_script_overall_between_witness :
  LiquidityScript.overallRiskOf
    (LiquidityScript.poolOf exactPlus exactMinus
       {| LiquidityScript.measured_baseToken := "WETH";
          LiquidityScript.measured_valueUSD := JS.int 20000;
          LiquidityScript.measured_burnedPercent := JS.int 90;
          LiquidityScript.measured_lockedPercent := JS.int 0 |}) = LOW
  /\ LiquidityScript.liquidityRisk
       (LiquidityScript.poolOf exactPlus exactMinus
          {| LiquidityScript.measured_baseToken := "WETH";
             LiquidityScript.measured_valueUSD := JS.int 20000;
             LiquidityScript.measured_burnedPercent := JS.int 90;
             LiquidityScript.measured_lockedPercent := JS.int 0 |})
     = LiquidityScript.PoolMedium.
Proof.
  split; [|reflexivity].
  destruct (proj1 (liquidity_script_overall_between exactPlus exactMinus
              {| LiquidityScript.measured_baseToken := "WETH";
                 LiquidityScript.measured_valueUSD := JS.int 20000;
                 LiquidityScript.measured_burnedPercent := JS.int 90;
                 LiquidityScript.measured_lockedPercent := JS.int 0 |})
            (ex_intro _ _ eq_refl) (ex_intro _ _ eq_refl)) as (_ & _ & Low & _).
  apply Low. split; [cbn; lia|reflexivity].
Defined.

(* ================================================================== *)
(** ** The standalone honeypot script *)
(* ================================================================== *)

Lemma hit_within (points : Z) (bucket : HoneypotScript.Bucket)
      (issue : HoneypotScript.Issue) (s : HoneypotScript.State) :
  match bucket with
  | HoneypotScript.InCritical => 20 <= points <= 50
  | HoneypotScript.InHigh => 10 <= points <= 20
  | HoneypotScript.InMedium => 3 <= points <= 10
  | HoneypotScript.InInfo => points = 0
  end ->
  HoneypotScript.pointsWithinIssues s ->
  HoneypotScript.pointsWithinIssues (HoneypotScript.hit points bucket issue s).
Proof.
  unfold HoneypotScript.pointsWithinIssues, HoneypotScript.leastPoints,
    HoneypotScript.mostPoints, HoneypotScript.hit.
  destruct bucket; cbn [HoneypotScript.issues HoneypotScript.riskScore
                        HoneypotScript.pushTo critical high medium];
    unfold push; rewrite ?length_app; cbn [List.length]; lia.
Qed.

Lemma note_within (issue : HoneypotScript.Issue) (s : HoneypotScript.State) :
  HoneypotScript.pointsWithinIssues s ->
  HoneypotScript.pointsWithinIssues (HoneypotScript.note issue s).
Proof. intro H. exact H. Qed.

Lemma when_within (flag : bool) (body : HoneypotScript.State -> HoneypotScript.State)
      (s : HoneypotScript.State) :
  (HoneypotScript.pointsWithinIssues s -> HoneypotScript.pointsWithinIssues (body s)) ->
  HoneypotScript.pointsWithinIssues s ->
  HoneypotScript.pointsWithinIssues (HoneypotScript.when flag body s).
Proof. intros Hb Hs. destruct flag; simpl; auto. Qed.

Ltac within_step :=
  first [ apply when_within; [first [apply hit_within; lia | apply note_within]|]
        | apply hit_within; [lia|]
        | apply note_within ].

Lemma steps_within (r : HoneypotScript.Reads) (s : HoneypotScript.State) :
  HoneypotScript.pointsWithinIssues s ->
  HoneypotScript.pointsWithinIssues (HoneypotScript.sellTaxStep r s)
  /\ HoneypotScript.pointsWithinIssues (HoneypotScript.buyTaxStep r s)
  /\ HoneypotScript.pointsWithinIssues (HoneypotScript.openSourceStep r s)
  /\ HoneypotScript.pointsWithinIssues (HoneypotScript.lpStep r s).
Proof.
  intro H.
  unfold HoneypotScript.lpStep, HoneypotScript.openSourceStep,
    HoneypotScript.buyTaxStep, HoneypotScript.sellTaxStep.
  (split; [|split; [|split]]);
    repeat match goal with
           | |- HoneypotScript.pointsWithinIssues (if ?b then _ else _) => destruct b
           end;
    try exact H; try (apply hit_within; [lia|exact H]); apply note_within; exact H.
Qed.

Lemma scoreIssues_within (r : HoneypotScript.Reads) :
  HoneypotScript.pointsWithinIssues (HoneypotScript.scoreIssues r).
Proof.
  unfold HoneypotScript.scoreIssues. cbv zeta.
  repeat first [ apply (fun s H => proj1 (steps_within r s H))
               | apply (fun s H => proj1 (proj2 (steps_within r s H)))
               | apply (fun s H => proj1 (proj2 (proj2 (steps_within r s H))))
               | apply (fun s H => proj2 (proj2 (proj2 (steps_within r s H))))
               | within_step ].
  unfold HoneypotScript.pointsWithinIssues, HoneypotScript.leastPoints,
    HoneypotScript.mostPoints. simpl. lia.
Qed.

Lemma hit_grows (k points : Z) (bucket : HoneypotScript.Bucket)
      (issue : HoneypotScript.Issue) (s : HoneypotScript.State) :
  0 <= points -> k <= HoneypotScript.riskScore s ->
  k <= HoneypotScript.riskScore (HoneypotScript.hit points bucket issue s).
Proof. intros Hp Hs. simpl. lia. Qed.

Lemma when_grows (k : Z) (flag : bool)
      (body : HoneypotScript.State -> HoneypotScript.State) (s : HoneypotScript.State) :
  (k <= HoneypotScript.riskScore s -> k <= HoneypotScript.riskScore (body s)) ->
  k <= HoneypotScript.riskScore s ->
  k <= HoneypotScript.riskScore (HoneypotScript.when flag body s).
Proof. intros Hb Hs. destruct flag; simpl; auto. Qed.

Lemma steps_grow (k : Z) (r : HoneypotScript.Reads) (s : HoneypotScript.State) :
  k <= HoneypotScript.riskScore s ->
  k <= HoneypotScript.riskScore (HoneypotScript.sellTaxStep r s)
  /\ k <= HoneypotScript.riskScore (HoneypotScript.buyTaxStep r s)
  /\ k <= HoneypotScript.riskScore (HoneypotScript.openSourceStep r s)
  /\ k <= HoneypotScript.riskScore (HoneypotScript.lpStep r s).
Proof.
  intro H.
  unfold HoneypotScript.lpStep, HoneypotScript.openSourceStep,
    HoneypotScript.buyTaxStep, HoneypotScript.sellTaxStep.
  (split; [|split; [|split]]);
    repeat match goal with
           | |- _ <= HoneypotScript.riskScore (if ?b then _ else _) => destruct b
           end;
    simpl; lia.
Qed.

Lemma honeypot_flag_scores_fifty (r : HoneypotScript.Reads) :
  HoneypotScript.isHoneypot r = true ->
  50 <= HoneypotScript.riskScore (HoneypotScript.scoreIssues r).
Proof.
  intro H. unfold HoneypotScript.scoreIssues. cbv zeta. rewrite H.
  set (flagged := HoneypotScript.when true _ _).
  assert (F : 50 <= HoneypotScript.riskScore flagged) by (subst flagged; simpl; lia).
  clearbody flagged.
  repeat first [ apply (fun s G => proj1 (steps_grow 50 r s G))
               | apply (fun s G => proj1 (proj2 (steps_grow 50 r s G)))
               | apply (fun s G => proj1 (proj2 (proj2 (steps_grow 50 r s G))))
               | apply (fun s G => proj2 (proj2 (proj2 (steps_grow 50 r s G))))
               | apply when_grows; [first [apply hit_grows; lia | intro G; exact G]|] ].
  exact F.
Qed.

(** X26.  In the standalone honeypot script every issue pushed comes
    with points: a critical issue with 20 to 50, a high one with 10 to
    20, a medium one with 3 to 10.  So the score, capped at 100, bounds
    the issues: a LOW level means no critical issue, at most one high
    and at most six medium ones, and three critical issues always make
    the level CRITICAL, as does the honeypot flag alone, which scores at
    least 50. *)
Theorem honeypot_script_points_and_issues (r : HoneypotScript.Reads) :
  let found := HoneypotScript.issues (HoneypotScript.scoreIssues r) in
  HoneypotScript.pointsWithinIssues (HoneypotScript.scoreIssues r)
  /\ 0 <= HoneypotScript.cappedScore r <= 100
  /\ (HoneypotScript.isHoneypot r = true ->
      HoneypotScript.riskLevel r = CRITICAL /\ 50 <= HoneypotScript.cappedScore r)
  /\ (HoneypotScript.riskLevel r = LOW ->
      critical found = []
      /\ (List.length (high found) <= 1)%nat
      /\ (List.length (medium found) <= 6)%nat)
  /\ ((3 <= List.length (critical found))%nat -> HoneypotScript.riskLevel r = CRITICAL).
Proof.
  cbv zeta. pose proof (scoreIssues_within r) as W.
  split; [exact W|].
  unfold HoneypotScript.pointsWithinIssues, HoneypotScript.leastPoints,
    HoneypotScript.mostPoints in W.
  unfold HoneypotScript.riskLevel, HoneypotScript.cappedScore. cbv zeta.
  set (s := HoneypotScript.scoreIssues r) in *.
  split; [lia|]. split; [|split].
  - intro H. pose proof (honeypot_flag_scores_fifty r H) as F. fold s in F.
    rewrite H, orb_true_r. split; [reflexivity|lia].
  - destruct (HoneypotScript.isHoneypot r); [rewrite orb_true_r; discriminate|].
    rewrite orb_false_r.
    destruct (Z.leb_spec 60 (Z.min (HoneypotScript.riskScore s) 100)); [discriminate|].
    destruct (Z.leb_spec 40 (Z.min (HoneypotScript.riskScore s) 100)); [discriminate|].
    destruct (Z.leb_spec 20 (Z.min (HoneypotScript.riskScore s) 100)); [discriminate|].
    intros _.
    split; [|split]; [|lia|lia].
    destruct (critical (HoneypotScript.issues s)) as [|i l]; [reflexivity|].
    simpl List.length in W. lia.
  - intro H.
    destruct (Z.leb_spec 60 (Z.min (HoneypotScript.riskScore s) 100)); [reflexivity|].
    lia.
Qed.

Lemma honeypot_script_points_and_issues_witness :
  HoneypotScript.riskLevel flaggedHoneypot = CRITICAL
  /\ 50 <= HoneypotScript.cappedScore flaggedHoneypot.
Proof.
  apply (proj1 (proj2 (proj2 (honeypot_script_points_and_issues flaggedHoneypot)))).
  reflexivity.
Defined.

(* ================================================================== *)
(** ** The ownership script *)
(* ================================================================== *)

(** X27.  [analyzeOwnership] always leaves a level other than UNKNOWN.
    The level is LOW exactly when [owner()] returned the zero address
    and no dangerous function was found, and then no warning is
    printed; a renounced token is never above MEDIUM, whatever was
    found; CRITICAL needs an owner that is not renounced and three
    dangers.  A contract whose [owner()] call throws counts as not
    renounced: with no danger found it gets MEDIUM with no warning at
    all. *)
Theorem ownership_script_levels (ownerCall : Attempt string) (mint pause : bool)
        (pausedCall : Attempt bool) (blacklist setFee setTax : bool) :
  let analysis :=
    OwnershipScript.analyzeOwnership ownerCall mint pause pausedCall blacklist
                                     setFee setTax in
  let dangers := OwnershipScript.dangerCount mint pause blacklist (setFee || setTax) in
  OwnershipScript.riskLevel analysis <> UNKNOWN
  /\ (OwnershipScript.riskLevel analysis = LOW
      <-> ownerCall = Returned OwnershipScript.ZERO_ADDRESS /\ dangers = 0%nat)
  /\ (OwnershipScript.riskLevel analysis = LOW -> OwnershipScript.warnings analysis = [])
  /\ (OwnershipScript.isRenounced analysis = true ->
      (severity (OwnershipScript.riskLevel analysis) <= 1)%nat)
  /\ (OwnershipScript.riskLevel analysis = CRITICAL
      <-> OwnershipScript.isRenounced analysis = false /\ (3 <= dangers)%nat)
  /\ (forall message, ownerCall = Threw message -> dangers = 0%nat ->
        OwnershipScript.riskLevel analysis = MEDIUM
        /\ OwnershipScript.warnings analysis = [])
  /\ List.length (OwnershipScript.warnings analysis)
     = ((if OwnershipScript.isRenounced analysis then 0
         else match ownerCall with Returned _ => 1 | Threw _ => 0 end)
        + dangers
        + match pause, pausedCall with
          | true, Returned true => 1
          | _, _ => 0
          end)%nat.
Proof.
  cbv zeta. unfold OwnershipScript.analyzeOwnership.
  destruct ownerCall as [o|msg].
  - destruct (String.eqb o OwnershipScript.ZERO_ADDRESS) eqn:E.
    + apply String.eqb_eq in E. subst o.
      destruct mint, pause, blacklist, setFee, setTax, pausedCall as [[|]|msg];
        cbn; repeat apply conj; intros;
        try congruence; try lia; try reflexivity;
        repeat match goal with
               | H : _ /\ _ |- _ => destruct H
               end; try congruence; try lia; try (split; [reflexivity|lia]);
        try (split; congruence).
    + assert (N : Returned o <> Returned OwnershipScript.ZERO_ADDRESS :> Attempt string).
      { intro H. injection H as ->. rewrite String.eqb_refl in E. discriminate E. }
      destruct mint, pause, blacklist, setFee, setTax, pausedCall as [[|]|msg];
        cbn; repeat apply conj; intros;
        try congruence; try lia; try reflexivity;
        repeat match goal with
               | H : _ /\ _ |- _ => destruct H
               end; try congruence; try lia; try (split; [reflexivity|lia]);
        try (split; congruence).
  - destruct mint, pause, blacklist, setFee, setTax, pausedCall as [[|]|msg'];
      cbn; repeat apply conj; intros;
      try congruence; try lia; try reflexivity;
      repeat match goal with
             | H : _ /\ _ |- _ => destruct H
             end; try congruence; try lia; try (split; [reflexivity|lia]);
      try (split; congruence).
Qed.

Lemma ownership_script_levels_witness :
  OwnershipScript.riskLevel
    (OwnershipScript.analyzeOwnership (Threw "missing revert data") false false
                                      (Threw "missing revert data") false false false)
  = MEDIUM
  /\ OwnershipScript.warnings
       (OwnershipScript.analyzeOwnership (Threw "missing revert data") false false
                                         (Threw "missing revert data") false false false)
     = [].
Proof.
  apply (proj1 (proj2 (proj2 (proj2 (proj2 (proj2
           (ownership_script_levels (Threw "missing revert data") false false
                                    (Threw "missing revert data") false false false)))))))
    with (message := "missing revert data"%string); reflexivity.
Defined.

(* ================================================================== *)
(** ** [getEthPrice] beside [getNativeTokenPrice] *)
(* ================================================================== *)

(** X28.  When no live price can be had, the single-chain [getEthPrice]
    answers with the last price it cached, however old, and with 3500
    only when it never cached a usable one; the multi-chain
    [getNativeTokenPrice] answers 3500 for Ethereum whatever its cache
    holds.  Neither writes its cache then.  Apart from a DexScreener
    price taken as parsed, [getEthPrice] never returns [null], [NaN] or
    zero. *)
Theorem eth_price_prefers_last_known (s : EthPrice.State) (now later : Z)
        (gecko dex : Attempt (option JS.number)) :
  (forall p, EthPrice.cachedEthPrice s = Some p -> NativePrice.truthy p = true ->
             60000 <= now - EthPrice.ethPriceLastFetch s ->
             gecko = Returned None \/ gecko = Returned (Some (JS.int 0))
             \/ (exists m, gecko = Threw m)
                /\ (dex = Returned None \/ exists m, dex = Threw m) ->
             EthPrice.getEthPrice s now gecko dex = (Some p, s)
             /\ NativePrice.getNativeTokenPrice
                  [("ethereum"%string,
                    {| NativePrice.price := p;
                       NativePrice.time := EthPrice.ethPriceLastFetch s |})]
                  "ethereum" now later gecko dex
                = (NativePrice.Number (JS.int 3500),
                   [("ethereum"%string,
                     {| NativePrice.price := p;
                        NativePrice.time := EthPrice.ethPriceLastFetch s |})]))
  /\ (EthPrice.truthy (EthPrice.cachedEthPrice s) = false ->
      gecko = Returned None \/ gecko = Returned (Some (JS.int 0))
      \/ (exists m, gecko = Threw m)
         /\ (dex = Returned None \/ exists m, dex = Threw m) ->
      EthPrice.getEthPrice s now gecko dex = (Some (JS.int 3500), s))
  /\ ((forall m p, gecko = Threw m -> dex <> Returned (Some p)) ->
      EthPrice.truthy (fst (EthPrice.getEthPrice s now gecko dex)) = true).
Proof.
  split; [|split].
  - intros p Ec Tp Stale Hlive.
    assert (F : (now - EthPrice.ethPriceLastFetch s <? EthPrice.ETH_PRICE_CACHE_DURATION)
                = false).
    { apply Z.ltb_ge. unfold EthPrice.ETH_PRICE_CACHE_DURATION. exact Stale. }
    split.
    + unfold EthPrice.getEthPrice. rewrite F, andb_false_r. cbv zeta.
      unfold EthPrice.truthy. rewrite Ec, Tp.
      destruct Hlive as [->|[->|((m & ->) & [->|(m' & ->)])]]; reflexivity.
    + unfold NativePrice.getNativeTokenPrice. cbv zeta.
      change (Rpc.mapGet
                [("ethereum"%string,
                  {| NativePrice.price := p;
                     NativePrice.time := EthPrice.ethPriceLastFetch s |})] "ethereum")
        with (Some {| NativePrice.price := p;
                      NativePrice.time := EthPrice.ethPriceLastFetch s |}).
      cbn [NativePrice.time].
      change NativePrice.PRICE_CACHE_DURATION with EthPrice.ETH_PRICE_CACHE_DURATION.
      rewrite F.
      destruct Hlive as [->|[->|((m & ->) & [->|(m' & ->)])]]; reflexivity.
  - intros Tc Hlive. unfold EthPrice.getEthPrice. rewrite Tc. cbn [andb]. cbv zeta.
    destruct Hlive as [->|[->|((m & ->) & [->|(m' & ->)])]]; reflexivity.
  - intro Hdex. unfold EthPrice.getEthPrice.
    destruct (EthPrice.truthy (EthPrice.cachedEthPrice s)) eqn:Tc; cbn [andb].
    + destruct (now - EthPrice.ethPriceLastFetch s <? EthPrice.ETH_PRICE_CACHE_DURATION);
        [exact Tc|]. cbv zeta.
      destruct gecko as [[usd|]|m]; [destruct (NativePrice.truthy usd) eqn:Tu| |];
        try exact Tc; try exact Tu.
      destruct dex as [[p|]|m']; try exact Tc.
      exfalso. exact (Hdex m p eq_refl eq_refl).
    + cbv zeta.
      destruct gecko as [[usd|]|m]; [destruct (NativePrice.truthy usd) eqn:Tu| |];
        try reflexivity; try exact Tu.
      destruct dex as [[p|]|m']; try reflexivity.
      exfalso. exact (Hdex m p eq_refl eq_refl).
Qed.

Lemma eth_price_prefers_last_known_witness :
  EthPrice.getEthPrice
    {| EthPrice.cachedEthPrice := Some (JS.int 1800); EthPrice.ethPriceLastFetch := 0 |}
    86400000 (Threw "timeout") (Threw "timeout")
  = (Some (JS.int 1800),
     {| EthPrice.cachedEthPrice := Some (JS.int 1800); EthPrice.ethPriceLastFetch := 0 |})
  /\ NativePrice.getNativeTokenPrice
       [("ethereum"%string,
         {| NativePrice.price := JS.int 1800; NativePrice.time := 0 |})]
       "ethereum" 86400000 86400001 (Threw "timeout") (Threw "timeout")
     = (NativePrice.Number (JS.int 3500),
        [("ethereum"%string,
          {| NativePrice.price := JS.int 1800; NativePrice.time := 0 |})]).
Proof.
  apply (proj1 (eth_price_prefers_last_known
                  {| EthPrice.cachedEthPrice := Some (JS.int 1800);
                     EthPrice.ethPriceLastFetch := 0 |}
                  86400000 86400001 (Threw "timeout") (Threw "timeout"))
               (JS.int 1800) eq_refl eq_refl).
  - simpl. lia.
  - right. right. split; [exists "timeout"%string; reflexivity|].
    right. exists "timeout"%string. reflexivity.
Defined.
